(** * The tweet dataset pipeline: a shallow embedding and its properties

    The development follows [src/data/tweets_data.py] (the two dataset
    builders [TweetDataset] and [TweetDatasetGenerator]) and
    [src/embedding/BERT_EMBEDDING.py] (the low-level id, mask and segment
    builders).

    Python values are modelled as the code has them: [int] is [Z], [float]
    is an IEEE 754 binary64 number (the kernel's [spec_float] at precision
    53), a Python list or a finite [tf.data.Dataset] is a [list], and code
    that can raise returns a [result]. *)

From Stdlib Require Import ZArith Lia.
From Stdlib Require Import SpecFloat.
From stdpp Require Import base option list strings gmap.
From Equations Require Import Equations.

Local Open Scope Z_scope.

(** ** Exceptions and the error monad *)

Inductive exn : Type :=
| ZeroDivisionError
| OverflowError
| ValueError
| IndexError
| AssertionError
| TypeError
| NotFoundError
| InvalidArgumentError.

Inductive result (A : Type) : Type :=
| Ok (a : A)
| Raise (e : exn).
Arguments Ok {A} a.
Arguments Raise {A} e.

Definition rbind {A B : Type} (r : result A) (k : A -> result B) : result B :=
  match r with
  | Ok a => k a
  | Raise e => Raise e
  end.

#[global] Instance result_ret : MRet result := fun _ a => Ok a.
#[global] Instance result_bind : MBind result := fun _ _ k r => rbind r k.

Definition assert_ (b : bool) : result unit :=
  if b then Ok tt else Raise AssertionError.

Definition is_ok {A : Type} (r : result A) : bool :=
  match r with Ok _ => true | Raise _ => false end.

(** ** Python floats

    [float] is binary64.  The arithmetic is the kernel specification of
    IEEE 754 ([SFmul], [SFdiv], rounding to nearest even); the mixed
    operations convert the integer operand first, the way CPython does. *)

Module PyFloat.

Definition prec : Z := 53.
Definition emax : Z := 1024.

Definition is_zero (x : spec_float) : bool :=
  match x with S754_zero _ => true | _ => false end.

(** [float(n)]: the nearest binary64 number; an integer that rounds
    beyond the largest finite float raises [OverflowError]. *)
Definition of_int (n : Z) : result spec_float :=
  match binary_normalize prec emax n 0 false with
  | S754_infinity _ => Raise OverflowError
  | x => Ok x
  end.

(** [x * n] for a float [x] and an int [n]. *)
Definition mul_int (x : spec_float) (n : Z) : result spec_float :=
  y ← of_int n; Ok (SFmul prec emax x y).

(** [n * x] for an int [n] and a float [x]. *)
Definition int_mul (n : Z) (x : spec_float) : result spec_float :=
  y ← of_int n; Ok (SFmul prec emax y x).

(** [x / n] for a float [x] and an int [n]. *)
Definition div_int (x : spec_float) (n : Z) : result spec_float :=
  y ← of_int n;
  if is_zero y then Raise ZeroDivisionError else Ok (SFdiv prec emax x y).

(** [a / b] for two ints: the correctly rounded quotient. *)
Definition int_truediv (a b : Z) : result spec_float :=
  if b =? 0 then Raise ZeroDivisionError
  else if a =? 0 then Ok (S754_zero (b <? 0))
  else
    let '(q, e, l) := SFdiv_core_binary prec emax (Z.abs a) 0 (Z.abs b) 0 in
    match binary_round_aux prec emax (xorb (a <? 0) (b <? 0)) q e l with
    | S754_infinity _ => Raise OverflowError
    | x => Ok x
    end.

(** The integer part of the magnitude of a finite float. *)
Definition magnitude (m : positive) (e : Z) : Z :=
  match e with
  | Zneg p => Z.shiftr (Zpos m) (Zpos p)
  | _ => Z.shiftl (Zpos m) e
  end.

(** [int(x)]: truncation toward zero. *)
Definition to_int (x : spec_float) : result Z :=
  match x with
  | S754_zero _ => Ok 0
  | S754_finite s m e => Ok (cond_Zopp s (magnitude m e))
  | S754_infinity _ => Raise OverflowError
  | S754_nan => Raise ValueError
  end.

(** [math.floor(x)]: the largest integer not above [x]. *)
Definition floor (x : spec_float) : result Z :=
  match x with
  | S754_zero _ => Ok 0
  | S754_finite s m e =>
      Ok (match e with
          | Zneg p => Z.shiftr (cond_Zopp s (Zpos m)) (Zpos p)
          | _ => Z.shiftl (cond_Zopp s (Zpos m)) e
          end)
  | S754_infinity _ => Raise OverflowError
  | S754_nan => Raise ValueError
  end.

(** A float that is not below zero: a zero of either sign or a positive
    finite number. *)
Definition nonneg (x : spec_float) : bool :=
  match x with
  | S754_zero _ => true
  | S754_finite s _ _ => negb s
  | _ => false
  end.

(** [1.0] *)
Definition one : spec_float := S754_finite false 4503599627370496 (-52).

(** A fraction: a binary64 number between 0 and 1. *)
Definition is_fraction (x : spec_float) : bool :=
  valid_binary prec emax x && nonneg x && SFleb x one.

(** The float literals used below, as mantissa and exponent. *)
Definition f0_2 : spec_float := S754_finite false 7205759403792794 (-55).
Definition f0_75 : spec_float := S754_finite false 6755399441055744 (-53).
Definition f0_0 : spec_float := S754_zero false.

End PyFloat.


(** ** Python lists *)

Definition len {A : Type} (l : list A) : Z := Z.of_nat (length l).

(** [l[i]] for a non-negative index. *)
Definition py_index {A : Type} (l : list A) (i : nat) : result A :=
  match l !! i with
  | Some a => Ok a
  | None => Raise IndexError
  end.

(** [[x] * k]: an empty list when [k] is not positive. *)
Definition py_repeat {A : Type} (x : A) (k : Z) : list A :=
  replicate (Z.to_nat k) x.

(** [a // b] on ints. *)
Definition floordiv (a b : Z) : result Z :=
  if b =? 0 then Raise ZeroDivisionError else Ok (a / b).

(** Truth value of an optional list: [None] and [[]] are false. *)
Definition truthy {A : Type} (l : option (list A)) : bool :=
  match l with
  | Some (_ :: _) => true
  | _ => false
  end.

(** ** The dataset library

    A finite [tf.data.Dataset] is the list of its elements in traversal
    order.  [repeat()] is the only operation of the pipeline that yields an
    unbounded dataset; it is applied last, so an unbounded dataset is kept
    as the finite cycle it repeats. *)

Module Dataset.

Section Ops.
Context {A : Type}.

(** Consecutive groups of [n] elements; the last group may be shorter
    and is left out when [drop_remainder] is set. *)
Equations? groups (n : nat) (drop_remainder : bool) (l : list A)
  : list (list A) by wf (length l) lt :=
  groups 0 _ _ := [];
  groups (S n) _ [] := [];
  groups (S n) dr (x :: l) with (length l <? n)%nat => {
    | true := if dr then [] else [x :: l];
    | false := (x :: take n l) :: groups (S n) dr (drop n l) }.
Proof. rewrite length_drop. simpl. lia. Qed.

(** [ds.batch(batch_size, drop_remainder)] *)
Definition batch (batch_size : Z) (drop_remainder : bool) (ds : list A)
  : result (list (list A)) :=
  if batch_size <=? 0 then Raise InvalidArgumentError
  else Ok (groups (Z.to_nat batch_size) drop_remainder ds).

(** [ds.take(count)]: a negative count takes everything. *)
Definition take (count : Z) (ds : list A) : list A :=
  if count <? 0 then ds else list.take (Z.to_nat count) ds.

(** [ds.skip(count)]: a negative count skips everything. *)
Definition skip (count : Z) (ds : list A) : list A :=
  if count <? 0 then [] else list.drop (Z.to_nat count) ds.

(** [ds.concatenate(other)] *)
Definition concatenate (ds other : list A) : list A := ds ++ other.

(** [ds.prefetch(buffer_size)] and [ds.cache(path)] change when the
    elements are computed, not which elements are produced. *)
Definition prefetch (buffer_size : Z) (ds : list A) : list A := ds.
Definition cache (path : string) (ds : list A) : list A := ds.

End Ops.

(** A dataset as a consumer sees it. *)
Inductive t (A : Type) : Type :=
| Finite (elements : list A)
| Repeated (cycle : list A).
Arguments Finite {A} elements.
Arguments Repeated {A} cycle.

(** [ds.repeat()] *)
Definition repeat {A : Type} (ds : list A) : t A := Repeated ds.

(** The element delivered at position [i] of one traversal, [None] once
    the traversal has ended. *)
Definition nth_element {A : Type} (d : t A) (i : nat) : option A :=
  match d with
  | Finite l => l !! i
  | Repeated l => l !! (i mod length l)%nat
  end.

Definition zip {A B : Type} (xs : list A) (ys : list B) : list (A * B) :=
  zip_with pair xs ys.

End Dataset.

(** ** [src/embedding/BERT_EMBEDDING.py] *)

Module BERT_EMBEDDING.

Section Builders.
(** [tokenizer.convert_tokens_to_ids], the vocabulary lookup of the
    external tokenizer. *)
Variable convert_tokens_to_ids : list string -> list Z.

(** Mask for padding. *)
Definition get_masks (tokens : list string) (max_seq_length : Z)
  : result (list Z) :=
  if len tokens >? max_seq_length then Raise IndexError
  else Ok (py_repeat 1 (len tokens)
             ++ py_repeat 0 (max_seq_length - len tokens)).

(** Segments: 0 for the first sequence, 1 for the second. *)
Definition get_segments (tokens : list string) (max_seq_length : Z)
  : result (list Z) :=
  if len tokens >? max_seq_length then Raise IndexError
  else
    let '(segments, _) :=
      foldl (fun '(segments, current_segment_id) token =>
               (segments ++ [current_segment_id],
                if String.eqb token "[SEP]" then 1
                else current_segment_id))
            ([], 0) tokens in
    Ok (segments ++ py_repeat 0 (max_seq_length - len tokens)).

(** Token ids from the tokenizer vocabulary. *)
Definition get_ids (tokens : list string) (max_seq_length : Z) : list Z :=
  let token_ids := convert_tokens_to_ids tokens in
  let input_ids :=
    token_ids ++ py_repeat 0 (max_seq_length - len token_ids) in
  input_ids.

End Builders.

End BERT_EMBEDDING.

(** ** Dataset elements and the outside world *)

(** An element of a dataset: a line of text, an integer tensor, a pair of
    components, or a batch of elements stacked by [batch]. *)
#[warnings="-register-all"]
Inductive element : Type :=
| Text (line : string)
| Tensor (xs : list Z)
| Pair (a b : element)
| Batch (es : list element).

(** [tf.one_hot(label, 2)] *)
Definition one_hot (label : Z) : element :=
  Tensor [if label =? 0 then 1 else 0; if label =? 1 then 1 else 0].

(** [padded_shapes]: one length per component. *)
Inductive shapes : Type :=
| Shape (n : Z)
| Shapes2 (s1 s2 : shapes).

(** What the pipeline takes from its environment. *)
Record world : Type := {
  (** the files on disk, by path, as their lines *)
  files : gmap string (list string);
  (** [ds.shuffle(buffer_size)] *)
  shuffle : forall A : Type, Z -> list A -> list A;
  (** the word-piece ids of a text, before the boundary tokens are added *)
  tokenize : string -> list Z;
  (** [str(sentence)] of a string tensor *)
  tensor_str : string -> string;
  (** the vocabulary pass [TweetDataset.encode_text], by mode *)
  encode_text_pass : bool -> list element -> result (list element);
  (** [data.full_dimension] *)
  full_dimension : Z
}.

(** [ds.shuffle(buffer_size)] when a pipeline is built: the library
    rejects a buffer size that is not positive, the order is the
    world's. *)
Definition checked_shuffle (w : world) (buffer_size : Z) (ds : list element)
  : result (list element) :=
  if buffer_size <=? 0 then Raise InvalidArgumentError
  else Ok (shuffle w element buffer_size ds).

(** Modelled from the spec: the external line reader
    [tf.data.TextLineDataset].  Section 4.1 of the specification requires
    every path to be resolvable when the pipeline is built: reading a
    missing file fails with a NotFound error, and an existing file yields
    its lines as they are. *)
Definition TextLineDataset (w : world) (path : string) : result (list element) :=
  match files w !! path with
  | Some lines => Ok (Text <$> lines)
  | None => Raise NotFoundError
  end.

Definition cls_id : Z := 101.
Definition sep_id : Z := 102.

(** Modelled from the spec: the external tokenizer's [encode_plus] with
    [add_special_tokens], [pad_to_max_length] and [return_attention_mask].
    Section 4.3 of the specification: the token ids and the attention mask
    are both truncated or padded to exactly the maximum length, and the
    boundary tokens are inserted by the tokenizer. *)
Definition encode_plus (w : world) (text : string) (max_length : Z)
  : list Z * list Z :=
  let n := Z.to_nat max_length in
  let body := take (n - 2) (tokenize w text) in
  let ids := cls_id :: body ++ [sep_id] in
  let pad := (n - length ids)%nat in
  (ids ++ replicate pad 0, replicate (length ids) 1 ++ replicate pad 0).

(** [ds.padded_batch(batch_size, padded_shapes)]: every component is padded
    with zeros to its padded shape, then consecutive elements are batched.
    A component that is not a sequence, or is longer than its padded
    shape, is rejected. *)
Fixpoint pad_element (s : shapes) (e : element) : result element :=
  match s, e with
  | Shape n, Tensor xs =>
      if len xs <=? n then Ok (Tensor (xs ++ py_repeat 0 (n - len xs)))
      else Raise InvalidArgumentError
  | Shapes2 s1 s2, Pair a b =>
      a' ← pad_element s1 a; b' ← pad_element s2 b; Ok (Pair a' b')
  | _, _ => Raise ValueError
  end.

Definition padded_batch (batch_size : Z) (padded_shapes : shapes)
  (ds : list element) : result (list element) :=
  padded ← mapM (M := result) (pad_element padded_shapes) ds;
  batches ← Dataset.batch batch_size false padded;
  Ok (Batch <$> (batches : list (list element))).

(** ** [src/data/tweets_data.py]: [TweetDataset] *)

Module TweetDataset.

(** The attributes of a [TweetDataset] object. *)
Record t : Type := {
  input_files : list string;
  labels : option (list Z);
  buffer_size : Z;
  size : Z;
  dataset : list element;
  do_padding : bool;
  steps_per_epoch : option Z;
  valid_steps_per_epoch : option Z;
  train : option (list element);
  validate : option (list element);
  test : option (list element);
  pred_data : option (list element)
}.

(** Doing the real Bert job: the maximum length is the literal 50. *)
Definition get_bert_encoding (w : world) (sentence : string)
  : list Z * list Z :=
  encode_plus w (tensor_str w sentence) 50.

Definition tf_encode (w : world) (sentence : element) : result element :=
  match sentence with
  | Text line =>
      let '(result_ids, result_masks) := get_bert_encoding w line in
      Ok (Pair (Tensor result_ids) (Tensor result_masks))
  | _ => Raise TypeError
  end.

(** [load_dataset(self, labels, bert)], reading [self.input_files] and
    [self.size]. *)
Definition load_dataset (w : world) (self_input_files : list string)
  (self_size : Z) (labels : option (list Z)) (bert : bool)
  : result (list element) :=
  (* os.path.join(abs_path, f): the files of the world are kept under the
     names the caller gives *)
  let paths := self_input_files in
  (* reading text files *)
  datasets ← mapM (M := result)
    (fun path =>
       lines ← TextLineDataset w path;
       count ← floordiv self_size (len paths);
       Ok (Dataset.take count lines))
    paths;
  (* embedding to bert, if requested *)
  datasets ←
    (if bert then mapM (M := result) (mapM (M := result) (tf_encode w)) datasets
     else Ok datasets);
  (* adding labels, if requested *)
  datasets ←
    match labels with
    | Some (l :: ls) =>
        _ ← assert_ (len (l :: ls) =? len self_input_files);
        mapM (M := result)
          (fun '(i, d) =>
             label ← py_index (l :: ls) i;
             Ok ((fun x => Pair x (one_hot label)) <$> (d : list element)))
          (imap pair datasets)
    | _ => Ok datasets
    end;
  (* merging the datasets *)
  dataset_final ←
    match datasets with
    | d :: rest => Ok (foldl Dataset.concatenate d rest)
    | [] => Raise IndexError
    end;
  (* [lambda line: (line)] takes one argument, the records of the
     embedding have two components *)
  dataset_final ←
    (if truthy labels then Ok (dataset_final : list element)
     else if bert then Raise TypeError
     else Ok ((fun line => line) <$> dataset_final));
  checked_shuffle w self_size dataset_final.

(** The three batch counts of [split_dataset]. *)
Definition split_counts (self_size batch_size : Z)
  (validation_size test_size : spec_float) : result (Z * Z * Z) :=
  validation_split ←
    (x ← PyFloat.mul_int validation_size self_size;
     y ← PyFloat.div_int x batch_size;
     PyFloat.to_int y);
  test_split ←
    (x ← PyFloat.mul_int test_size self_size;
     y ← PyFloat.div_int x batch_size;
     PyFloat.to_int y);
  total ← (q ← PyFloat.int_truediv self_size batch_size; PyFloat.to_int q);
  Ok (validation_split, test_split, total - validation_split - test_split).

Definition maybe_pad (do_padding : bool) (batch_size max_len : Z)
  (ds : list element) : result (list element) :=
  if do_padding
  then padded_batch batch_size (Shapes2 (Shape max_len) (Shape 1)) ds
  else Ok ds.

(** Splits the dataset in training, validation and test. *)
Definition split_dataset (self : t) (batch_size : Z)
  (validation_size test_size : spec_float) (max_len : Z)
  : result (t * (list element * list element * list element)) :=
  batches ← Dataset.batch batch_size false (dataset self);
  let batched := Batch <$> (batches : list (list element)) in
  '(validation_split, test_split, train_split) ←
    split_counts (size self) batch_size validation_size test_size;
  (* train *)
  train_data ←
    maybe_pad (do_padding self) batch_size max_len
      (Dataset.skip (validation_split + test_split) batched);
  (* valid *)
  validation_data ←
    maybe_pad (do_padding self) batch_size max_len
      (Dataset.take validation_split batched);
  (* test *)
  test_data ←
    maybe_pad (do_padding self) batch_size max_len
      (Dataset.take test_split (Dataset.skip validation_split batched));
  let self' :=
    {| input_files := input_files self; labels := labels self;
       buffer_size := buffer_size self; size := size self;
       dataset := batched; do_padding := do_padding self;
       steps_per_epoch := Some train_split;
       valid_steps_per_epoch := Some validation_split;
       train := train self; validate := validate self;
       test := test self; pred_data := pred_data self |} in
  Ok (self',
      (Dataset.prefetch (buffer_size self) train_data,
       Dataset.prefetch (buffer_size self) validation_data,
       Dataset.prefetch (buffer_size self) test_data)).

(** The prediction branch of the constructor: no labels. *)
Definition predict_data (w : world) (self : t) (batch_size max_len : Z)
  : result t :=
  dataset' ←
    (if do_padding self
     then padded_batch batch_size (Shape max_len) (dataset self)
     else Ok (dataset self));
  pred_data' ← checked_shuffle w (size self) dataset';
  Ok {| input_files := input_files self; labels := labels self;
        buffer_size := buffer_size self; size := size self;
        dataset := dataset'; do_padding := do_padding self;
        steps_per_epoch := steps_per_epoch self;
        valid_steps_per_epoch := valid_steps_per_epoch self;
        train := train self; validate := validate self;
        test := test self;
        pred_data := Some pred_data' |}.

(** The constructor.  The [vocabulary] argument only feeds the vocabulary
    pass, which the world provides together with the tokenizer. *)
Definition init (w : world) (input_files : list string)
  (labels : option (list Z)) (batch_size buffer_size max_len : Z)
  (validation_size test_size : spec_float)
  (encode_text bert_embed do_padding caching : bool) (size : Z)
  : result t :=
  dataset ← load_dataset w input_files size labels bert_embed;
  dataset ←
    (if encode_text && negb bert_embed
     then encode_text_pass w (truthy labels) dataset
     else Ok dataset);
  let self :=
    {| input_files := input_files; labels := labels;
       buffer_size := buffer_size; size := size;
       dataset := dataset; do_padding := do_padding;
       steps_per_epoch := None; valid_steps_per_epoch := None;
       train := None; validate := None; test := None;
       pred_data := None |} in
  if truthy labels then
    '(self, (train, validate, test)) ←
      split_dataset self batch_size validation_size test_size max_len;
    let train := if caching then Dataset.cache "../data/train_data" train else train in
    let validate := if caching then Dataset.cache "../data/valid_data" validate else validate in
    let test := if caching then Dataset.cache "../data/test_data" test else test in
    Ok {| input_files := TweetDataset.input_files self;
          labels := TweetDataset.labels self;
          buffer_size := TweetDataset.buffer_size self;
          size := TweetDataset.size self;
          dataset := TweetDataset.dataset self;
          do_padding := TweetDataset.do_padding self;
          steps_per_epoch := steps_per_epoch self;
          valid_steps_per_epoch := valid_steps_per_epoch self;
          train := Some train; validate := Some validate;
          test := Some test; pred_data := pred_data self |}
  else predict_data w self batch_size max_len.

End TweetDataset.

(** ** [src/data/tweets_data.py]: [TweetDatasetGenerator] *)

Module TweetDatasetGenerator.

(** The attributes of a [TweetDatasetGenerator] object. *)
Record t : Type := {
  size : Z;
  max_len : Z;
  train_size : Z;
  valid_size : Z;
  test_size : Z;
  train : Dataset.t element;
  valid : Dataset.t element;
  test : Dataset.t element
}.

(** [labels[i]] on the optional label list. *)
Definition label_at (labels : option (list Z)) (i : nat) : result Z :=
  match labels with
  | Some ls => py_index ls i
  | None => Raise TypeError
  end.

(** Loading and merging the files, and building the labels. *)
Definition load_data_from_files (w : world) (self_size : Z)
  (files : list string) (labels : option (list Z))
  : result (list element * list Z) :=
  (* os.path.join(abs_path, f), as in [TweetDataset.load_dataset] *)
  let paths := files in
  length ← floordiv self_size (len paths);
  loaded ← mapM (M := result)
    (fun '(i, path) =>
       lines ← TextLineDataset w path;
       label ← label_at labels i;
       Ok (lines, py_repeat label length))
    (imap pair paths);
  let datasets := fst <$> (loaded : list (list element * list Z)) in
  let dataset_labels := snd <$> loaded in
  (* merging the datasets *)
  dataset_final ←
    match datasets with
    | d :: rest => Ok (foldl Dataset.concatenate d rest)
    | [] => Raise IndexError
    end;
  dataset_final_labels ←
    match dataset_labels with
    | d :: rest => Ok (foldl Dataset.concatenate d rest)
    | [] => Raise IndexError
    end;
  (* shuffling, with buffer size [length]; the library's rejection of a
     buffer size below 1 is left out here *)
  Ok (Dataset.cache "../data/x" (shuffle w element length dataset_final),
      Dataset.cache "../data/y" (shuffle w Z length dataset_final_labels)).

(** Doing the real Bert job: the maximum length is [self.max_len]. *)
Definition get_bert_encoding (w : world) (self_max_len : Z)
  (sentence : string) : list Z * list Z :=
  encode_plus w (tensor_str w sentence) self_max_len.

Definition tf_encode (w : world) (self_max_len : Z) (sentence : element)
  : result element :=
  match sentence with
  | Text line =>
      let '(result_ids, result_masks) :=
        get_bert_encoding w self_max_len line in
      Ok (Pair (Tensor result_ids) (Tensor result_masks))
  | _ => Raise TypeError
  end.

Definition preprocess_xy (w : world) (self_max_len : Z)
  (x : list element) (y : list Z) : result (list element * list element) :=
  let y := one_hot <$> y in
  x ← mapM (M := result) (tf_encode w self_max_len) x;
  Ok (x, y).

(** [split_data]: the element counts, the per-split batch counts stored
    on the object, and the three slices. *)
Definition split_data (self_size : Z) (x y : list element)
  (train_p valid_p test_p : spec_float) (batch_size : Z)
  : result ((Z * Z * Z) * (list element * list element * list element)) :=
  train_size ← (v ← PyFloat.int_mul self_size train_p; PyFloat.to_int v);
  valid_size ← (v ← PyFloat.int_mul self_size valid_p; PyFloat.to_int v);
  test_size ← (v ← PyFloat.int_mul self_size test_p; PyFloat.to_int v);
  self_train_size ← floordiv train_size batch_size;
  self_valid_size ← floordiv valid_size batch_size;
  self_test_size ← floordiv test_size batch_size;
  let dataset := uncurry Pair <$> Dataset.zip x y in
  let train := Dataset.take train_size dataset in
  let valid := Dataset.take valid_size (Dataset.skip train_size dataset) in
  let test :=
    Dataset.take test_size (Dataset.skip (train_size + valid_size) dataset) in
  Ok ((self_train_size, self_valid_size, self_test_size),
      (train, valid, test)).

Definition batch_and_prepare (dataset : list element) (is_training : bool)
  (batch_size : Z) : result (Dataset.t element) :=
  batches ← Dataset.batch batch_size is_training dataset;
  let dataset := Batch <$> (batches : list (list element)) in
  let dataset := Dataset.repeat dataset in
  Ok dataset.

(** The constructor. *)
Definition init (w : world) (input_files : list string)
  (labels : option (list Z)) (batch_size max_len : Z)
  (train_p valid_p test_p : spec_float) (size : Z) : result t :=
  _ ← assert_ (size <? full_dimension w);
  '(x, y) ← load_data_from_files w size input_files labels;
  '(x, y) ← preprocess_xy w max_len x y;
  '((train_size, valid_size, test_size), (train, val, test)) ←
    split_data size x y train_p valid_p test_p batch_size;
  train ← batch_and_prepare train true batch_size;
  valid ← batch_and_prepare val false batch_size;
  test ← batch_and_prepare test false batch_size;
  Ok {| size := size; max_len := max_len;
        train_size := train_size; valid_size := valid_size;
        test_size := test_size;
        train := train; valid := valid; test := test |}.

End TweetDatasetGenerator.

(** [fraction * size / batch_size], the float a count is cut from. *)
Definition scaled (fraction : spec_float) (size batch_size : Z)
  : result spec_float :=
  x ← PyFloat.mul_int fraction size; PyFloat.div_int x batch_size.

(** ** The batch counts as the specification words them

    [floor] in place of [int], on the same float expressions. *)

Definition spec_batch_counts (size batch_size : Z)
  (validation_fraction test_fraction : spec_float) : result (Z * Z * Z) :=
  validation_batches ←
    (y ← scaled validation_fraction size batch_size; PyFloat.floor y);
  test_batches ←
    (y ← scaled test_fraction size batch_size; PyFloat.floor y);
  total_batches ←
    (q ← PyFloat.int_truediv size batch_size; PyFloat.floor q);
  Ok (validation_batches, test_batches,
      total_batches - validation_batches - test_batches).

(** [int(size / batch_size)], the number of whole batches. *)
Definition total_batches (size batch_size : Z) : result Z :=
  q ← PyFloat.int_truediv size batch_size; PyFloat.to_int q.

(** A float that is not a negative finite number. *)
Definition not_negative (x : spec_float) : Prop :=
  match x with
  | S754_finite s _ _ => s = false
  | _ => True
  end.

(** The records of a batch. *)
Definition unbatch (e : element) : list element :=
  match e with
  | Batch es => es
  | _ => [e]
  end.

(** A float that is a zero, or a finite number below [2 ^ k] whose exponent the
    format allows. *)
Definition below (k : Z) (x : spec_float) : Prop :=
  match x with
  | S754_zero _ => True
  | S754_finite _ m e => Z.pos (digits2_pos m) + e <= k /\ e <= 971
  | _ => False
  end.

(** A float that is a finite number, or an infinity, not below
    [2 ^ (j - 1)]. *)
Definition at_least (j : Z) (x : spec_float) : Prop :=
  match x with
  | S754_finite _ m e => j <= Z.pos (digits2_pos m) + e
  | S754_infinity _ => True
  | _ => False
  end.

(** A small world for examples: two files of three lines each, a shuffle
    that reverses, and a tokenizer that gives one id per character. *)
Definition demo_world : world := {|
  files := {[ "pos.txt" := ["good"; "nice"; "fine"];
              "neg.txt" := ["bad"; "poor"; "sad"] ]};
  shuffle := fun _ _ l => reverse l;
  tokenize := fun s => Z.of_nat <$> seq 0 (String.length s);
  tensor_str := fun s => s;
  encode_text_pass := fun _ ds => Ok ds;
  full_dimension := 1000
|}.

(** A pipeline object about to be split: ten labelled records. *)
Definition demo_supervised : TweetDataset.t := {|
  TweetDataset.input_files := ["pos.txt"];
  TweetDataset.labels := Some [0];
  TweetDataset.buffer_size := 1000;
  TweetDataset.size := 10;
  TweetDataset.dataset :=
    (fun i => Pair (Tensor [Z.of_nat i]) (one_hot 0)) <$> seq 1 10;
  TweetDataset.do_padding := false;
  TweetDataset.steps_per_epoch := None;
  TweetDataset.valid_steps_per_epoch := None;
  TweetDataset.train := None;
  TweetDataset.validate := None;
  TweetDataset.test := None;
  TweetDataset.pred_data := None
|}.

(** The same object with padding on. *)
Definition demo_supervised_padded : TweetDataset.t := {|
  TweetDataset.input_files := TweetDataset.input_files demo_supervised;
  TweetDataset.labels := TweetDataset.labels demo_supervised;
  TweetDataset.buffer_size := TweetDataset.buffer_size demo_supervised;
  TweetDataset.size := TweetDataset.size demo_supervised;
  TweetDataset.dataset := TweetDataset.dataset demo_supervised;
  TweetDataset.do_padding := true;
  TweetDataset.steps_per_epoch := None;
  TweetDataset.valid_steps_per_epoch := None;
  TweetDataset.train := None;
  TweetDataset.validate := None;
  TweetDataset.test := None;
  TweetDataset.pred_data := None
|}.

(** Every file of the list is on disk. *)
Definition all_present (w : world) (paths : list string) : Prop :=
  Forall (fun p => is_Some (files w !! p)) paths.

(** ** [src/embedding/BERT_EMBEDDING.py]: the embedding run *)

(** The external BERT layer with its tokenizer: [tokenizer.tokenize],
    [tokenizer.convert_tokens_to_ids], the pooled output of
    [model.predict] on ids, masks and segments, and a row of [np.zeros]. *)
Record bert (row : Type) : Type := {
  bert_tokenize : string -> list string;
  bert_convert_tokens_to_ids : list string -> list Z;
  bert_predict : list Z -> list Z -> list Z -> row;
  bert_zero_row : row
}.
Arguments bert_tokenize {row} _ _.
Arguments bert_convert_tokens_to_ids {row} _ _.
Arguments bert_predict {row} _ _ _ _.
Arguments bert_zero_row {row} _.

(** [N], the number of rows of the output matrix. *)
Definition embedding_rows : nat := Z.to_nat 20000.

(** [open(file)] read line by line: a missing file raises. *)
Definition open_lines (fs : gmap string (list string)) (file : string)
  : result (list string) :=
  match fs !! file with
  | Some lines => Ok lines
  | None => Raise NotFoundError
  end.

(** [output[i, :] = v]: an index beyond the last row raises. *)
Definition set_row {row : Type} (output : list row) (i : nat) (v : row)
  : result (list row) :=
  if (i <? length output)%nat then Ok (<[i:=v]> output) else Raise IndexError.

(** The three model inputs of one line. *)
Definition model_inputs {row : Type} (m : bert row) (line : string)
  (max_seq_length : Z) : result (list Z * list Z * list Z) :=
  let stokens := bert_tokenize m line in
  let stokens := ["[CLS]"] ++ stokens ++ ["[SEP]"] in
  let input_ids :=
    BERT_EMBEDDING.get_ids (bert_convert_tokens_to_ids m) stokens
      max_seq_length in
  input_masks ← BERT_EMBEDDING.get_masks stokens max_seq_length;
  input_segments ← BERT_EMBEDDING.get_segments stokens max_seq_length;
  Ok (input_ids, input_masks, input_segments).

(** The inner loop of [get_BERT_EMBEDDING]: the lines of file [i]. *)
Fixpoint embed_lines {row : Type} (m : bert row) (max_seq_length : Z)
  (i : nat) (lines : list string) (output : list row) : result (list row) :=
  match lines with
  | [] => Ok output
  | line :: rest =>
      '(input_ids, input_masks, input_segments) ←
        model_inputs m line max_seq_length;
      let pool_embs := bert_predict m input_ids input_masks input_segments in
      output ← set_row output i pool_embs;
      embed_lines m max_seq_length i rest output
  end.

(** The outer loop of [get_BERT_EMBEDDING]: the files from index [i] on. *)
Fixpoint embed_files {row : Type} (fs : gmap string (list string))
  (m : bert row) (max_seq_length : Z) (i : nat) (input_files : list string)
  (output : list row) : result (list row) :=
  match input_files with
  | [] => Ok output
  | file :: rest =>
      lines ← open_lines fs file;
      output ← embed_lines m max_seq_length i lines output;
      embed_files fs m max_seq_length (S i) rest output
  end.

(** [get_BERT_EMBEDDING(input_files, output_location, max_seq_length)]: the
    matrix that is returned, which is also the one [np.savez] stores. *)
Definition get_BERT_EMBEDDING {row : Type} (fs : gmap string (list string))
  (m : bert row) (input_files : list string) (max_seq_length : Z)
  : result (list row) :=
  let output := replicate embedding_rows (bert_zero_row m) in
  embed_files fs m max_seq_length 0 input_files output.

(** The row the model gives for one line. *)
Definition line_row {row : Type} (m : bert row) (max_seq_length : Z)
  (line : string) : result row :=
  '(input_ids, input_masks, input_segments) ←
    model_inputs m line max_seq_length;
  Ok (bert_predict m input_ids input_masks input_segments).

(** A small model for examples: one token per character, the length of a
    token as its id, and the three inputs themselves as the row. *)
Definition demo_bert : bert (list Z * list Z * list Z) := {|
  bert_tokenize := fun s => replicate (String.length s) "x";
  bert_convert_tokens_to_ids := fmap (fun s => Z.of_nat (String.length s));
  bert_predict := fun ids masks segments => (ids, masks, segments);
  bert_zero_row := ([], [], [])
|}.

(** * Properties *)

(** ** The error monad *)

Lemma bind_Ok {A B : Type} (r : result A) (k : A -> result B) (b : B) :
  r ≫= k = Ok b -> exists a, r = Ok a /\ k a = Ok b.
Proof. destruct r as [a|e]; cbn; [eauto | discriminate]. Qed.

Lemma bind_Ok_l {A B : Type} (a : A) (k : A -> result B) :
  Ok a ≫= k = k a.
Proof. reflexivity. Qed.

Lemma bind_Raise_l {A B : Type} (e : exn) (k : A -> result B) :
  Raise e ≫= k = Raise e.
Proof. reflexivity. Qed.

(** Splits a hypothesis [r ≫= k = Ok b] into its two steps, repeatedly. *)
Ltac inv_bind :=
  repeat match goal with
  | H : _ ≫= _ = Ok _ |- _ =>
      let a := fresh "a" in
      let Ha := fresh "Ha" in
      apply bind_Ok in H; destruct H as (a & Ha & H)
  | H : Ok _ = Ok _ |- _ => injection H as H
  | H : Raise _ = Ok _ |- _ => discriminate H
  end.

(** ** Signs of float results *)

Section FloatSigns.

Lemma binary_round_aux_sign (s : bool) (m e : Z) (l : location) :
  match binary_round_aux PyFloat.prec PyFloat.emax s m e l with
  | S754_finite s' _ _ => s' = s
  | _ => True
  end.
Proof.
  unfold binary_round_aux.
  destruct (shr_fexp _ _ m e l) as [mrs e'].
  destruct (shr_fexp _ _ _ e' loc_Exact) as [mrs' e''].
  destruct (shr_m mrs'); [exact I | | exact I].
  destruct (e'' <=? _); [reflexivity | exact I].
Qed.

Lemma of_int_not_negative (n : Z) (y : spec_float) :
  0 <= n -> PyFloat.of_int n = Ok y -> not_negative y.
Proof.
  intros Hn. unfold PyFloat.of_int, binary_normalize.
  destruct n as [|p|p]; [| | lia].
  - intros [= <-]. exact I.
  - unfold binary_round.
    destruct (shl_align p 0 _) as [mz ez].
    pose proof (binary_round_aux_sign false (Z.pos mz) ez loc_Exact) as Hs.
    destruct (binary_round_aux _ _ false (Z.pos mz) ez loc_Exact);
      intros [= <-]; exact Hs.
Qed.

Lemma SFmul_not_negative (x y : spec_float) :
  not_negative x -> not_negative y ->
  not_negative (SFmul PyFloat.prec PyFloat.emax x y).
Proof.
  destruct x as [sx|sx| |sx mx ex], y as [sy|sy| |sy my ey];
    cbn [SFmul not_negative]; try exact (fun _ _ => I).
  intros -> ->.
  exact (binary_round_aux_sign _ _ _ _).
Qed.

Lemma SFdiv_not_negative (x y : spec_float) :
  not_negative x -> not_negative y ->
  not_negative (SFdiv PyFloat.prec PyFloat.emax x y).
Proof.
  destruct x as [sx|sx| |sx mx ex], y as [sy|sy| |sy my ey];
    cbn [SFdiv not_negative]; try exact (fun _ _ => I).
  intros -> ->.
  destruct (SFdiv_core_binary _ _ _ _ _ _) as [[mz ez] lz].
  exact (binary_round_aux_sign _ _ _ _).
Qed.

Lemma int_truediv_not_negative (a b : Z) (q : spec_float) :
  0 <= a -> 0 < b -> PyFloat.int_truediv a b = Ok q -> not_negative q.
Proof.
  intros Ha Hb. unfold PyFloat.int_truediv.
  destruct (b =? 0); [discriminate |].
  destruct (a =? 0); [intros [= <-]; exact I |].
  destruct (SFdiv_core_binary _ _ _ _ _ _) as [[mz ez] lz].
  replace (a <? 0) with false by (symmetry; apply Z.ltb_ge; lia).
  replace (b <? 0) with false by (symmetry; apply Z.ltb_ge; lia).
  pose proof (binary_round_aux_sign (xorb false false) mz ez lz) as Hs.
  destruct (binary_round_aux _ _ _ mz ez lz); intros [= <-]; exact Hs.
Qed.

Lemma nonneg_not_negative (x : spec_float) :
  PyFloat.nonneg x = true -> not_negative x.
Proof.
  destruct x as [s|s| |s m e]; cbn; try (intros; exact I).
  destruct s; [discriminate | reflexivity].
Qed.

Lemma magnitude_nonneg (m : positive) (e : Z) : 0 <= PyFloat.magnitude m e.
Proof.
  unfold PyFloat.magnitude. destruct e.
  - apply Z.shiftl_nonneg. lia.
  - apply Z.shiftl_nonneg. lia.
  - apply Z.shiftr_nonneg. lia.
Qed.

(** On a float that is not negative, [int] is [floor]. *)
Lemma to_int_floor (x : spec_float) :
  not_negative x -> PyFloat.to_int x = PyFloat.floor x.
Proof.
  destruct x as [s|s| |s m e]; cbn; try reflexivity.
  intros ->. destruct e; reflexivity.
Qed.

Lemma to_int_nonneg (x : spec_float) (z : Z) :
  not_negative x -> PyFloat.to_int x = Ok z -> 0 <= z.
Proof.
  destruct x as [s|s| |s m e]; cbn; try discriminate.
  - intros _ [= <-]. lia.
  - intros -> [= <-]. apply magnitude_nonneg.
Qed.

(** [int(fraction * size / batch_size)] goes through floats that are
    not negative. *)
Lemma scaled_not_negative (fraction : spec_float) (size batch_size : Z)
  (y : spec_float) :
  PyFloat.nonneg fraction = true -> 0 <= size -> 0 < batch_size ->
  (x ← PyFloat.mul_int fraction size; PyFloat.div_int x batch_size) = Ok y ->
  not_negative y.
Proof.
  intros Hf Hs Hb. unfold PyFloat.mul_int, PyFloat.div_int.
  destruct (PyFloat.of_int size) as [fs|] eqn:Es; [| discriminate].
  destruct (PyFloat.of_int batch_size) as [fb|] eqn:Eb; [| discriminate].
  cbn. destruct (PyFloat.is_zero fb); [discriminate |].
  intros [= <-]. apply SFdiv_not_negative.
  - apply SFmul_not_negative;
      eauto using nonneg_not_negative, of_int_not_negative.
  - apply (of_int_not_negative batch_size); [lia | assumption].
Qed.

End FloatSigns.

(** ** Magnitudes of float results *)

Section FloatBounds.

Lemma digits2_pos_size (p : positive) : digits2_pos p = Pos.size p.
Proof. induction p; cbn; congruence. Qed.

(** The number of binary digits, by powers of two. *)
Lemma digits2_pos_bounds (p : positive) :
  2 ^ (Z.pos (digits2_pos p) - 1) <= Z.pos p < 2 ^ Z.pos (digits2_pos p).
Proof.
  induction p as [p IH|p IH|]; cbn [digits2_pos].
  - rewrite Pos2Z.inj_succ.
    replace (Z.succ (Z.pos (digits2_pos p)) - 1) with (Z.succ (Z.pos (digits2_pos p) - 1)) by lia.
    rewrite !Z.pow_succ_r by lia. lia.
  - rewrite Pos2Z.inj_succ.
    replace (Z.succ (Z.pos (digits2_pos p)) - 1) with (Z.succ (Z.pos (digits2_pos p) - 1)) by lia.
    rewrite !Z.pow_succ_r by lia. lia.
  - cbn. lia.
Qed.

Lemma Zdigits2_nonneg (m : Z) : 0 <= Zdigits2 m.
Proof. destruct m; cbn; lia. Qed.

Lemma Zdigits2_upper (m k : Z) : 0 <= m < 2 ^ k -> 0 <= k -> Zdigits2 m <= k.
Proof.
  intros [Hm Hlt] Hk. destruct m as [|p|p]; cbn; [lia | | lia].
  destruct (Z_le_gt_dec (Z.pos (digits2_pos p)) k) as [H|H]; [exact H |].
  pose proof (digits2_pos_bounds p) as [Hlo _].
  assert (2 ^ k <= 2 ^ (Z.pos (digits2_pos p) - 1)) by (apply Z.pow_le_mono_r; lia).
  lia.
Qed.

Lemma Zdigits2_lower (m k : Z) : 2 ^ (k - 1) <= m -> 1 <= k -> k <= Zdigits2 m.
Proof.
  intros Hm Hk. assert (0 < 2 ^ (k - 1)) by (apply Z.pow_pos_nonneg; lia).
  destruct m as [|p|p]; cbn; [lia | | lia].
  destruct (Z_le_gt_dec k (Z.pos (digits2_pos p))) as [H'|H']; [exact H' |].
  pose proof (digits2_pos_bounds p) as [_ Hhi].
  assert (2 ^ (Z.pos (digits2_pos p)) <= 2 ^ (k - 1)) by (apply Z.pow_le_mono_r; lia).
  lia.
Qed.

Lemma Zdigits2_mono (a b : Z) : 0 <= a <= b -> Zdigits2 a <= Zdigits2 b.
Proof.
  intros [Ha Hab]. destruct a as [|p|p]; [apply Zdigits2_nonneg | | lia].
  apply Zdigits2_lower; [| cbn [Zdigits2]; lia].
  pose proof (digits2_pos_bounds p). cbn [Zdigits2]. lia.
Qed.

Lemma Zdigits2_succ (m : Z) : 0 <= m -> Zdigits2 (m + 1) <= Zdigits2 m + 1.
Proof.
  intros Hm. destruct m as [|p|p]; [vm_compute; discriminate | | lia].
  apply Zdigits2_upper; [| cbn [Zdigits2]; lia].
  pose proof (digits2_pos_bounds p) as [_ Hhi]. cbn [Zdigits2].
  change (Z.pos (digits2_pos p) + 1) with (Z.succ (Z.pos (digits2_pos p))).
  rewrite Z.pow_succ_r by lia. lia.
Qed.

Lemma Zdigits2_mul (a b : positive) :
  Z.pos (digits2_pos (a * b)) <= Z.pos (digits2_pos a) + Z.pos (digits2_pos b).
Proof.
  change (Zdigits2 (Z.pos (a * b)) <= Z.pos (digits2_pos a) + Z.pos (digits2_pos b)).
  apply Zdigits2_upper; [| lia].
  pose proof (digits2_pos_bounds a) as [_ Ha].
  pose proof (digits2_pos_bounds b) as [_ Hb].
  rewrite Z.pow_add_r by lia. rewrite Pos2Z.inj_mul. nia.
Qed.


Lemma Zdigits2_pos_inv (m : Z) : 0 <= m -> 0 < Zdigits2 m -> 0 < m.
Proof. destruct m; cbn; lia. Qed.

(** One step of the right shift drops one digit. *)
Lemma shr_1_digits (r : shr_record) :
  0 <= shr_m r ->
  0 <= shr_m (shr_1 r) /\
  Zdigits2 (shr_m (shr_1 r)) = Z.max 0 (Zdigits2 (shr_m r) - 1).
Proof.
  destruct r as [m rb sb]. cbn [shr_m].
  destruct m as [|[p|p|]|p]; cbn [shr_1 shr_m Zdigits2 digits2_pos];
    rewrite ?Pos2Z.inj_succ; lia.
Qed.

Lemma iter_shr_1_digits (n : positive) (r : shr_record) :
  0 <= shr_m r ->
  0 <= shr_m (SpecFloat.iter_pos shr_1 n r) /\
  Zdigits2 (shr_m (SpecFloat.iter_pos shr_1 n r))
    = Z.max 0 (Zdigits2 (shr_m r) - Z.pos n).
Proof.
  revert r. induction n as [n IH|n IH|]; intros r Hr; cbn [SpecFloat.iter_pos].
  - destruct (shr_1_digits r Hr) as [H1 E1].
    destruct (IH _ H1) as [H2 E2]. destruct (IH _ H2) as [H3 E3].
    split; [exact H3 |]. rewrite E3, E2, E1. lia.
  - destruct (IH _ Hr) as [H2 E2]. destruct (IH _ H2) as [H3 E3].
    split; [exact H3 |]. rewrite E3, E2. lia.
  - apply shr_1_digits. exact Hr.
Qed.

Lemma shr_m_of_loc (m : Z) (l : location) : shr_m (shr_record_of_loc m l) = m.
Proof. destruct l as [|[]]; reflexivity. Qed.

(** The shift to the working exponent: the exponent reached and the digits
    left. *)
Lemma shr_fexp_digits (m e : Z) (l : location) :
  0 <= m ->
  0 <= shr_m (shr_fexp PyFloat.prec PyFloat.emax m e l).1 /\
  (shr_fexp PyFloat.prec PyFloat.emax m e l).2 = Z.max e (fexp PyFloat.prec PyFloat.emax (Zdigits2 m + e)) /\
  Zdigits2 (shr_m (shr_fexp PyFloat.prec PyFloat.emax m e l).1)
    = Z.max 0 (Zdigits2 m - ((shr_fexp PyFloat.prec PyFloat.emax m e l).2 - e)).
Proof.
  intros Hm. unfold shr_fexp, shr.
  pose proof (Zdigits2_nonneg m) as Hd.
  destruct (fexp PyFloat.prec PyFloat.emax (Zdigits2 m + e) - e) as [|n|n] eqn:En;
    cbn [fst snd]; rewrite ?shr_m_of_loc.
  - repeat split; lia.
  - destruct (iter_shr_1_digits n (shr_record_of_loc m l)) as [H1 E1];
      [rewrite shr_m_of_loc; exact Hm |].
    rewrite shr_m_of_loc in E1. repeat split; [exact H1 | lia | rewrite E1; lia].
  - repeat split; lia.
Qed.

Lemma round_nearest_even_bounds (m : Z) (l : location) :
  m <= round_nearest_even m l <= m + 1.
Proof.
  unfold round_nearest_even. destruct l as [|[]]; [lia | | lia | lia].
  destruct (Z.even m); lia.
Qed.

Lemma fexp_eq (x : Z) : fexp PyFloat.prec PyFloat.emax x = Z.max (x - 53) (-1074).
Proof. reflexivity. Qed.

(** Rounding does not overflow below [2 ^ 1023]. *)
Lemma binary_round_aux_below (s : bool) (m e : Z) (l : location) (k : Z) :
  0 <= m -> e <= 971 -> Zdigits2 m + e <= k -> -1074 <= k <= 1023 ->
  below (k + 1) (binary_round_aux PyFloat.prec PyFloat.emax s m e l).
Proof.
  intros Hm He Hk Hk'. unfold binary_round_aux.
  destruct (shr_fexp_digits m e l Hm) as (H1 & E1 & D1).
  destruct (shr_fexp PyFloat.prec PyFloat.emax m e l) as [mrs' e']. cbn [fst snd] in *.
  pose proof (round_nearest_even_bounds (shr_m mrs') (loc_of_shr_record mrs'))
    as Hr.
  set (m1 := round_nearest_even (shr_m mrs') (loc_of_shr_record mrs')) in *.
  assert (Hm1 : 0 <= m1) by lia.
  assert (Hd1 : Zdigits2 m1 <= Zdigits2 (shr_m mrs') + 1).
  { etransitivity; [apply (Zdigits2_mono m1 (shr_m mrs' + 1)); lia |].
    apply Zdigits2_succ. exact H1. }
  destruct (shr_fexp_digits m1 e' loc_Exact Hm1) as (H2 & E2 & D2).
  destruct (shr_fexp PyFloat.prec PyFloat.emax m1 e' loc_Exact) as [mrs'' e''].
  cbn [fst snd] in *. rewrite fexp_eq in E1, E2.
  pose proof (Zdigits2_nonneg m) as Hdm.
  pose proof (Zdigits2_nonneg m1) as Hdm1.
  destruct (shr_m mrs'') as [|p|p] eqn:Em; [exact I | | lia].
  cbn [Zdigits2] in D2.
  replace (e'' <=? PyFloat.emax - PyFloat.prec) with true
    by (symmetry; apply Z.leb_le; unfold PyFloat.emax, PyFloat.prec; lia).
  cbn [below]. lia.
Qed.

Lemma iter_xO_digits (m d : positive) :
  digits2_pos (Pos.iter xO m d) = (digits2_pos m + d)%positive.
Proof.
  induction d as [|d IH] using Pos.peano_ind.
  - cbn. lia.
  - rewrite Pos.iter_succ. cbn [digits2_pos]. rewrite IH. lia.
Qed.

(** Aligning a mantissa to a lower exponent keeps the position of its
    leading digit. *)
Lemma shl_align_digits (mx : positive) (ex ex' : Z) :
  Z.pos (digits2_pos (shl_align mx ex ex').1) + (shl_align mx ex ex').2
    = Z.pos (digits2_pos mx) + ex /\
  (shl_align mx ex ex').2 <= ex.
Proof.
  unfold shl_align. destruct (ex' - ex) as [|d|d] eqn:E; cbn [fst snd];
    [lia | lia |].
  rewrite iter_xO_digits. lia.
Qed.

(** Rounding a positive number above the smallest exponent does not
    underflow to zero. *)
Lemma binary_round_aux_at_least (s : bool) (m e : Z) (l : location) (j : Z) :
  0 < m -> j <= Zdigits2 m + e -> -1074 < j ->
  at_least j (binary_round_aux PyFloat.prec PyFloat.emax s m e l).
Proof.
  intros Hm Hj Hj'. unfold binary_round_aux.
  destruct (shr_fexp_digits m e l ltac:(lia)) as (H1 & E1 & D1).
  destruct (shr_fexp PyFloat.prec PyFloat.emax m e l) as [mrs' e']. cbn [fst snd] in *.
  pose proof (round_nearest_even_bounds (shr_m mrs') (loc_of_shr_record mrs'))
    as Hr.
  set (m1 := round_nearest_even (shr_m mrs') (loc_of_shr_record mrs')) in *.
  assert (Hm1 : 0 <= m1) by lia.
  assert (Hd1 : Zdigits2 (shr_m mrs') <= Zdigits2 m1).
  { apply Zdigits2_mono. lia. }
  destruct (shr_fexp_digits m1 e' loc_Exact Hm1) as (H2 & E2 & D2).
  destruct (shr_fexp PyFloat.prec PyFloat.emax m1 e' loc_Exact) as [mrs'' e''].
  cbn [fst snd] in *. rewrite fexp_eq in E1, E2.
  assert (Hdm : 0 < Zdigits2 m) by (destruct m; cbn; lia).
  assert (Hpos : 0 < shr_m mrs'').
  { apply Zdigits2_pos_inv; [exact H2 | lia]. }
  destruct (shr_m mrs'') as [|p|p] eqn:Em; [lia | | lia].
  cbn [Zdigits2] in D2.
  destruct (e'' <=? PyFloat.emax - PyFloat.prec); cbn [at_least]; [lia | exact I].
Qed.

Lemma binary_round_aux_exponent (s : bool) (m e : Z) (l : location)
  (m' : positive) (e' : Z) (s' : bool) :
  binary_round_aux PyFloat.prec PyFloat.emax s m e l = S754_finite s' m' e' -> e' <= 971.
Proof.
  unfold binary_round_aux.
  destruct (shr_fexp PyFloat.prec PyFloat.emax m e l) as [mrs1 e1].
  destruct (shr_fexp PyFloat.prec PyFloat.emax _ e1 loc_Exact) as [mrs2 e2].
  destruct (shr_m mrs2); try discriminate.
  destruct (e2 <=? PyFloat.emax - PyFloat.prec) eqn:E; [| discriminate].
  intros [= _ _ <-]. apply Z.leb_le in E. exact E.
Qed.

Lemma binary_round_below (s : bool) (mx : positive) (ex k : Z) :
  ex <= 971 -> Z.pos (digits2_pos mx) + ex <= k -> -1074 <= k <= 1023 ->
  below (k + 1) (binary_round PyFloat.prec PyFloat.emax s mx ex).
Proof.
  intros He Hk Hk'. unfold binary_round.
  pose proof (shl_align_digits mx ex
    (fexp PyFloat.prec PyFloat.emax (Z.pos (digits2_pos mx) + ex))) as [Hd Hz].
  destruct (shl_align mx ex _) as [mz ez]. cbn [fst snd] in *.
  apply binary_round_aux_below; cbn [Zdigits2]; lia.
Qed.

Lemma binary_round_at_least (s : bool) (mx : positive) (ex j : Z) :
  j <= Z.pos (digits2_pos mx) + ex -> -1074 < j ->
  at_least j (binary_round PyFloat.prec PyFloat.emax s mx ex).
Proof.
  intros Hj Hj'. unfold binary_round.
  pose proof (shl_align_digits mx ex
    (fexp PyFloat.prec PyFloat.emax (Z.pos (digits2_pos mx) + ex))) as [Hd Hz].
  destruct (shl_align mx ex _) as [mz ez]. cbn [fst snd] in *.
  apply binary_round_aux_at_least; cbn [Zdigits2]; lia.
Qed.

(** [float(n)] succeeds on the integers below [2 ^ 1000]. *)
Lemma of_int_total (n : Z) :
  0 <= n < 2 ^ 1000 ->
  exists y,
    PyFloat.of_int n = Ok y /\ below 1001 y /\ (0 < n -> at_least 1 y).
Proof.
  intros Hn. unfold PyFloat.of_int, binary_normalize.
  destruct n as [|p|p]; [| | lia].
  - exists (S754_zero false). repeat split. lia.
  - assert (Hd : Z.pos (digits2_pos p) <= 1000).
    { apply (Zdigits2_upper (Z.pos p) 1000); lia. }
    pose proof (binary_round_below false p 0 1000 ltac:(lia) ltac:(lia)
                  ltac:(lia)) as Hb.
    pose proof (binary_round_at_least false p 0 1 ltac:(lia) ltac:(lia)) as Ha.
    destruct (binary_round PyFloat.prec PyFloat.emax false p 0) as [s|s| |s m e];
      cbn [below at_least] in *; try contradiction.
    exists (S754_finite s m e). repeat split; try lia. intros _. exact Ha.
Qed.

Lemma Zdigits2_bounds (m : Z) :
  0 < m -> 2 ^ (Zdigits2 m - 1) <= m < 2 ^ Zdigits2 m.
Proof.
  destruct m as [|p|p]; [lia | | lia]. intros _. apply digits2_pos_bounds.
Qed.

(** The quotient that division hands to rounding: not negative, at an
    exponent the format allows, and with its leading digit where the
    operands put it. *)
Lemma SFdiv_core_bounds (m1 e1 m2 e2 : Z) :
  0 < m1 -> 0 < m2 ->
  let X := Zdigits2 m1 + e1 - (Zdigits2 m2 + e2) in
  let r := SFdiv_core_binary PyFloat.prec PyFloat.emax m1 e1 m2 e2 in
  0 <= r.1.1 /\
  r.1.2 <= fexp PyFloat.prec PyFloat.emax X /\
  Zdigits2 r.1.1 + r.1.2 <= Z.max (X + 1) r.1.2.
Proof.
  intros H1 H2 X. unfold SFdiv_core_binary. fold X.
  set (e' := Z.min (fexp PyFloat.prec PyFloat.emax X) (e1 - e2)).
  set (s := e1 - e2 - e').
  assert (Hs : 0 <= s) by (unfold s, e'; lia).
  set (m' := match s with
             | 0 => m1
             | Z.pos _ => Z.shiftl m1 s
             | Z.neg _ => 0
             end).
  assert (Hm' : m' = m1 * 2 ^ s).
  { unfold m'. destruct s as [|p|p] eqn:Es; [rewrite Z.pow_0_r; lia | | lia].
    apply Z.shiftl_mul_pow2. lia. }
  pose proof (Z_div_mod m' m2 ltac:(lia)) as Hdiv.
  destruct (Z.div_eucl m' m2) as [q r]. cbn [fst snd].
  destruct Hdiv as [Hq Hr].
  assert (Hpow : 0 < 2 ^ s) by (apply Z.pow_pos_nonneg; lia).
  assert (Hq0 : 0 <= q) by nia.
  split; [exact Hq0 |]. split; [unfold e'; lia |].
  pose proof (Zdigits2_bounds m1 H1) as [_ Hu1].
  pose proof (Zdigits2_bounds m2 H2) as [Hl2 _].
  assert (Hd1 : 0 < Zdigits2 m1) by (destruct m1; cbn; lia).
  assert (Hd2 : 0 < Zdigits2 m2) by (destruct m2; cbn; lia).
  assert (Hlt : m' < 2 ^ (Zdigits2 m1 + s)).
  { rewrite Hm', Z.pow_add_r by lia. nia. }
  set (t := Zdigits2 m1 + s - Zdigits2 m2 + 1).
  destruct (Z_le_gt_dec 0 t) as [Ht | Ht].
  - assert (Hqt : q < 2 ^ t).
    { assert (Hsplit : 2 ^ (Zdigits2 m1 + s) = 2 ^ (Zdigits2 m2 - 1) * 2 ^ t).
      { rewrite <- Z.pow_add_r by lia. f_equal. unfold t. lia. }
      assert (Hpt : 0 < 2 ^ t) by (apply Z.pow_pos_nonneg; lia).
      assert (Hp2 : 0 < 2 ^ (Zdigits2 m2 - 1)) by (apply Z.pow_pos_nonneg; lia).
      nia. }
    pose proof (Zdigits2_upper q t ltac:(lia) Ht) as Hdq.
    unfold t, s in Hdq. unfold X. lia.
  - assert (Hle : 2 ^ (Zdigits2 m1 + s) <= 2 ^ (Zdigits2 m2 - 1)).
    { apply Z.pow_le_mono_r; unfold t in Ht; lia. }
    assert (Hq' : q = 0) by nia.
    rewrite Hq'. cbn [Zdigits2]. lia.
Qed.

End FloatBounds.

(** ** The batch counts of [split_dataset] *)

Lemma split_counts_unfold (size batch_size : Z) (v t : spec_float) :
  TweetDataset.split_counts size batch_size v t =
  (validation_split ← (scaled v size batch_size ≫= PyFloat.to_int);
   test_split ← (scaled t size batch_size ≫= PyFloat.to_int);
   total ← total_batches size batch_size;
   Ok (validation_split, test_split, total - validation_split - test_split)).
Proof.
  unfold TweetDataset.split_counts, scaled, total_batches.
  destruct (PyFloat.mul_int v size) as [x|]; cbn; [| reflexivity].
  destruct (PyFloat.div_int x batch_size) as [y|]; cbn; [| reflexivity].
  destruct (PyFloat.to_int y) as [a|]; cbn; [| reflexivity].
  destruct (PyFloat.mul_int t size) as [x'|]; cbn; [| reflexivity].
  destruct (PyFloat.div_int x' batch_size) as [y'|]; cbn; reflexivity.
Qed.

Lemma split_counts_inv (size batch_size : Z) (v t : spec_float)
  (validation_split test_split train_split : Z) :
  TweetDataset.split_counts size batch_size v t
    = Ok (validation_split, test_split, train_split) ->
  exists yv yt total,
    scaled v size batch_size = Ok yv /\ PyFloat.to_int yv = Ok validation_split /\
    scaled t size batch_size = Ok yt /\ PyFloat.to_int yt = Ok test_split /\
    total_batches size batch_size = Ok total /\
    train_split = total - validation_split - test_split.
Proof.
  rewrite split_counts_unfold.
  destruct (scaled v size batch_size) as [yv|]; cbn; [| discriminate].
  destruct (PyFloat.to_int yv) as [a|] eqn:Ea; cbn; [| discriminate].
  destruct (scaled t size batch_size) as [yt|]; cbn; [| discriminate].
  destruct (PyFloat.to_int yt) as [b|] eqn:Eb; cbn; [| discriminate].
  destruct (total_batches size batch_size) as [total|]; cbn; [| discriminate].
  intros [= <- <- <-]. exists yv, yt, total. auto 10.
Qed.

Lemma split_counts_nonneg_fraction (fraction : spec_float)
  (size batch_size : Z) (y : spec_float) (count : Z) :
  scaled fraction size batch_size = Ok y -> PyFloat.to_int y = Ok count ->
  0 <= size -> 0 < batch_size -> PyFloat.nonneg fraction = true ->
  0 <= count.
Proof.
  intros Hy Hc Hs Hb Hf.
  eapply to_int_nonneg; [| exact Hc].
  eapply scaled_not_negative; eauto.
Qed.

(** A fraction is not negative, has a non-positive exponent and is below 2. *)
Lemma is_fraction_bounds (v : spec_float) :
  PyFloat.is_fraction v = true ->
  match v with
  | S754_zero _ => True
  | S754_finite s m e =>
      s = false /\ e <= 0 /\ Z.pos (digits2_pos m) + e <= 1
  | _ => False
  end.
Proof.
  unfold PyFloat.is_fraction. intros H.
  apply andb_prop in H as [H Hle]. apply andb_prop in H as [Hvalid Hnn].
  destruct v as [s|s| |s m e]; cbn in Hnn; try discriminate; [exact I |].
  destruct s; [discriminate |]. split; [reflexivity |].
  cbn [valid_binary] in Hvalid. unfold bounded, canonical_mantissa in Hvalid.
  apply andb_prop in Hvalid as [Hc _]. apply Z.eqb_eq in Hc.
  rewrite fexp_eq in Hc.
  assert (He : e <= -52).
  { unfold SFleb, SFcompare, PyFloat.one in Hle.
    destruct (e ?= -52) eqn:Ec.
    - apply Z.compare_eq in Ec. lia.
    - pose proof (proj1 (Z.compare_lt_iff _ _) Ec). lia.
    - discriminate. }
  lia.
Qed.

(** A fraction times a float below [2 ^ k]. *)
Lemma SFmul_fraction_below (v y : spec_float) (k : Z) :
  PyFloat.is_fraction v = true -> below k y -> -1075 <= k <= 1022 ->
  below (k + 2) (SFmul PyFloat.prec PyFloat.emax v y).
Proof.
  intros Hv Hy Hk. apply is_fraction_bounds in Hv.
  destruct v as [sv|sv| |sv mv ev]; try contradiction;
    destruct y as [sy|sy| |sy my ey]; try contradiction;
    cbn [SFmul]; try exact I.
  destruct Hv as (_ & Hev & Hdv). destruct Hy as [Hdy Hey].
  pose proof (Zdigits2_mul mv my) as Hmul.
  replace (k + 2) with (k + 1 + 1) by lia.
  apply binary_round_aux_below; cbn [Zdigits2]; lia.
Qed.

(** A float below [2 ^ k] divided by a finite float that is at least 1. *)
Lemma SFdiv_below (x y : spec_float) (k j : Z) :
  below k x -> below j y -> at_least 1 y -> -1074 <= k <= 1023 ->
  below (k + 1) (SFdiv PyFloat.prec PyFloat.emax x y).
Proof.
  intros Hx Hy Hy1 Hk.
  destruct y as [sy|sy| |sy my ey]; try contradiction.
  destruct x as [sx|sx| |sx mx ex]; try contradiction; cbn [SFdiv];
    [exact I |].
  cbn [below at_least] in *.
  pose proof (SFdiv_core_bounds (Z.pos mx) ex (Z.pos my) ey
                ltac:(lia) ltac:(lia)) as Hcore.
  cbv zeta in Hcore. cbn [Zdigits2] in Hcore.
  destruct (SFdiv_core_binary _ _ (Z.pos mx) ex (Z.pos my) ey)
    as [[mz ez] lz].
  cbn [fst snd] in Hcore. destruct Hcore as (Hq & He & Hd).
  rewrite fexp_eq in He.
  apply binary_round_aux_below; lia.
Qed.

Lemma below_to_int (k : Z) (y : spec_float) :
  below k y -> exists z, PyFloat.to_int y = Ok z.
Proof. destruct y; cbn; try contradiction; eauto. Qed.

(** [fraction * size / batch_size] is computed without error. *)
Lemma scaled_total (fraction : spec_float) (size batch_size : Z) :
  PyFloat.is_fraction fraction = true ->
  0 <= size < 2 ^ 1000 -> 0 < batch_size < 2 ^ 1000 ->
  exists y, scaled fraction size batch_size = Ok y /\ below 1004 y.
Proof.
  intros Hf Hs Hb. unfold scaled, PyFloat.mul_int, PyFloat.div_int.
  destruct (of_int_total size Hs) as (fs & -> & Hfs & _).
  destruct (of_int_total batch_size ltac:(lia)) as (fb & -> & Hfb & Hfb1).
  specialize (Hfb1 ltac:(lia)).
  rewrite !bind_Ok_l.
  pose proof (SFmul_fraction_below fraction fs 1001 Hf Hfs ltac:(lia)) as Hm.
  pose proof (SFdiv_below _ fb 1003 1001 Hm Hfb Hfb1 ltac:(lia)) as Hd.
  destruct fb as [sb|sb| |sb mb eb]; try contradiction.
  cbn [PyFloat.is_zero]. eexists. split; [reflexivity | exact Hd].
Qed.

(** [int(size / batch_size)] is computed without error. *)
Lemma total_batches_total (size batch_size : Z) :
  0 <= size < 2 ^ 1000 -> 0 < batch_size < 2 ^ 1000 ->
  exists total, total_batches size batch_size = Ok total.
Proof.
  intros Hs Hb. unfold total_batches, PyFloat.int_truediv.
  replace (batch_size =? 0) with false by (symmetry; apply Z.eqb_neq; lia).
  destruct (size =? 0) eqn:E0; [rewrite bind_Ok_l; cbn; eauto |].
  apply Z.eqb_neq in E0.
  pose proof (SFdiv_core_bounds (Z.abs size) 0 (Z.abs batch_size) 0
                ltac:(lia) ltac:(lia)) as Hcore.
  cbv zeta in Hcore.
  assert (Hd1 : Zdigits2 (Z.abs size) <= 1000)
    by (apply Zdigits2_upper; lia).
  assert (Hd2 : 0 < Zdigits2 (Z.abs batch_size))
    by (rewrite (Z.abs_eq batch_size) by lia;
        destruct batch_size; cbn [Zdigits2]; lia).
  destruct (SFdiv_core_binary _ _ (Z.abs size) 0 (Z.abs batch_size) 0)
    as [[q e] l].
  cbn [fst snd] in Hcore. destruct Hcore as (Hq & He & Hd).
  rewrite fexp_eq in He.
  pose proof (binary_round_aux_below
                (xorb (size <? 0) (batch_size <? 0)) q e l 1000
                Hq ltac:(lia) ltac:(lia) ltac:(lia)) as Hbelow.
  destruct (binary_round_aux _ _ _ q e l) as [s|s| |s m e'];
    try contradiction; rewrite bind_Ok_l; cbn; eauto.
Qed.

(** On sizes and batch sizes below [2 ^ 1000] and fractions between 0 and
    1 the three counts are computed without error. *)
Lemma split_counts_total (size batch_size : Z)
  (validation_size test_size : spec_float) :
  0 <= size < 2 ^ 1000 -> 0 < batch_size < 2 ^ 1000 ->
  PyFloat.is_fraction validation_size = true ->
  PyFloat.is_fraction test_size = true ->
  exists validation_split test_split train_split,
    TweetDataset.split_counts size batch_size validation_size test_size
      = Ok (validation_split, test_split, train_split).
Proof.
  intros Hs Hb Hv Ht. rewrite split_counts_unfold.
  destruct (scaled_total validation_size size batch_size Hv Hs Hb)
    as (yv & -> & Hyv).
  destruct (scaled_total test_size size batch_size Ht Hs Hb)
    as (yt & -> & Hyt).
  destruct (below_to_int _ _ Hyv) as [a Ha].
  destruct (below_to_int _ _ Hyt) as [b Hb'].
  destruct (total_batches_total size batch_size Hs Hb) as [total ->].
  rewrite !bind_Ok_l, Ha, bind_Ok_l, Hb', !bind_Ok_l. eauto.
Qed.

Lemma split_counts_Ok_sum (size batch_size : Z)
  (validation_size test_size : spec_float)
  (validation_split test_split train_split : Z) :
  TweetDataset.split_counts size batch_size validation_size test_size
    = Ok (validation_split, test_split, train_split) ->
  exists total,
    total_batches size batch_size = Ok total /\
    train_split + validation_split + test_split = total /\
    (0 <= size -> 0 < batch_size ->
     PyFloat.nonneg validation_size = true -> 0 <= validation_split) /\
    (0 <= size -> 0 < batch_size ->
     PyFloat.nonneg test_size = true -> 0 <= test_split) /\
    (0 <= train_split <-> validation_split + test_split <= total).
Proof.
  intros H.
  destruct (split_counts_inv _ _ _ _ _ _ _ H)
    as (yv & yt & total & Hv & Hv' & Ht & Ht' & Htot & ->).
  exists total. split; [exact Htot |]. split; [lia |].
  split; [| split].
  - intros Hs Hb Hf.
    exact (split_counts_nonneg_fraction _ _ _ _ _ Hv Hv' Hs Hb Hf).
  - intros Hs Hb Hf.
    exact (split_counts_nonneg_fraction _ _ _ _ _ Ht Ht' Hs Hb Hf).
  - lia.
Qed.

Lemma is_fraction_nonneg (v : spec_float) :
  PyFloat.is_fraction v = true -> PyFloat.nonneg v = true.
Proof.
  unfold PyFloat.is_fraction. intros H.
  apply andb_prop in H as [H _]. apply andb_prop in H as [_ H]. exact H.
Qed.

(** C1, as the code has it.  Whenever the splitter computes its counts,
    train + validation + test is exactly the number of whole batches
    [int(size / batch_size)], so the sum never exceeds it; the validation
    and test counts are not negative when their fraction is not negative,
    the size is not negative and the batch size is positive; the training
    count is what is left over and is not guarded: it is not negative
    exactly when validation + test fit into the total.  On a size and a
    batch size below [2 ^ 1000] and fractions between 0 and 1 the counts
    are computed without error. *)
Theorem split_counts_sum :
  (forall (size batch_size : Z) (validation_size test_size : spec_float)
          (validation_split test_split train_split : Z),
     TweetDataset.split_counts size batch_size validation_size test_size
       = Ok (validation_split, test_split, train_split) ->
     exists total,
       total_batches size batch_size = Ok total /\
       train_split + validation_split + test_split = total /\
       (0 <= size -> 0 < batch_size ->
        PyFloat.nonneg validation_size = true -> 0 <= validation_split) /\
       (0 <= size -> 0 < batch_size ->
        PyFloat.nonneg test_size = true -> 0 <= test_split) /\
       (0 <= train_split <-> validation_split + test_split <= total)) /\
  (forall (size batch_size : Z) (validation_size test_size : spec_float),
     0 <= size < 2 ^ 1000 -> 0 < batch_size < 2 ^ 1000 ->
     PyFloat.is_fraction validation_size = true ->
     PyFloat.is_fraction test_size = true ->
     exists validation_split test_split train_split total,
       TweetDataset.split_counts size batch_size validation_size test_size
         = Ok (validation_split, test_split, train_split) /\
       total_batches size batch_size = Ok total /\
       train_split + validation_split + test_split = total /\
       0 <= validation_split /\ 0 <= test_split /\
       (0 <= train_split <-> validation_split + test_split <= total)).
Proof.
  split; [exact split_counts_Ok_sum |].
  intros size batch_size v t Hs Hb Hv Ht.
  destruct (split_counts_total size batch_size v t Hs Hb Hv Ht)
    as (val & tst & trn & Hc).
  destruct (split_counts_Ok_sum _ _ _ _ _ _ _ Hc)
    as (total & Htot & Hsum & Hv0 & Ht0 & Htr).
  exists val, tst, trn, total.
  split; [exact Hc |]. split; [exact Htot |]. split; [exact Hsum |].
  split; [apply Hv0; [lia | lia | apply is_fraction_nonneg; exact Hv] |].
  split; [apply Ht0; [lia | lia | apply is_fraction_nonneg; exact Ht] |].
  exact Htr.
Qed.

Lemma split_counts_sum_witness :
  exists validation_split test_split train_split total,
    TweetDataset.split_counts 100 10 PyFloat.f0_2 PyFloat.f0_2
      = Ok (validation_split, test_split, train_split) /\
    total_batches 100 10 = Ok total /\
    train_split + validation_split + test_split = total /\
    0 <= validation_split /\ 0 <= test_split /\
    (0 <= train_split <-> validation_split + test_split <= total).
Proof.
  apply (proj2 split_counts_sum 100 10 PyFloat.f0_2 PyFloat.f0_2).
  - split; [lia | reflexivity].
  - split; [lia | reflexivity].
  - reflexivity.
  - reflexivity.
Defined.

(** C1, counterexample.  With both fractions at 0.75, a size of 100 and a
    batch size of 10 the training count is -4. *)
Lemma split_counts_train_negative :
  TweetDataset.split_counts 100 10 PyFloat.f0_75 PyFloat.f0_75
    = Ok (7, 7, -4) /\ 10 <> 0 /\ ~ 0 <= -4.
Proof. split; [vm_compute; reflexivity | lia]. Qed.

(** C5.  On fractions that are not negative, a size that is not negative
    and a positive batch size, the counts computed with [int] are the
    counts the specification writes with [floor]; at fractions 0.2 and
    0.2, size 100 and batch size 10 they are 2, 2 and 6. *)
Theorem split_counts_floor_formula :
  (forall (size batch_size : Z) (validation_size test_size : spec_float),
     0 <= size -> 0 < batch_size ->
     PyFloat.nonneg validation_size = true ->
     PyFloat.nonneg test_size = true ->
     TweetDataset.split_counts size batch_size validation_size test_size
     = spec_batch_counts size batch_size validation_size test_size) /\
  TweetDataset.split_counts 100 10 PyFloat.f0_2 PyFloat.f0_2 = Ok (2, 2, 6).
Proof.
  split; [| vm_compute; reflexivity].
  intros size batch_size v t Hs Hb Hv Ht.
  rewrite split_counts_unfold. unfold spec_batch_counts, total_batches.
  assert (Hstep : forall f, PyFloat.nonneg f = true ->
            scaled f size batch_size ≫= PyFloat.to_int
            = scaled f size batch_size ≫= PyFloat.floor).
  { intros f Hf. destruct (scaled f size batch_size) as [y|] eqn:E;
      [| reflexivity].
    cbn. apply to_int_floor. eapply scaled_not_negative; eauto. }
  rewrite (Hstep v Hv), (Hstep t Ht).
  destruct (PyFloat.int_truediv size batch_size) as [q|] eqn:Eq.
  - cbn. rewrite (to_int_floor q); [reflexivity |].
    eapply int_truediv_not_negative; eauto.
  - reflexivity.
Qed.

Lemma split_counts_floor_formula_witness :
  spec_batch_counts 100 10 PyFloat.f0_2 PyFloat.f0_2 = Ok (2, 2, 6).
Proof.
  rewrite <- (proj1 split_counts_floor_formula 100 10
                PyFloat.f0_2 PyFloat.f0_2);
    [exact (proj2 split_counts_floor_formula) | lia | lia
    | reflexivity | reflexivity].
Defined.

(** Where [int] and [floor] part: -2.5 truncates to -2 and floors to -3. *)
Example to_int_truncates :
  PyFloat.to_int (S754_finite true 5 (-1)) = Ok (-2) /\
  PyFloat.floor (S754_finite true 5 (-1)) = Ok (-3).
Proof. split; reflexivity. Qed.

(** ** Batching *)

Section Groups.
Context {A : Type}.
Implicit Types (l : list A) (n : nat) (dr : bool).

(** Without [drop_remainder] the batches, laid end to end, are the
    dataset. *)
Lemma groups_concat_keep n l :
  (0 < n)%nat -> concat (Dataset.groups n false l) = l.
Proof.
  funelim (Dataset.groups n false l); simp groups; intros Hn.
  - lia.
  - reflexivity.
  - cbn. f_equal. apply app_nil_r.
  - cbn. f_equal.
    match goal with IH : _ -> concat _ = _ |- _ => rewrite IH by lia end.
    apply take_drop.
Qed.

(** With [drop_remainder] every batch is full. *)
Lemma groups_drop_full n l :
  Forall (fun g => length g = n) (Dataset.groups n true l).
Proof.
  funelim (Dataset.groups n true l); simp groups.
  - constructor.
  - constructor.
  - constructor.
  - constructor; [| assumption].
    match goal with E : (_ <? _)%nat = false |- _ => apply Nat.ltb_ge in E end.
    cbn. rewrite length_take. lia.
Qed.

(** With [drop_remainder] the batches are a prefix of the dataset, and
    fewer than [n] elements are left out. *)
Lemma groups_drop_prefix n l :
  (0 < n)%nat ->
  exists rest,
    concat (Dataset.groups n true l) ++ rest = l /\ (length rest < n)%nat.
Proof.
  funelim (Dataset.groups n true l); simp groups; intros Hn.
  - lia.
  - exists []. split; [reflexivity | cbn; lia].
  - match goal with E : (_ <? _)%nat = true |- _ => apply Nat.ltb_lt in E end.
    exists (x :: l). split; [reflexivity | cbn; lia].
  - match goal with IH : _ -> exists _, _ |- _ =>
      destruct IH as (rest & Hrest & Hlen); [lia |] end.
    exists rest. split; [| assumption].
    cbn. rewrite <- app_assoc, Hrest. f_equal. apply take_drop.
Qed.

(** No batch is empty and none is longer than [n]. *)
Lemma groups_bounds n dr l :
  Forall (fun g => (0 < length g <= n)%nat) (Dataset.groups n dr l).
Proof.
  funelim (Dataset.groups n dr l); simp groups.
  - constructor.
  - constructor.
  - match goal with E : (_ <? _)%nat = true |- _ => apply Nat.ltb_lt in E end.
    destruct dr; constructor; [cbn; lia | constructor].
  - constructor; [| assumption].
    cbn. rewrite length_take. lia.
Qed.

Lemma groups_keep_nonempty n l :
  (0 < n)%nat -> l <> [] -> Dataset.groups n false l <> [].
Proof.
  destruct n as [|n]; [lia |]. destruct l as [|x l]; [congruence |].
  intros _ _. simp groups. destruct (length l <? n)%nat; cbn; discriminate.
Qed.

Lemma groups_drop_nonempty n l :
  (0 < n <= length l)%nat -> Dataset.groups n true l <> [].
Proof.
  destruct n as [|n]; [lia |]. destruct l as [|x l]; [cbn; lia |].
  cbn [length]. intros Hn. simp groups.
  replace (length l <? n)%nat with false
    by (symmetry; apply Nat.ltb_ge; lia).
  cbn. discriminate.
Qed.

End Groups.

(** ** The batch-count split *)

Lemma batch_Ok_pos {A : Type} (batch_size : Z) (dr : bool) (ds : list A)
  (batches : list (list A)) :
  Dataset.batch batch_size dr ds = Ok batches ->
  0 < batch_size /\ batches = Dataset.groups (Z.to_nat batch_size) dr ds.
Proof.
  unfold Dataset.batch. destruct (batch_size <=? 0) eqn:E; [discriminate |].
  intros [= <-]. apply Z.leb_gt in E. auto.
Qed.

Lemma split_dataset_inv (self self' : TweetDataset.t) (batch_size max_len : Z)
  (v t : spec_float) (train validate test : list element) :
  TweetDataset.split_dataset self batch_size v t max_len
    = Ok (self', (train, validate, test)) ->
  exists batches validation_split test_split train_split,
    Dataset.batch batch_size false (TweetDataset.dataset self) = Ok batches /\
    TweetDataset.split_counts (TweetDataset.size self) batch_size v t
      = Ok (validation_split, test_split, train_split) /\
    TweetDataset.dataset self' = Batch <$> batches /\
    TweetDataset.steps_per_epoch self' = Some train_split /\
    TweetDataset.valid_steps_per_epoch self' = Some validation_split /\
    TweetDataset.maybe_pad (TweetDataset.do_padding self) batch_size max_len
      (Dataset.skip (validation_split + test_split) (Batch <$> batches))
      = Ok train /\
    TweetDataset.maybe_pad (TweetDataset.do_padding self) batch_size max_len
      (Dataset.take validation_split (Batch <$> batches)) = Ok validate /\
    TweetDataset.maybe_pad (TweetDataset.do_padding self) batch_size max_len
      (Dataset.take test_split
         (Dataset.skip validation_split (Batch <$> batches))) = Ok test.
Proof.
  unfold TweetDataset.split_dataset.
  destruct (Dataset.batch batch_size false (TweetDataset.dataset self))
    as [batches|]; cbn; [| discriminate].
  destruct (TweetDataset.split_counts _ _ _ _) as [[[val tst] trn]|];
    cbn; [| discriminate].
  destruct (TweetDataset.maybe_pad _ _ _ (Dataset.skip _ _)) as [tr|] eqn:Etr;
    cbn; [| discriminate].
  destruct (TweetDataset.maybe_pad _ _ _ (Dataset.take val _)) as [va|] eqn:Eva;
    cbn; [| discriminate].
  destruct (TweetDataset.maybe_pad _ _ _ (Dataset.take tst _)) as [te|] eqn:Ete;
    cbn; [| discriminate].
  unfold Dataset.prefetch. intros [= <- <- <- <-].
  exists batches, val, tst, trn. cbn. auto 10.
Qed.

(** Slicing a list by two non-negative counts: the head, the next block
    and the rest, in this order, make up the list. *)
Lemma slices_partition {A : Type} (a b : Z) (l : list A) :
  0 <= a -> 0 <= b ->
  Dataset.take a l = take (Z.to_nat a) l /\
  Dataset.take b (Dataset.skip a l) = take (Z.to_nat b) (drop (Z.to_nat a) l) /\
  Dataset.skip (a + b) l = drop (Z.to_nat a + Z.to_nat b) l /\
  l = Dataset.take a l ++ Dataset.take b (Dataset.skip a l)
        ++ Dataset.skip (a + b) l.
Proof.
  intros Ha Hb. unfold Dataset.take, Dataset.skip.
  replace (a <? 0) with false by (symmetry; apply Z.ltb_ge; lia).
  replace (b <? 0) with false by (symmetry; apply Z.ltb_ge; lia).
  replace (a + b <? 0) with false by (symmetry; apply Z.ltb_ge; lia).
  rewrite Z2Nat.inj_add by lia.
  repeat split.
  rewrite <- drop_drop, !take_drop. reflexivity.
Qed.

(** C4.  In the batch-count split the batched sequence is cut into three
    consecutive blocks: the first [validation_split] batches, the next
    [test_split] batches, and everything after them.  The validation split
    is made from the first block, the test split from the second and the
    training split from the third; without padding the splits are these
    blocks themselves. *)
Theorem split_dataset_order (self self' : TweetDataset.t)
  (batch_size max_len : Z) (validation_size test_size : spec_float)
  (train validate test : list element) :
  0 <= TweetDataset.size self ->
  PyFloat.nonneg validation_size = true ->
  PyFloat.nonneg test_size = true ->
  TweetDataset.split_dataset self batch_size validation_size test_size max_len
    = Ok (self', (train, validate, test)) ->
  exists validation_split test_split train_split head middle rest,
    TweetDataset.split_counts (TweetDataset.size self) batch_size
      validation_size test_size
      = Ok (validation_split, test_split, train_split) /\
    0 <= validation_split /\ 0 <= test_split /\
    Dataset.batch batch_size false (TweetDataset.dataset self)
      = Ok (unbatch <$> TweetDataset.dataset self') /\
    TweetDataset.dataset self' = head ++ middle ++ rest /\
    head = take (Z.to_nat validation_split) (TweetDataset.dataset self') /\
    middle = take (Z.to_nat test_split)
               (drop (Z.to_nat validation_split) (TweetDataset.dataset self')) /\
    rest = drop (Z.to_nat validation_split + Z.to_nat test_split)
             (TweetDataset.dataset self') /\
    TweetDataset.maybe_pad (TweetDataset.do_padding self) batch_size max_len
      head = Ok validate /\
    TweetDataset.maybe_pad (TweetDataset.do_padding self) batch_size max_len
      middle = Ok test /\
    TweetDataset.maybe_pad (TweetDataset.do_padding self) batch_size max_len
      rest = Ok train /\
    (TweetDataset.do_padding self = false ->
     validate = head /\ test = middle /\ train = rest).
Proof.
  intros Hsize Hv Ht H.
  destruct (split_dataset_inv _ _ _ _ _ _ _ _ _ H)
    as (batches & val & tst & trn & Hb & Hc & Hd & _ & _ & Htr & Hva & Hte).
  destruct (batch_Ok_pos _ _ _ _ Hb) as [Hpos _].
  destruct (split_counts_Ok_sum _ _ _ _ _ _ _ Hc)
    as (total & _ & _ & Hv0 & Ht0 & _).
  specialize (Hv0 Hsize Hpos Hv). specialize (Ht0 Hsize Hpos Ht).
  destruct (slices_partition val tst (Batch <$> batches) Hv0 Ht0)
    as (E1 & E2 & E3 & E4).
  rewrite E1 in Hva. rewrite E2 in Hte. rewrite E3 in Htr.
  rewrite E1, E2, E3 in E4. rewrite <- Hd in *.
  eexists val, tst, trn, _, _, _.
  split; [exact Hc |]. split; [exact Hv0 |]. split; [exact Ht0 |].
  split.
  { rewrite Hb, Hd. f_equal. rewrite <- list_fmap_compose.
    symmetry. apply list_fmap_id. }
  split; [exact E4 |].
  do 3 (split; [reflexivity |]).
  split; [exact Hva |]. split; [exact Hte |]. split; [exact Htr |].
  intros Hpad. rewrite Hpad in *. cbn in *.
  repeat split; congruence.
Qed.

Lemma unbatch_Batch (batches : list (list element)) :
  unbatch <$> (Batch <$> batches) = batches.
Proof.
  rewrite <- list_fmap_compose. apply list_fmap_id.
Qed.

(** ** Batching and repeating *)

Lemma batch_and_prepare_inv (d : list element) (is_training : bool)
  (batch_size : Z) (ds : Dataset.t element) :
  TweetDatasetGenerator.batch_and_prepare d is_training batch_size = Ok ds ->
  0 < batch_size /\
  ds = Dataset.repeat
         (Batch <$> Dataset.groups (Z.to_nat batch_size) is_training d).
Proof.
  unfold TweetDatasetGenerator.batch_and_prepare.
  destruct (Dataset.batch batch_size is_training d) as [batches|] eqn:E;
    cbn; [| discriminate].
  intros [= <-]. destruct (batch_Ok_pos _ _ _ _ E) as [Hpos ->]. auto.
Qed.

(** A repeated dataset never ends, and it starts over after one pass. *)
Lemma repeat_never_ends {A : Type} (cycle : list A) (i : nat) :
  cycle <> [] ->
  is_Some (Dataset.nth_element (Dataset.repeat cycle) i) /\
  Dataset.nth_element (Dataset.repeat cycle) i
    = cycle !! (i mod length cycle)%nat /\
  Dataset.nth_element (Dataset.repeat cycle) (i + length cycle)
    = Dataset.nth_element (Dataset.repeat cycle) i.
Proof.
  intros Hne. assert (Hlen : length cycle <> 0%nat).
  { destruct cycle; [congruence | cbn; lia]. }
  cbn. split; [| split; [reflexivity |]].
  - apply lookup_lt_is_Some. apply Nat.mod_upper_bound. exact Hlen.
  - f_equal. rewrite <- (Nat.mul_1_l (length cycle)) at 1.
    apply Nat.Div0.mod_add.
Qed.

(** A finite dataset ends after its last element. *)
Lemma finite_ends {A : Type} (l : list A) (i : nat) :
  (length l <= i)%nat -> Dataset.nth_element (Dataset.Finite l) i = None.
Proof. intros H. cbn. apply lookup_ge_None. exact H. Qed.

(** C6, as the code has it.  In the element-count pipeline
    ([batch_and_prepare]) a training split is batched with the remainder
    dropped, so every training batch has exactly [batch_size] elements and
    fewer than [batch_size] trailing elements are left out; a validation
    or test split keeps the last partial batch, so no element is left out;
    and the batched split is repeated: it never ends and starts over after
    each pass.  In the batch-count pipeline ([split_dataset]) the dataset
    is batched with the last partial batch kept, and none of the three
    splits is repeated: each ends after its last batch. *)
Theorem batcher_contract :
  (forall (d : list element) (batch_size : Z) (ds : Dataset.t element),
     TweetDatasetGenerator.batch_and_prepare d true batch_size = Ok ds ->
     exists groups rest,
       ds = Dataset.repeat (Batch <$> groups) /\
       Forall (fun g => len g = batch_size) groups /\
       concat groups ++ rest = d /\ len rest < batch_size) /\
  (forall (d : list element) (batch_size : Z) (ds : Dataset.t element),
     TweetDatasetGenerator.batch_and_prepare d false batch_size = Ok ds ->
     exists groups,
       ds = Dataset.repeat (Batch <$> groups) /\
       Forall (fun g => 0 < len g <= batch_size) groups /\
       concat groups = d) /\
  (forall (d : list element) (is_training : bool) (batch_size : Z)
          (ds : Dataset.t element),
     TweetDatasetGenerator.batch_and_prepare d is_training batch_size = Ok ds ->
     exists cycle,
       ds = Dataset.repeat cycle /\
       (cycle <> [] ->
        forall i : nat,
          is_Some (Dataset.nth_element ds i) /\
          Dataset.nth_element ds (i + length cycle)
            = Dataset.nth_element ds i)) /\
  (forall (self self' : TweetDataset.t) (batch_size max_len : Z)
          (validation_size test_size : spec_float)
          (train validate test : list element),
     TweetDataset.split_dataset self batch_size validation_size test_size
       max_len = Ok (self', (train, validate, test)) ->
     concat (unbatch <$> TweetDataset.dataset self') = TweetDataset.dataset self /\
     forall split : list element,
       split ∈ [train; validate; test] ->
       forall i : nat, (length split <= i)%nat ->
         Dataset.nth_element (Dataset.Finite split) i = None).
Proof.
  repeat apply conj.
  - intros d bs ds H. apply batch_and_prepare_inv in H as [Hpos ->].
    destruct (groups_drop_prefix (Z.to_nat bs) d) as (rest & Hrest & Hlen);
      [lia |].
    exists (Dataset.groups (Z.to_nat bs) true d), rest.
    split; [reflexivity |]. split; [| split; [exact Hrest | unfold len; lia]].
    eapply Forall_impl; [apply groups_drop_full |].
    intros g Hg. unfold len. cbn in Hg. lia.
  - intros d bs ds H. apply batch_and_prepare_inv in H as [Hpos ->].
    exists (Dataset.groups (Z.to_nat bs) false d).
    split; [reflexivity |]. split; [| apply groups_concat_keep; lia].
    eapply Forall_impl; [apply groups_bounds |].
    intros g Hg. unfold len. cbn in Hg. lia.
  - intros d b bs ds H. apply batch_and_prepare_inv in H as [_ ->].
    eexists. split; [reflexivity |]. intros Hne i.
    destruct (repeat_never_ends _ i Hne) as (H1 & _ & H2). auto.
  - intros self self' bs ml v t train validate test H.
    destruct (split_dataset_inv _ _ _ _ _ _ _ _ _ H)
      as (batches & val & tst & trn & Hb & _ & Hd & _).
    destruct (batch_Ok_pos _ _ _ _ Hb) as [Hpos ->].
    split.
    + rewrite Hd, unbatch_Batch. apply groups_concat_keep. lia.
    + intros split _ i Hi. apply finite_ends. exact Hi.
Qed.

Lemma batcher_contract_witness :
  exists groups rest,
    Dataset.repeat [Batch [Tensor [1]; Tensor [2]]] = Dataset.repeat (Batch <$> groups) /\
    Forall (fun g => len g = 2) groups /\
    concat groups ++ rest = [Tensor [1]; Tensor [2]; Tensor [3]] /\
    len rest < 2.
Proof.
  apply (proj1 batcher_contract [Tensor [1]; Tensor [2]; Tensor [3]] 2).
  reflexivity.
Defined.

(** C6, counterexample.  The batch-count pipeline, built over two files of
    three lines with a batch size of 4 and both fractions at zero: the
    training split is the two batches of the dataset, the second of them
    has 2 records instead of 4, and the split ends after them. *)
Lemma training_split_partial_and_finite :
  exists (g : TweetDataset.t) (train : list element),
    TweetDataset.init demo_world ["pos.txt"; "neg.txt"] (Some [0; 1])
      4 1000 100 PyFloat.f0_0 PyFloat.f0_0 false false false false 6 = Ok g /\
    TweetDataset.train g = Some train /\
    length train = 2%nat /\
    (exists b, train !! 1%nat = Some b /\ len (unbatch b) = 2 /\ 2 <> 4) /\
    Dataset.nth_element (Dataset.Finite train) 2 = None.
Proof.
  eexists _, _. split; [vm_compute; reflexivity |].
  split; [reflexivity |]. split; [reflexivity |].
  split; [| reflexivity].
  eexists. split; [reflexivity |]. split; [reflexivity | lia].
Qed.

(** ** The element-count pipeline repeats every split *)

Lemma generator_init_inv (w : world) (input_files : list string)
  (labels : option (list Z)) (batch_size max_len : Z)
  (train_p valid_p test_p : spec_float) (size : Z)
  (g : TweetDatasetGenerator.t) :
  TweetDatasetGenerator.init w input_files labels batch_size max_len
    train_p valid_p test_p size = Ok g ->
  exists x y counts tr va te,
    size < full_dimension w /\
    TweetDatasetGenerator.split_data size x y train_p valid_p test_p batch_size
      = Ok (counts, (tr, va, te)) /\
    TweetDatasetGenerator.batch_and_prepare tr true batch_size
      = Ok (TweetDatasetGenerator.train g) /\
    TweetDatasetGenerator.batch_and_prepare va false batch_size
      = Ok (TweetDatasetGenerator.valid g) /\
    TweetDatasetGenerator.batch_and_prepare te false batch_size
      = Ok (TweetDatasetGenerator.test g).
Proof.
  unfold TweetDatasetGenerator.init, assert_.
  destruct (size <? full_dimension w) eqn:Es; cbn; [| discriminate].
  apply Z.ltb_lt in Es.
  destruct (TweetDatasetGenerator.load_data_from_files _ _ _ _)
    as [[x0 y0]|]; cbn; [| discriminate].
  destruct (TweetDatasetGenerator.preprocess_xy _ _ _ _)
    as [[x y]|]; cbn; [| discriminate].
  destruct (TweetDatasetGenerator.split_data _ _ _ _ _ _ _)
    as [[[[c1 c2] c3] [[tr va] te]]|] eqn:Esp; cbn; [| discriminate].
  destruct (TweetDatasetGenerator.batch_and_prepare tr _ _)
    as [dtr|] eqn:Etr; cbn; [| discriminate].
  destruct (TweetDatasetGenerator.batch_and_prepare va _ _)
    as [dva|] eqn:Eva; cbn; [| discriminate].
  destruct (TweetDatasetGenerator.batch_and_prepare te _ _)
    as [dte|] eqn:Ete; cbn; [| discriminate].
  intros [= <-]. cbn.
  exists x, y, (c1, c2, c3), tr, va, te. auto 10.
Qed.

(** C9.  [batch_and_prepare] repeats whatever it batches, whether or not
    [is_training] is set: its result is always a repeated dataset, and when
    that dataset has a batch at all (for a validation or test split: when
    the split has a record at all) every position of a traversal delivers
    a batch, so the traversal never reaches an end.  The constructor of
    the element-count pipeline builds its validation and test splits with
    it. *)
Theorem validation_and_test_repeat :
  (forall (d : list element) (is_training : bool) (batch_size : Z)
          (ds : Dataset.t element),
     TweetDatasetGenerator.batch_and_prepare d is_training batch_size = Ok ds ->
     exists cycle,
       ds = Dataset.repeat cycle /\
       Dataset.batch batch_size is_training d = Ok (unbatch <$> cycle) /\
       (is_training = false -> d <> [] -> cycle <> []) /\
       (cycle <> [] -> forall i : nat, is_Some (Dataset.nth_element ds i))) /\
  (forall (w : world) (input_files : list string) (labels : option (list Z))
          (batch_size max_len : Z) (train_p valid_p test_p : spec_float)
          (size : Z) (g : TweetDatasetGenerator.t),
     TweetDatasetGenerator.init w input_files labels batch_size max_len
       train_p valid_p test_p size = Ok g ->
     exists val test : list element,
       TweetDatasetGenerator.batch_and_prepare val false batch_size
         = Ok (TweetDatasetGenerator.valid g) /\
       TweetDatasetGenerator.batch_and_prepare test false batch_size
         = Ok (TweetDatasetGenerator.test g)).
Proof.
  split.
  - intros d b bs ds H.
    pose proof H as H'. apply batch_and_prepare_inv in H' as [Hpos ->].
    eexists. split; [reflexivity |]. split; [| split].
    + rewrite unbatch_Batch. unfold Dataset.batch.
      replace (bs <=? 0) with false by (symmetry; apply Z.leb_gt; lia).
      reflexivity.
    + intros -> Hd Hnil. apply fmap_nil_inv in Hnil.
      revert Hnil. apply groups_keep_nonempty; [lia | exact Hd].
    + intros Hne i. apply (repeat_never_ends _ i Hne).
  - intros w fs ls bs ml tp vp tsp size g H.
    destruct (generator_init_inv _ _ _ _ _ _ _ _ _ _ H)
      as (x & y & c & tr & va & te & _ & _ & _ & Hva & Hte).
    exists va, te. auto.
Qed.

(** ** Loops that can raise *)

Section MapM.
Context {A B : Type}.
Implicit Types (f : A -> result B) (l : list A).

Lemma mapM_cons f (x : A) l :
  mapM (M := result) f (x :: l)
  = (y ← f x; k ← mapM (M := result) f l; Ok (y :: k)).
Proof. reflexivity. Qed.

(** A loop whose every step succeeds yields one result per element. *)
Lemma mapM_all_Ok f l :
  Forall (fun x => exists y, f x = Ok y) l ->
  exists ys, mapM (M := result) f l = Ok ys /\ length ys = length l.
Proof.
  induction 1 as [|x l [y Hy] _ (ys & IH & Hlen)].
  - exists []. split; reflexivity.
  - exists (y :: ys). rewrite mapM_cons, Hy. cbn. rewrite IH. cbn.
    split; [reflexivity | congruence].
Qed.

(** The results of a loop that succeeded, element by element. *)
Lemma mapM_Ok_Forall2 f l (ys : list B) :
  mapM (M := result) f l = Ok ys -> Forall2 (fun x y => f x = Ok y) l ys.
Proof.
  revert ys. induction l as [|x l IH]; intros ys.
  - intros [= <-]. constructor.
  - rewrite mapM_cons. destruct (f x) as [y|] eqn:Ey; cbn; [| discriminate].
    destruct (mapM f l) as [k|]; cbn; [| discriminate].
    intros [= <-]. constructor; [exact Ey | apply IH; reflexivity].
Qed.

(** A loop whose steps can only fail with [e], and one of which does,
    fails with [e]: the first failing step ends it. *)
Lemma mapM_first_Raise f l (e : exn) (x : A) :
  x ∈ l -> f x = Raise e ->
  Forall (fun x' => (exists y, f x' = Ok y) \/ f x' = Raise e) l ->
  mapM (M := result) f l = Raise e.
Proof.
  intros Hin Hx Hall. induction Hall as [|x' l Hx' _ IH].
  - inversion Hin.
  - rewrite mapM_cons. destruct Hx' as [[y Hy] | Hy].
    + rewrite Hy. cbn. apply elem_of_cons in Hin as [-> | Hin].
      * congruence.
      * rewrite (IH Hin). reflexivity.
    + rewrite Hy. reflexivity.
Qed.

End MapM.

(** ** The low-level builders of [BERT_EMBEDDING] *)

Lemma len_app {A : Type} (l k : list A) : len (l ++ k) = len l + len k.
Proof. unfold len. rewrite length_app. lia. Qed.

Lemma len_py_repeat {A : Type} (x : A) (k : Z) :
  len (py_repeat x k) = Z.max 0 k.
Proof. unfold len, py_repeat. rewrite length_replicate. lia. Qed.

(** C10.  [get_ids] returns a list on every input.  When the tokens have at
    most [max_seq_length] ids the result is those ids followed by zeros,
    [max_seq_length] entries in all; when they have more, the result is
    the ids themselves, not truncated, and so longer than
    [max_seq_length].  [get_masks] raises [IndexError] as soon as there
    are more tokens than [max_seq_length]; with one id per token that is
    the same over-long input. *)
Theorem get_ids_pads_never_truncates
  (convert_tokens_to_ids : list string -> list Z)
  (tokens : list string) (max_seq_length : Z) :
  let ids := convert_tokens_to_ids tokens in
  let input_ids :=
    BERT_EMBEDDING.get_ids convert_tokens_to_ids tokens max_seq_length in
  (len ids <= max_seq_length ->
   input_ids = ids ++ replicate (Z.to_nat (max_seq_length - len ids)) 0 /\
   len input_ids = max_seq_length) /\
  (max_seq_length < len ids ->
   input_ids = ids /\ max_seq_length < len input_ids) /\
  (max_seq_length < len tokens ->
   BERT_EMBEDDING.get_masks tokens max_seq_length = Raise IndexError) /\
  (length ids = length tokens -> max_seq_length < len ids ->
   input_ids = ids /\
   BERT_EMBEDDING.get_masks tokens max_seq_length = Raise IndexError).
Proof.
  cbv zeta. unfold BERT_EMBEDDING.get_ids.
  assert (Hlong : max_seq_length < len (convert_tokens_to_ids tokens) ->
            convert_tokens_to_ids tokens
              ++ py_repeat 0 (max_seq_length - len (convert_tokens_to_ids tokens))
            = convert_tokens_to_ids tokens).
  { intros H. unfold py_repeat.
    replace (Z.to_nat _) with 0%nat by lia. apply app_nil_r. }
  assert (Hmask : max_seq_length < len tokens ->
            BERT_EMBEDDING.get_masks tokens max_seq_length = Raise IndexError).
  { intros H. unfold BERT_EMBEDDING.get_masks.
    replace (len tokens >? max_seq_length) with true
      by (symmetry; apply Z.gtb_lt; lia).
    reflexivity. }
  repeat apply conj.
  - intros H. split; [reflexivity |].
    rewrite len_app, len_py_repeat. lia.
  - intros H. rewrite (Hlong H). auto.
  - exact Hmask.
  - intros Hlen H. rewrite (Hlong H). split; [reflexivity |].
    apply Hmask. unfold len in *. lia.
Qed.

Lemma get_ids_pads_never_truncates_witness :
  BERT_EMBEDDING.get_ids (fmap (fun s => Z.of_nat (String.length s)))
    ["[CLS]"; "a"; "bc"; "[SEP]"] 2 = [5; 1; 2; 5] /\
  BERT_EMBEDDING.get_masks ["[CLS]"; "a"; "bc"; "[SEP]"] 2 = Raise IndexError.
Proof.
  refine (proj2 (proj2 (proj2
    (get_ids_pads_never_truncates
       (fmap (fun s => Z.of_nat (String.length s)))
       ["[CLS]"; "a"; "bc"; "[SEP]"] 2))) _ _).
  - reflexivity.
  - vm_compute. reflexivity.
Defined.

(** The mask of a token list that fits has [max_seq_length] entries. *)
Lemma get_masks_length (tokens : list string) (max_seq_length : Z) :
  len tokens <= max_seq_length ->
  exists mask,
    BERT_EMBEDDING.get_masks tokens max_seq_length = Ok mask /\
    len mask = max_seq_length.
Proof.
  intros H. unfold BERT_EMBEDDING.get_masks.
  replace (len tokens >? max_seq_length) with false
    by (rewrite Z.gtb_ltb; symmetry; apply Z.ltb_ge; lia).
  eexists. split; [reflexivity |].
  rewrite len_app, !len_py_repeat. unfold len in *. lia.
Qed.

(** ** The embedder adapter *)

Lemma encode_plus_length (w : world) (text : string) (max_length : Z) :
  2 <= max_length ->
  len (encode_plus w text max_length).1 = max_length /\
  len (encode_plus w text max_length).2 = max_length.
Proof.
  intros H. unfold encode_plus, len. cbn [fst snd].
  rewrite !length_app, !length_replicate. cbn [length].
  rewrite length_app, length_take. cbn [length]. lia.
Qed.

(** The adapter of the batch-count pipeline on a line of text. *)
Lemma tf_encode_Text (w : world) (sentence : string) :
  exists ids mask,
    TweetDataset.tf_encode w (Text sentence)
      = Ok (Pair (Tensor ids) (Tensor mask)) /\
    TweetDataset.get_bert_encoding w sentence = (ids, mask) /\
    len ids = 50 /\ len mask = 50.
Proof.
  unfold TweetDataset.tf_encode.
  destruct (TweetDataset.get_bert_encoding w sentence) as [ids mask] eqn:E.
  exists ids, mask. split; [reflexivity |]. split; [reflexivity |].
  unfold TweetDataset.get_bert_encoding in E.
  pose proof (encode_plus_length w (tensor_str w sentence) 50 ltac:(lia))
    as [H1 H2].
  rewrite E in H1, H2. auto.
Qed.

(** C2, on the batch-count pipeline.  Whatever the sentence, the adapter
    of [TweetDataset] yields token ids and a mask of 50 entries each: the
    length is the literal in the code, and the [max_len] given to the
    constructor plays no part in it.  Built with [max_len = 100], the
    pipeline holds records of 50 ids. *)
Theorem tweet_dataset_encoding_length :
  (forall (w : world) (sentence : string),
     exists ids mask,
       TweetDataset.tf_encode w (Text sentence)
         = Ok (Pair (Tensor ids) (Tensor mask)) /\
       TweetDataset.get_bert_encoding w sentence = (ids, mask) /\
       len ids = 50 /\ len mask = 50) /\
  (exists (g : TweetDataset.t) ids mask label rest,
     TweetDataset.init demo_world ["pos.txt"] (Some [0])
       1 1000 100 PyFloat.f0_0 PyFloat.f0_0 false true false false 3 = Ok g /\
     TweetDataset.dataset g
       = Batch [Pair (Pair (Tensor ids) (Tensor mask)) label] :: rest /\
     len ids = 50 /\ len mask = 50 /\ 50 <> 100).
Proof.
  split; [exact tf_encode_Text |].
  eexists _, _, _, _, _. split; [vm_compute; reflexivity |].
  split; [reflexivity |]. split; [reflexivity |].
  split; [reflexivity | lia].
Qed.

(** The adapter of the element-count pipeline follows [self.max_len]. *)
Lemma generator_encoding_length (w : world) (max_len : Z) (sentence : string) :
  2 <= max_len ->
  len (TweetDatasetGenerator.get_bert_encoding w max_len sentence).1 = max_len /\
  len (TweetDatasetGenerator.get_bert_encoding w max_len sentence).2 = max_len.
Proof. apply encode_plus_length. Qed.

(** ** Loading: missing files and label counts *)

Lemma TextLineDataset_present (w : world) (path : string) (lines : list string) :
  files w !! path = Some lines -> TextLineDataset w path = Ok (Text <$> lines).
Proof. intros H. unfold TextLineDataset. rewrite H. reflexivity. Qed.

Lemma TextLineDataset_missing (w : world) (path : string) :
  files w !! path = None -> TextLineDataset w path = Raise NotFoundError.
Proof. intros H. unfold TextLineDataset. rewrite H. reflexivity. Qed.

Lemma floordiv_Ok (a b : Z) : b <> 0 -> floordiv a b = Ok (a / b).
Proof.
  intros H. unfold floordiv.
  replace (b =? 0) with false by (symmetry; apply Z.eqb_neq; exact H).
  reflexivity.
Qed.

Lemma len_nonempty {A : Type} (l : list A) (x : A) : x ∈ l -> len l <> 0.
Proof. destruct l; [inversion 1 | unfold len; cbn; lia]. Qed.

(** The reading loop of [load_dataset] stops at the first missing file. *)
Lemma load_dataset_missing_file (w : world) (input_files : list string)
  (size : Z) (labels : option (list Z)) (bert : bool) (f : string) :
  f ∈ input_files -> files w !! f = None ->
  TweetDataset.load_dataset w input_files size labels bert
    = Raise NotFoundError.
Proof.
  intros Hin Hf. unfold TweetDataset.load_dataset.
  erewrite mapM_first_Raise; [reflexivity | exact Hin | |].
  - cbn beta. rewrite (TextLineDataset_missing w f Hf). reflexivity.
  - apply Forall_forall. intros p _. cbn beta.
    destruct (files w !! p) as [lines|] eqn:Ep.
    + left. rewrite (TextLineDataset_present w p lines Ep). cbn.
      rewrite floordiv_Ok by (eapply len_nonempty; exact Hin).
      cbn. eauto.
    + right. rewrite (TextLineDataset_missing w p Ep). reflexivity.
Qed.

(** C8.  If one of the input files is missing, building the batch-count
    pipeline fails with the NotFound error of the line reader: the
    constructor returns no object at all, whatever the other arguments. *)
Theorem missing_file_aborts_construction (w : world)
  (input_files : list string) (labels : option (list Z))
  (batch_size buffer_size max_len : Z) (validation_size test_size : spec_float)
  (encode_text bert_embed do_padding caching : bool) (size : Z) (f : string) :
  f ∈ input_files -> files w !! f = None ->
  TweetDataset.init w input_files labels batch_size buffer_size max_len
    validation_size test_size encode_text bert_embed do_padding caching size
  = Raise NotFoundError.
Proof.
  intros Hin Hf. unfold TweetDataset.init.
  rewrite (load_dataset_missing_file w input_files size labels bert_embed f Hin Hf).
  reflexivity.
Qed.

Lemma missing_file_aborts_construction_witness :
  TweetDataset.init demo_world ["pos.txt"; "missing.txt"] (Some [0; 1])
    2 1000 100 PyFloat.f0_2 PyFloat.f0_2 false true false false 6
  = Raise NotFoundError.
Proof.
  apply (missing_file_aborts_construction demo_world
           ["pos.txt"; "missing.txt"] (Some [0; 1]) 2 1000 100
           PyFloat.f0_2 PyFloat.f0_2 false true false false 6 "missing.txt").
  - apply elem_of_cons. right. apply elem_of_cons. left. reflexivity.
  - vm_compute. reflexivity.
Defined.

Lemma take_Text (count : Z) (lines : list string) :
  Forall (fun e => exists line, e = Text line)
    (Dataset.take count (Text <$> lines)).
Proof.
  assert (H : Forall (fun e => exists line, e = Text line) (Text <$> lines)).
  { apply Forall_fmap, Forall_forall. intros line _. cbn. eauto. }
  unfold Dataset.take. destruct (count <? 0); [exact H |].
  apply Forall_take. exact H.
Qed.

(** The reading loop of [load_dataset] on files that are all present. *)
Lemma read_loop (w : world) (count_of : result Z) (paths : list string) :
  all_present w paths ->
  (paths <> [] -> exists count, count_of = Ok count) ->
  exists datasets,
    mapM (M := result)
      (fun path =>
         lines ← TextLineDataset w path;
         count ← count_of;
         Ok (Dataset.take count lines)) paths = Ok datasets /\
    length datasets = length paths /\
    Forall (Forall (fun e => exists line, e = Text line)) datasets.
Proof.
  intros Hall Hcount. induction Hall as [|p ps [lines Hl] _ IH].
  - exists []. repeat split. constructor.
  - destruct (Hcount ltac:(discriminate)) as [count Hc].
    destruct IH as (ds & Hds & Hlen & Htext); [eauto |].
    exists (Dataset.take count (Text <$> lines) :: ds).
    rewrite mapM_cons, Hds, (TextLineDataset_present w p lines Hl), Hc.
    cbn. split; [reflexivity |]. split; [congruence |].
    constructor; [apply take_Text | exact Htext].
Qed.

Lemma load_dataset_read (w : world) (paths : list string) (size : Z) :
  all_present w paths ->
  exists datasets,
    mapM (M := result)
      (fun path =>
         lines ← TextLineDataset w path;
         count ← floordiv size (len paths);
         Ok (Dataset.take count lines)) paths = Ok datasets /\
    length datasets = length paths /\
    Forall (Forall (fun e => exists line, e = Text line)) datasets.
Proof.
  intros Hall. apply read_loop; [exact Hall |].
  intros Hne. rewrite floordiv_Ok; [eauto |].
  destruct paths; [congruence | unfold len; cbn; lia].
Qed.

(** The embedding pass of [load_dataset] succeeds on lines of text. *)
Lemma embed_loop (w : world) (datasets : list (list element)) :
  Forall (Forall (fun e => exists line, e = Text line)) datasets ->
  exists embedded,
    mapM (M := result) (mapM (M := result) (TweetDataset.tf_encode w)) datasets
      = Ok embedded /\
    length embedded = length datasets.
Proof.
  intros H. apply mapM_all_Ok.
  eapply Forall_impl; [exact H |]. intros d Hd. cbn.
  destruct (mapM_all_Ok (TweetDataset.tf_encode w) d) as (ys & Hys & _);
    [| eauto].
  eapply Forall_impl; [exact Hd |]. intros e [line ->].
  destruct (tf_encode_Text w line) as (ids & mask & He & _).
  eauto.
Qed.

(** The labelling loop succeeds when there is a label for every dataset. *)
Lemma label_loop (labels : list Z) (datasets : list (list element)) :
  (length datasets <= length labels)%nat ->
  exists labelled,
    mapM (M := result)
      (fun '(i, d) =>
         label ← py_index labels i;
         Ok ((fun x => Pair x (one_hot label)) <$> (d : list element)))
      (imap pair datasets) = Ok labelled /\
    length labelled = length datasets.
Proof.
  intros Hlen.
  destruct (mapM_all_Ok
    (fun '(i, d) =>
       label ← py_index labels i;
       Ok ((fun x => Pair x (one_hot label)) <$> (d : list element)))
    (imap pair datasets)) as (ys & Hys & Hl).
  - apply Forall_forall. intros [i d] Hin.
    apply elem_of_lookup_imap in Hin as (i' & d' & [= -> ->] & Hd).
    apply lookup_lt_Some in Hd.
    destruct (lookup_lt_is_Some_2 labels i' ltac:(lia)) as [label Hlabel].
    unfold py_index. rewrite Hlabel. cbn. eauto.
  - exists ys. rewrite length_imap in Hl. auto.
Qed.

(** The batch-count pipeline checks the label count: with every file
    present and a non-empty label list of another length, loading fails
    on its assertion. *)
Lemma load_dataset_label_mismatch (w : world) (input_files : list string)
  (size : Z) (label : Z) (labels : list Z) (bert : bool) :
  all_present w input_files ->
  length (label :: labels) <> length input_files ->
  TweetDataset.load_dataset w input_files size (Some (label :: labels)) bert
    = Raise AssertionError.
Proof.
  intros Hall Hlen. unfold TweetDataset.load_dataset.
  destruct (load_dataset_read w input_files size Hall)
    as (ds & -> & Hl & Htext).
  rewrite bind_Ok_l.
  assert (Hassert : assert_ (len (label :: labels) =? len input_files)
                    = Raise AssertionError).
  { unfold assert_.
    replace (len (label :: labels) =? len input_files) with false;
      [reflexivity |].
    symmetry. apply Z.eqb_neq. unfold len. lia. }
  destruct bert.
  - destruct (embed_loop w ds Htext) as (em & -> & _).
    rewrite bind_Ok_l, Hassert. reflexivity.
  - rewrite bind_Ok_l, Hassert. reflexivity.
Qed.

(** With as many labels as files, all of them present, and a positive
    size, loading succeeds: the assertion holds and every file finds its
    label. *)
Lemma load_dataset_label_match (w : world) (input_files : list string)
  (size : Z) (label : Z) (labels : list Z) (bert : bool) :
  all_present w input_files ->
  length (label :: labels) = length input_files ->
  0 < size ->
  exists dataset,
    TweetDataset.load_dataset w input_files size (Some (label :: labels)) bert
      = Ok dataset.
Proof.
  intros Hall Hlen Hsize. unfold TweetDataset.load_dataset.
  destruct (load_dataset_read w input_files size Hall)
    as (ds & -> & Hl & Htext).
  rewrite bind_Ok_l.
  assert (Hassert : assert_ (len (label :: labels) =? len input_files)
                    = Ok tt).
  { unfold assert_.
    replace (len (label :: labels) =? len input_files) with true;
      [reflexivity |].
    symmetry. apply Z.eqb_eq. unfold len. lia. }
  assert (Hfinish : forall ds' : list (list element),
    length ds' = length input_files ->
    exists dataset,
      (datasets ←
         (_ ← assert_ (len (label :: labels) =? len input_files);
          mapM (M := result)
            (fun '(i, d) =>
               l ← py_index (label :: labels) i;
               Ok ((fun x => Pair x (one_hot l)) <$> (d : list element)))
            (imap pair ds'));
       dataset_final ←
         match datasets with
         | d :: rest => Ok (foldl Dataset.concatenate d rest)
         | [] => Raise IndexError
         end;
       dataset_final ← Ok (dataset_final : list element);
       checked_shuffle w size dataset_final) = Ok dataset).
  { intros ds' Hds'. rewrite Hassert, bind_Ok_l.
    destruct (label_loop (label :: labels) ds' ltac:(lia))
      as (lb & -> & Hlb).
    rewrite bind_Ok_l.
    destruct lb as [|d rest]; [cbn in *; lia |].
    rewrite !bind_Ok_l. unfold checked_shuffle.
    replace (size <=? 0) with false by (symmetry; apply Z.leb_gt; lia).
    eauto. }
  destruct bert.
  - destruct (embed_loop w ds Htext) as (em & -> & Hem).
    rewrite bind_Ok_l. apply Hfinish. lia.
  - rewrite bind_Ok_l. apply Hfinish. lia.
Qed.




(** The two constructors on one file and two labels: the batch-count
    pipeline stops on its assertion, the element-count pipeline is built. *)
Example one_file_two_labels :
  TweetDataset.init demo_world ["pos.txt"] (Some [0; 1])
    2 1000 100 PyFloat.f0_2 PyFloat.f0_2 false true false false 3
    = Raise AssertionError /\
  is_ok (TweetDatasetGenerator.init demo_world ["pos.txt"] (Some [0; 1])
           2 50 PyFloat.f0_75 PyFloat.f0_2 PyFloat.f0_0 3) = true.
Proof. split; vm_compute; reflexivity. Qed.

(** ** Prediction mode with padding *)

(** Without labels the embedded records reach [lambda line: (line)]: a
    function of one argument applied to records of two components. *)
Lemma load_dataset_embedded_unlabelled (w : world)
  (input_files : list string) (size : Z) (labels : option (list Z)) :
  truthy labels = false ->
  input_files <> [] ->
  all_present w input_files ->
  TweetDataset.load_dataset w input_files size labels true = Raise TypeError.
Proof.
  intros Hl Hne Hall. unfold TweetDataset.load_dataset.
  destruct (load_dataset_read w input_files size Hall)
    as (ds & -> & Hlen & Htext).
  rewrite bind_Ok_l.
  destruct (embed_loop w ds Htext) as (em & -> & Hem).
  rewrite bind_Ok_l.
  destruct em as [|d rest];
    [destruct input_files; [congruence | cbn in *; lia] |].
  destruct labels as [[|l ls]|]; [| discriminate |];
    rewrite !bind_Ok_l; reflexivity.
Qed.

(** C7.  Prediction mode with padding on does not get as far as a
    batch.  With the embedding on (the default) the constructor stops in
    the loader with [TypeError], whatever the padding flag, the maximum
    length and the batch size, as soon as there is a file and all files
    are present; on one file of three lines with [max_len = 20] and
    padding on it stops with [TypeError] with the embedding and with
    [ValueError] on the text records without it. *)
Theorem prediction_with_padding_raises :
  (forall (w : world) (input_files : list string) (labels : option (list Z))
          (batch_size buffer_size max_len : Z)
          (validation_size test_size : spec_float)
          (encode_text do_padding caching : bool) (size : Z),
     truthy labels = false ->
     input_files <> [] ->
     all_present w input_files ->
     TweetDataset.init w input_files labels batch_size buffer_size max_len
       validation_size test_size encode_text true do_padding caching size
     = Raise TypeError) /\
  TweetDataset.init demo_world ["pos.txt"] None 12 1000 20
    PyFloat.f0_2 PyFloat.f0_2 false true true false 3 = Raise TypeError /\
  TweetDataset.init demo_world ["pos.txt"] None 12 1000 20
    PyFloat.f0_2 PyFloat.f0_2 false false true false 3 = Raise ValueError.
Proof.
  split; [| split; vm_compute; reflexivity].
  intros w input_files labels batch_size buffer_size max_len v t
    encode_text do_padding caching size Hl Hne Hall.
  unfold TweetDataset.init.
  rewrite (load_dataset_embedded_unlabelled w input_files size labels
             Hl Hne Hall).
  reflexivity.
Qed.

Lemma prediction_with_padding_raises_witness :
  TweetDataset.init demo_world ["pos.txt"; "neg.txt"] (Some []) 2 1000 20
    PyFloat.f0_2 PyFloat.f0_2 false true true false 6 = Raise TypeError.
Proof.
  apply (proj1 prediction_with_padding_raises demo_world
           ["pos.txt"; "neg.txt"] (Some [])).
  - reflexivity.
  - discriminate.
  - repeat (apply Forall_cons_2; [vm_compute; eauto |]). apply Forall_nil_2.
Defined.

Lemma split_dataset_order_witness :
  exists self' train validate test,
    TweetDataset.split_dataset demo_supervised 2 PyFloat.f0_2 PyFloat.f0_2 100
      = Ok (self', (train, validate, test)) /\
    TweetDataset.dataset self' = validate ++ test ++ train.
Proof.
  destruct (TweetDataset.split_dataset demo_supervised 2
              PyFloat.f0_2 PyFloat.f0_2 100)
    as [[s' [[tr va] te]]|] eqn:E.
  - destruct (split_dataset_order demo_supervised s' 2 100
                PyFloat.f0_2 PyFloat.f0_2 tr va te
                ltac:(cbn; lia) eq_refl eq_refl E)
      as (val & tst & trn & head & middle & rest
          & _ & _ & _ & _ & Hd & _ & _ & _ & _ & _ & _ & Hnp).
    destruct (Hnp eq_refl) as (-> & -> & ->).
    exists s', rest, head, middle. split; [reflexivity | exact Hd].
  - vm_compute in E. discriminate.
Defined.

Lemma validation_and_test_repeat_witness :
  is_Some (Dataset.nth_element (Dataset.repeat [Batch [Tensor [1]]]) 7).
Proof.
  destruct (proj1 validation_and_test_repeat [Tensor [1]] false 2
              (Dataset.repeat [Batch [Tensor [1]]]) eq_refl)
    as (cycle & Hc & _ & Hne & Hsome).
  apply Hsome, Hne; [reflexivity | discriminate].
Defined.

(** * Further properties of the code *)

(** ** Masks and segments *)

(** The mask of a token list that fits has one entry per position up to
    [max_seq_length]: 1 on the positions of the tokens, 0 on the padding. *)
Theorem get_masks_marks_tokens (tokens : list string) (max_seq_length : Z) :
  len tokens <= max_seq_length ->
  exists mask,
    BERT_EMBEDDING.get_masks tokens max_seq_length = Ok mask /\
    len mask = max_seq_length /\
    forall i : nat,
      Z.of_nat i < max_seq_length ->
      mask !! i = Some (if (i <? length tokens)%nat then 1 else 0).
Proof.
  intros H. destruct (get_masks_length tokens max_seq_length H)
    as (mask & Hmask & Hlen).
  exists mask. split; [exact Hmask |]. split; [exact Hlen |].
  unfold BERT_EMBEDDING.get_masks in Hmask.
  replace (len tokens >? max_seq_length) with false in Hmask
    by (rewrite Z.gtb_ltb; symmetry; apply Z.ltb_ge; lia).
  injection Hmask as <-. intros i Hi. unfold py_repeat, len in *.
  rewrite Nat2Z.id.
  destruct (i <? length tokens)%nat eqn:E.
  - apply Nat.ltb_lt in E.
    rewrite lookup_app_l by (rewrite length_replicate; exact E).
    apply lookup_replicate_2. exact E.
  - apply Nat.ltb_ge in E.
    rewrite lookup_app_r by (rewrite length_replicate; exact E).
    rewrite length_replicate. apply lookup_replicate_2. lia.
Qed.

Lemma get_masks_marks_tokens_witness :
  exists mask,
    BERT_EMBEDDING.get_masks ["[CLS]"; "a"; "[SEP]"] 5 = Ok mask /\
    len mask = 5 /\
    forall i : nat,
      Z.of_nat i < 5 ->
      mask !! i = Some (if (i <? 3)%nat then 1 else 0).
Proof.
  apply (get_masks_marks_tokens ["[CLS]"; "a"; "[SEP]"] 5).
  unfold len. cbn. lia.
Defined.

(** The segment loop on tokens without a separator: the segment id stays
    unchanged. *)
Lemma segments_loop_no_sep (tokens : list string) (segments : list Z)
  (current : Z) :
  "[SEP]" ∉ tokens ->
  foldl (fun '(segments, current_segment_id) token =>
           (segments ++ [current_segment_id],
            if String.eqb token "[SEP]" then 1 else current_segment_id))
        (segments, current) tokens
  = (segments ++ replicate (length tokens) current, current).
Proof.
  revert segments. induction tokens as [|t ts IH]; intros segments Hno.
  - cbn. rewrite app_nil_r. reflexivity.
  - apply not_elem_of_cons in Hno as [Ht Hts]. cbn [foldl].
    replace (String.eqb t "[SEP]") with false
      by (symmetry; apply String.eqb_neq; congruence).
    rewrite IH by exact Hts. cbn [length replicate].
    rewrite <- app_assoc. reflexivity.
Qed.

(** The segment loop once the segment id is 1: it stays 1, separator or
    not. *)
Lemma segments_loop_second (tokens : list string) (segments : list Z) :
  foldl (fun '(segments, current_segment_id) token =>
           (segments ++ [current_segment_id],
            if String.eqb token "[SEP]" then 1 else current_segment_id))
        (segments, 1) tokens
  = (segments ++ replicate (length tokens) 1, 1).
Proof.
  revert segments. induction tokens as [|t ts IH]; intros segments.
  - cbn. rewrite app_nil_r. reflexivity.
  - cbn [foldl].
    replace (if String.eqb t "[SEP]" then 1 else 1) with 1
      by (destruct (String.eqb t "[SEP]"); reflexivity).
    rewrite IH. cbn [length replicate]. rewrite <- app_assoc. reflexivity.
Qed.

(** The segment loop on a token list cut at its first separator. *)
Lemma segments_loop_at_sep (first second : list string) :
  "[SEP]" ∉ first ->
  foldl (fun '(segments, current_segment_id) token =>
           (segments ++ [current_segment_id],
            if String.eqb token "[SEP]" then 1 else current_segment_id))
        ([], 0) (first ++ "[SEP]" :: second)
  = (replicate (S (length first)) 0 ++ replicate (length second) 1, 1).
Proof.
  intros Hno. rewrite foldl_app, (segments_loop_no_sep first [] 0 Hno).
  cbn [foldl]. cbn [String.eqb Ascii.eqb Bool.eqb].
  rewrite segments_loop_second. cbn [app].
  rewrite replicate_S_end. reflexivity.
Qed.

(** The tokens up to and including the first [[SEP]] are in segment 0, all
    later tokens, further separators included, are in segment 1, and the
    padding is 0 again. *)
Theorem get_segments_first_sep (first second : list string)
  (max_seq_length : Z) :
  "[SEP]" ∉ first ->
  len (first ++ "[SEP]" :: second) <= max_seq_length ->
  BERT_EMBEDDING.get_segments (first ++ "[SEP]" :: second) max_seq_length
  = Ok (replicate (S (length first)) 0 ++ replicate (length second) 1
          ++ replicate
               (Z.to_nat (max_seq_length - len (first ++ "[SEP]" :: second)))
               0).
Proof.
  intros Hno Hlen. unfold BERT_EMBEDDING.get_segments.
  replace (len (first ++ "[SEP]" :: second) >? max_seq_length) with false
    by (rewrite Z.gtb_ltb; symmetry; apply Z.ltb_ge; lia).
  rewrite (segments_loop_at_sep first second Hno).
  unfold py_repeat. rewrite <- app_assoc. reflexivity.
Qed.

Lemma get_segments_first_sep_witness :
  BERT_EMBEDDING.get_segments
    (["[CLS]"; "a"] ++ "[SEP]" :: ["b"; "[SEP]"]) 7
  = Ok [0; 0; 0; 1; 1; 0; 0].
Proof.
  refine (get_segments_first_sep ["[CLS]"; "a"] ["b"; "[SEP]"] 7 _ _).
  - intros H. repeat (apply elem_of_cons in H as [H | H]; [discriminate |]).
    inversion H.
  - unfold len. cbn. lia.
Defined.

(** Without a separator every segment id is 0. *)
Lemma get_segments_no_sep (tokens : list string) (max_seq_length : Z) :
  "[SEP]" ∉ tokens -> len tokens <= max_seq_length ->
  BERT_EMBEDDING.get_segments tokens max_seq_length
  = Ok (replicate (Z.to_nat max_seq_length) 0).
Proof.
  intros Hno Hlen. unfold BERT_EMBEDDING.get_segments.
  replace (len tokens >? max_seq_length) with false
    by (rewrite Z.gtb_ltb; symmetry; apply Z.ltb_ge; lia).
  rewrite (segments_loop_no_sep tokens [] 0 Hno). unfold py_repeat, len in *.
  cbn [app]. rewrite <- replicate_add. do 2 f_equal. lia.
Qed.

(** ** The embedding run *)

Section EmbeddingRun.
Context {row : Type}.
Implicit Types (m : bert row) (output : list row) (lines : list string).

(** A line with more tokens than fit between the boundary tokens stops
    [get_masks]. *)
Lemma model_inputs_too_long m (line : string) (max_seq_length : Z) :
  max_seq_length < len (bert_tokenize m line) + 2 ->
  model_inputs m line max_seq_length = Raise IndexError.
Proof.
  intros H. unfold model_inputs, BERT_EMBEDDING.get_masks.
  replace (len (["[CLS]"] ++ bert_tokenize m line ++ ["[SEP]"])
             >? max_seq_length) with true; [reflexivity |].
  symmetry. apply Z.gtb_lt. rewrite !len_app. unfold len in *. cbn. lia.
Qed.

Lemma model_inputs_fits m (line : string) (max_seq_length : Z)
  (inputs : list Z * list Z * list Z) :
  model_inputs m line max_seq_length = Ok inputs ->
  len (bert_tokenize m line) + 2 <= max_seq_length.
Proof.
  intros H. destruct (Z_le_gt_dec (len (bert_tokenize m line) + 2)
                        max_seq_length) as [Hle | Hgt]; [exact Hle |].
  rewrite model_inputs_too_long in H by lia. discriminate.
Qed.

Lemma model_inputs_errors m (line : string) (max_seq_length : Z) (e : exn) :
  model_inputs m line max_seq_length = Raise e -> e = IndexError.
Proof.
  unfold model_inputs, BERT_EMBEDDING.get_masks, BERT_EMBEDDING.get_segments.
  destruct (len _ >? max_seq_length); cbn; [congruence |].
  destruct (foldl _ _ _) as [segments c]. cbn. discriminate.
Qed.

(** The three model inputs of a line that fits have [max_seq_length]
    entries each, and the segment ids are all 0: the only separator is
    the closing boundary token. *)
Theorem model_inputs_aligned m (line : string) (max_seq_length : Z) :
  len (bert_tokenize m line) + 2 <= max_seq_length ->
  "[SEP]" ∉ bert_tokenize m line ->
  length (bert_convert_tokens_to_ids m
            (["[CLS]"] ++ bert_tokenize m line ++ ["[SEP]"]))
    = length (["[CLS]"] ++ bert_tokenize m line ++ ["[SEP]"]) ->
  exists input_ids input_masks input_segments,
    model_inputs m line max_seq_length
      = Ok (input_ids, input_masks, input_segments) /\
    len input_ids = max_seq_length /\
    len input_masks = max_seq_length /\
    len input_segments = max_seq_length /\
    input_segments = replicate (Z.to_nat max_seq_length) 0.
Proof.
  intros Hfit Hno Hids. unfold model_inputs.
  set (stokens := ["[CLS]"] ++ bert_tokenize m line ++ ["[SEP]"]) in *.
  assert (Hlen : len stokens <= max_seq_length).
  { unfold stokens. rewrite !len_app. unfold len in *. cbn. lia. }
  destruct (get_masks_length stokens max_seq_length Hlen)
    as (mask & -> & Hmask).
  assert (Hseg : BERT_EMBEDDING.get_segments stokens max_seq_length
                 = Ok (replicate (Z.to_nat max_seq_length) 0)).
  { replace stokens with (("[CLS]" :: bert_tokenize m line) ++ "[SEP]" :: [])
      by reflexivity.
    unfold BERT_EMBEDDING.get_segments.
    replace (len (("[CLS]" :: bert_tokenize m line) ++ ["[SEP]"])
               >? max_seq_length) with false
      by (rewrite Z.gtb_ltb; symmetry; apply Z.ltb_ge; exact Hlen).
    rewrite segments_loop_at_sep
      by (intros H; apply elem_of_cons in H as [H | H];
          [discriminate | auto]).
    f_equal. change (replicate (length (@nil string)) 1) with (@nil Z).
    unfold py_repeat. rewrite app_nil_r, <- replicate_add. f_equal.
    unfold len in *. rewrite length_app. cbn [length]. lia. }
  rewrite Hseg. cbn. eexists _, _, _. split; [reflexivity |].
  repeat split.
  - unfold BERT_EMBEDDING.get_ids. rewrite len_app, len_py_repeat.
    unfold len in *. subst stokens. cbn [app] in *. lia.
  - exact Hmask.
  - unfold len in *. rewrite length_replicate. lia.
Qed.

Lemma set_row_Ok output (i : nat) (v : row) output' :
  set_row output i v = Ok output' ->
  (i < length output)%nat /\ output' = <[i:=v]> output.
Proof.
  unfold set_row. destruct (i <? length output)%nat eqn:E; [| discriminate].
  apply Nat.ltb_lt in E. intros [= <-]. auto.
Qed.

(** One file: every line is embedded, and the last one is what stays in
    row [i]. *)
Lemma embed_lines_inv m (max_seq_length : Z) (i : nat) lines output output' :
  embed_lines m max_seq_length i lines output = Ok output' ->
  Forall (fun line => exists r, line_row m max_seq_length line = Ok r) lines /\
  match last lines with
  | None => output' = output
  | Some line =>
      exists r, line_row m max_seq_length line = Ok r /\
                (i < length output)%nat /\ output' = <[i:=r]> output
  end.
Proof.
  revert output. induction lines as [|line rest IH]; intros output.
  - cbn. intros [= <-]. split; [constructor | reflexivity].
  - cbn [embed_lines].
    destruct (model_inputs m line max_seq_length) as [[[ids masks] segs]|] eqn:Ei;
      cbn; [| discriminate].
    destruct (set_row output i (bert_predict m ids masks segs)) as [o1|] eqn:Es;
      cbn; [| discriminate].
    apply set_row_Ok in Es as [Hi ->]. intros H.
    destruct (IH _ H) as [Hall Hlast].
    assert (Hrow : line_row m max_seq_length line
                   = Ok (bert_predict m ids masks segs)).
    { unfold line_row. rewrite Ei. reflexivity. }
    split; [constructor; eauto |].
    destruct rest as [|line' rest'].
    + cbn in *. subst. eauto.
    + change (last (line :: line' :: rest')) with (last (line' :: rest')).
      destruct (last (line' :: rest')) as [l|] eqn:El.
      * destruct Hlast as (r & Hr & _ & ->).
        exists r. rewrite list_insert_insert_eq. auto.
      * apply last_None in El. discriminate.
Qed.

Lemma line_row_fits m (max_seq_length : Z) (line : string) (r : row) :
  line_row m max_seq_length line = Ok r ->
  len (bert_tokenize m line) + 2 <= max_seq_length.
Proof.
  unfold line_row.
  destruct (model_inputs m line max_seq_length) as [inputs|] eqn:E;
    [| discriminate].
  intros _. exact (model_inputs_fits m line max_seq_length inputs E).
Qed.

(** All files from index [i] on: the rows outside their range are left
    alone, and the row of each file ends up holding its last line. *)
Lemma embed_files_inv (fs : gmap string (list string)) m (max_seq_length : Z)
  (input_files : list string) (i : nat) output output' :
  embed_files fs m max_seq_length i input_files output = Ok output' ->
  length output' = length output /\
  (forall j : nat,
     (j < i \/ i + length input_files <= j)%nat ->
     output' !! j = output !! j) /\
  (forall (k : nat) (file : string),
     input_files !! k = Some file ->
     exists lines,
       fs !! file = Some lines /\
       Forall (fun line => exists r, line_row m max_seq_length line = Ok r)
         lines /\
       match last lines with
       | None => output' !! (i + k)%nat = output !! (i + k)%nat
       | Some line =>
           exists r, line_row m max_seq_length line = Ok r /\
                     output' !! (i + k)%nat = Some r
       end).
Proof.
  revert i output. induction input_files as [|file rest IH]; intros i output.
  - cbn. intros [= <-]. split; [reflexivity |]. split; [reflexivity |].
    intros k f Hk. discriminate.
  - cbn [embed_files]. unfold open_lines.
    destruct (fs !! file) as [lines|] eqn:Ef; cbn; [| discriminate].
    destruct (embed_lines m max_seq_length i lines output) as [o1|] eqn:El;
      cbn; [| discriminate].
    intros H. destruct (IH _ _ H) as (Hlen & Hout & Hfiles).
    destruct (embed_lines_inv _ _ _ _ _ _ El) as [Hall Hlast].
    assert (Ho1 : length o1 = length output /\
                  forall j : nat, j <> i -> o1 !! j = output !! j).
    { destruct (last lines) as [line|].
      - destruct Hlast as (r & _ & _ & ->).
        split; [apply length_insert |].
        intros j Hj. apply list_lookup_insert_ne. congruence.
      - subst o1. auto. }
    destruct Ho1 as [Hlen1 Hne1].
    split; [congruence |]. split.
    + intros j Hj. cbn [length] in Hj.
      rewrite Hout by lia. apply Hne1. lia.
    + intros [|k] f Hk.
      * cbn in Hk. injection Hk as <-. exists lines.
        split; [exact Ef |]. split; [exact Hall |].
        rewrite Nat.add_0_r, Hout by lia.
        destruct (last lines) as [line|].
        -- destruct Hlast as (r & Hr & Hi & ->). exists r.
           split; [exact Hr |]. apply list_lookup_insert_eq. exact Hi.
        -- subst o1. reflexivity.
      * cbn in Hk. destruct (Hfiles k f Hk) as (ls & Hls & Hall' & Hlast').
        exists ls. split; [exact Hls |]. split; [exact Hall' |].
        replace (i + S k)%nat with (S i + k)%nat by lia.
        destruct (last ls) as [line|]; [exact Hlast' |].
        rewrite Hlast'. apply Hne1. lia.
Qed.

(** The embedding matrix has [N] rows whatever the input; row [i] holds
    the embedding of the last line of file [i] (a row of zeros when the
    file is empty), and every row past the number of files is still zero:
    each line of a file overwrites the row of its file. *)
Theorem get_BERT_EMBEDDING_rows (fs : gmap string (list string)) m
  (input_files : list string) (max_seq_length : Z) output :
  get_BERT_EMBEDDING fs m input_files max_seq_length = Ok output ->
  length output = embedding_rows /\
  (forall j : nat,
     (length input_files <= j < embedding_rows)%nat ->
     output !! j = Some (bert_zero_row m)) /\
  (forall (i : nat) (file : string),
     input_files !! i = Some file ->
     exists lines,
       fs !! file = Some lines /\
       match last lines with
       | None =>
           (i < embedding_rows)%nat -> output !! i = Some (bert_zero_row m)
       | Some line =>
           exists r, line_row m max_seq_length line = Ok r /\
                     output !! i = Some r
       end).
Proof.
  unfold get_BERT_EMBEDDING. intros H.
  destruct (embed_files_inv _ _ _ _ _ _ _ H) as (Hlen & Hout & Hfiles).
  rewrite length_replicate in Hlen.
  split; [exact Hlen |]. split.
  - intros j Hj. rewrite Hout by (cbn; lia).
    apply lookup_replicate_2. lia.
  - intros i file Hi.
    destruct (Hfiles i file Hi) as (lines & Hl & _ & Hlast).
    exists lines. split; [exact Hl |]. cbn [Nat.add] in Hlast.
    destruct (last lines) as [line|]; [exact Hlast |].
    intros Hlt. rewrite Hlast. apply lookup_replicate_2. exact Hlt.
Qed.

Lemma embed_lines_errors m (max_seq_length : Z) (i : nat) lines output
  (e : exn) :
  embed_lines m max_seq_length i lines output = Raise e -> e = IndexError.
Proof.
  revert output. induction lines as [|line rest IH]; intros output;
    [discriminate |].
  cbn [embed_lines].
  destruct (model_inputs m line max_seq_length) as [[[ids masks] segs]|] eqn:Ei;
    cbn.
  - unfold set_row. destruct (i <? length output)%nat; cbn;
      [apply IH | congruence].
  - intros [= <-]. exact (model_inputs_errors _ _ _ _ Ei).
Qed.

Lemma embed_files_errors (fs : gmap string (list string)) m
  (max_seq_length : Z) (input_files : list string) (i : nat) output
  (e : exn) :
  Forall (fun f => is_Some (fs !! f)) input_files ->
  embed_files fs m max_seq_length i input_files output = Raise e ->
  e = IndexError.
Proof.
  intros Hall. revert i output.
  induction Hall as [|file rest [lines Hl] _ IH]; intros i output;
    [discriminate |].
  cbn [embed_files]. unfold open_lines. rewrite Hl. cbn.
  destruct (embed_lines m max_seq_length i lines output) as [o1|] eqn:El;
    cbn; [apply IH |].
  intros [= <-]. exact (embed_lines_errors _ _ _ _ _ _ El).
Qed.

(** With every file present, one line that has more tokens than fit
    between the boundary tokens makes the whole run fail with the
    [IndexError] of [get_masks]: no matrix is returned, whatever was
    embedded before. *)
Theorem get_BERT_EMBEDDING_long_line (fs : gmap string (list string)) m
  (input_files : list string) (max_seq_length : Z)
  (file : string) lines (line : string) :
  Forall (fun f => is_Some (fs !! f)) input_files ->
  file ∈ input_files -> fs !! file = Some lines -> line ∈ lines ->
  max_seq_length < len (bert_tokenize m line) + 2 ->
  get_BERT_EMBEDDING fs m input_files max_seq_length = Raise IndexError.
Proof.
  intros Hall Hfile Hlines Hline Hlong.
  destruct (get_BERT_EMBEDDING fs m input_files max_seq_length)
    as [output|e] eqn:E.
  - exfalso. unfold get_BERT_EMBEDDING in E.
    destruct (embed_files_inv _ _ _ _ _ _ _ E) as (_ & _ & Hfiles).
    apply list_elem_of_lookup_1 in Hfile as [k Hk].
    destruct (Hfiles k file Hk) as (lines' & Hl' & Hok & _).
    rewrite Hlines in Hl'. injection Hl' as <-.
    destruct (proj1 (Forall_forall _ _) Hok line Hline) as [r Hr].
    apply line_row_fits in Hr. lia.
  - f_equal. unfold get_BERT_EMBEDDING in E.
    exact (embed_files_errors _ _ _ _ _ _ _ Hall E).
Qed.

Lemma model_inputs_total m (line : string) (max_seq_length : Z) :
  len (bert_tokenize m line) + 2 <= max_seq_length ->
  exists inputs, model_inputs m line max_seq_length = Ok inputs.
Proof.
  intros Hfit. unfold model_inputs.
  set (stokens := ["[CLS]"] ++ bert_tokenize m line ++ ["[SEP]"]).
  assert (Hlen : len stokens <= max_seq_length).
  { unfold stokens. rewrite !len_app. unfold len in *. cbn. lia. }
  destruct (get_masks_length stokens max_seq_length Hlen) as (mask & -> & _).
  unfold BERT_EMBEDDING.get_segments.
  replace (len stokens >? max_seq_length) with false
    by (rewrite Z.gtb_ltb; symmetry; apply Z.ltb_ge; lia).
  destruct (foldl _ _ stokens) as [segments c]. cbn. eauto.
Qed.

Lemma embed_lines_total m (max_seq_length : Z) (i : nat) lines output :
  Forall (fun line => len (bert_tokenize m line) + 2 <= max_seq_length)
    lines ->
  (i < length output)%nat ->
  exists output',
    embed_lines m max_seq_length i lines output = Ok output' /\
    length output' = length output.
Proof.
  intros Hall. revert output.
  induction Hall as [|line rest Hfit _ IH]; intros output Hi.
  - exists output. split; reflexivity.
  - cbn [embed_lines].
    destruct (model_inputs_total m line max_seq_length Hfit)
      as [[[ids masks] segs] ->].
    cbn. unfold set_row.
    replace (i <? length output)%nat with true
      by (symmetry; apply Nat.ltb_lt; exact Hi).
    cbn.
    destruct (IH (<[i:=bert_predict m ids masks segs]> output))
      as (o' & Ho' & Hlen); [rewrite length_insert; exact Hi |].
    exists o'. split; [exact Ho' |]. rewrite Hlen. apply length_insert.
Qed.

Lemma embed_files_total (fs : gmap string (list string)) m
  (max_seq_length : Z) (input_files : list string) (i : nat) output :
  Forall (fun f =>
            exists lines,
              fs !! f = Some lines /\
              Forall (fun line =>
                        len (bert_tokenize m line) + 2 <= max_seq_length)
                lines)
    input_files ->
  (i + length input_files <= length output)%nat ->
  exists output',
    embed_files fs m max_seq_length i input_files output = Ok output'.
Proof.
  intros Hall. revert i output.
  induction Hall as [|file rest (lines & Hl & Hfit) _ IH]; intros i output Hi.
  - exists output. reflexivity.
  - cbn [embed_files length] in *. unfold open_lines. rewrite Hl. cbn.
    destruct (embed_lines_total m max_seq_length i lines output Hfit
                ltac:(lia)) as (o1 & -> & Hlen).
    cbn. apply IH. lia.
Qed.

(** With every file present, every line short enough to fit between the
    boundary tokens and at most [N] files, the run returns its matrix. *)
Theorem get_BERT_EMBEDDING_total (fs : gmap string (list string)) m
  (input_files : list string) (max_seq_length : Z) :
  Forall (fun f =>
            exists lines,
              fs !! f = Some lines /\
              Forall (fun line =>
                        len (bert_tokenize m line) + 2 <= max_seq_length)
                lines)
    input_files ->
  (length input_files <= embedding_rows)%nat ->
  exists output,
    get_BERT_EMBEDDING fs m input_files max_seq_length = Ok output.
Proof.
  intros Hall Hn. unfold get_BERT_EMBEDDING.
  apply embed_files_total; [exact Hall |].
  rewrite length_replicate. exact Hn.
Qed.

End EmbeddingRun.

Lemma demo_lines_fit :
  Forall (fun f =>
            exists lines,
              files demo_world !! f = Some lines /\
              Forall (fun line =>
                        len (bert_tokenize demo_bert line) + 2 <= 8)
                lines)
    ["pos.txt"; "neg.txt"].
Proof.
  repeat (apply Forall_cons_2;
            [eexists; split;
               [vm_compute; reflexivity
               | repeat (apply Forall_cons_2; [unfold len; cbn; lia |]);
                 apply Forall_nil_2] |]).
  apply Forall_nil_2.
Qed.

Lemma demo_two_files : (length ["pos.txt"; "neg.txt"] <= embedding_rows)%nat.
Proof. apply Nat.leb_le. vm_compute. reflexivity. Qed.

Lemma demo_embedding_Ok :
  exists output,
    get_BERT_EMBEDDING (files demo_world) demo_bert ["pos.txt"; "neg.txt"] 8
      = Ok output.
Proof.
  unfold get_BERT_EMBEDDING.
  apply embed_files_total; [exact demo_lines_fit |].
  rewrite length_replicate. exact demo_two_files.
Qed.

Lemma get_BERT_EMBEDDING_total_witness :
  exists output,
    get_BERT_EMBEDDING (files demo_world) demo_bert ["pos.txt"; "neg.txt"] 8
      = Ok output.
Proof.
  exact (get_BERT_EMBEDDING_total (files demo_world) demo_bert
           ["pos.txt"; "neg.txt"] 8 demo_lines_fit demo_two_files).
Defined.

Lemma model_inputs_aligned_witness :
  exists input_ids input_masks input_segments,
    model_inputs demo_bert "abc" 7
      = Ok (input_ids, input_masks, input_segments) /\
    len input_ids = 7 /\ len input_masks = 7 /\ len input_segments = 7 /\
    input_segments = replicate (Z.to_nat 7) 0.
Proof.
  apply (model_inputs_aligned demo_bert "abc" 7).
  - unfold len. cbn. lia.
  - intros H. repeat (apply elem_of_cons in H as [H | H]; [discriminate |]).
    inversion H.
  - reflexivity.
Defined.

Lemma get_BERT_EMBEDDING_rows_witness :
  exists output,
    get_BERT_EMBEDDING (files demo_world) demo_bert ["pos.txt"; "neg.txt"] 8
      = Ok output /\
    length output = embedding_rows /\
    output !! 2%nat = Some (bert_zero_row demo_bert) /\
    (exists r, line_row demo_bert 8 "sad" = Ok r /\ output !! 1%nat = Some r).
Proof.
  destruct demo_embedding_Ok as [output E].
  destruct (get_BERT_EMBEDDING_rows _ _ _ _ _ E) as (Hlen & Hzero & Hfiles).
  exists output. split; [exact E |]. split; [exact Hlen |].
  split.
  - apply Hzero. split; [cbn; lia |].
    apply Nat.ltb_lt. vm_compute. reflexivity.
  - destruct (Hfiles 1%nat "neg.txt" eq_refl) as (lines & Hl & Hlast).
    vm_compute in Hl. injection Hl as <-. exact Hlast.
Defined.

Lemma get_BERT_EMBEDDING_long_line_witness :
  get_BERT_EMBEDDING (files demo_world) demo_bert ["pos.txt"; "neg.txt"] 5
    = Raise IndexError.
Proof.
  refine (get_BERT_EMBEDDING_long_line (files demo_world) demo_bert
            ["pos.txt"; "neg.txt"] 5 "neg.txt" ["bad"; "poor"; "sad"] "poor"
            _ _ _ _ _).
  - repeat (apply Forall_cons_2; [vm_compute; eauto |]). apply Forall_nil_2.
  - apply elem_of_cons. right. apply elem_of_cons. left. reflexivity.
  - vm_compute. reflexivity.
  - apply elem_of_cons. right. apply elem_of_cons. left. reflexivity.
  - unfold len. cbn. lia.
Defined.

(** ** What the loaders return *)

Lemma foldl_concatenate {A : Type} (d : list A) (rest : list (list A)) :
  foldl Dataset.concatenate d rest = concat (d :: rest).
Proof.
  revert d. induction rest as [|r rest IH]; intros d; cbn.
  - symmetry. apply app_nil_r.
  - rewrite IH. cbn. unfold Dataset.concatenate. symmetry. apply app_assoc.
Qed.

(** The reading loop of [load_dataset], file by file. *)
Lemma read_loop_exact (w : world) (count_of : result Z) (count : Z)
  (paths : list string) (contents : list (list string)) :
  Forall2 (fun f lines => files w !! f = Some lines) paths contents ->
  count_of = Ok count ->
  mapM (M := result)
    (fun path =>
       lines ← TextLineDataset w path;
       count ← count_of;
       Ok (Dataset.take count lines)) paths
  = Ok ((fun lines => Dataset.take count (Text <$> lines)) <$> contents).
Proof.
  intros Hall ->. induction Hall as [|f lines fs ls Hf _ IH].
  - reflexivity.
  - rewrite mapM_cons, IH, (TextLineDataset_present w f lines Hf).
    reflexivity.
Qed.

(** The labelling loop of [load_dataset]: dataset [k + i] gets label
    [k + i]. *)
Lemma label_loop_exact (labels : list Z) (datasets : list (list element))
  (k : nat) :
  (k + length datasets <= length labels)%nat ->
  mapM (M := result)
    (fun '(i, d) =>
       label ← py_index labels i;
       Ok ((fun x => Pair x (one_hot label)) <$> (d : list element)))
    (imap (fun i => pair (k + i)%nat) datasets)
  = Ok (zip_with (fun d label => (fun x => Pair x (one_hot label)) <$> d)
          datasets (drop k labels)).
Proof.
  revert k. induction datasets as [|d ds IH]; intros k Hk.
  - reflexivity.
  - cbn [length] in Hk. cbn [imap].
    rewrite mapM_cons.
    rewrite (imap_ext _ (fun i => pair (S k + i)%nat))
      by (intros; cbn; f_equal; lia).
    rewrite IH by lia.
    destruct (lookup_lt_is_Some_2 labels k ltac:(lia)) as [label Hlabel].
    rewrite Nat.add_0_r. unfold py_index. rewrite Hlabel.
    rewrite (drop_S _ _ _ Hlabel). reflexivity.
Qed.

Lemma take_fmap_Dataset {A B : Type} (f : A -> B) (count : Z) (l : list A) :
  Dataset.take count (f <$> l) = f <$> Dataset.take count l.
Proof.
  unfold Dataset.take. destruct (count <? 0); [reflexivity |].
  symmetry. apply fmap_take.
Qed.

Lemma labelled_zip (count : Z) (contents : list (list string))
  (labels : list Z) :
  zip_with (fun d label => (fun x => Pair x (one_hot label)) <$> d)
    ((fun lines => Dataset.take count (Text <$> lines)) <$> contents) labels
  = zip_with
      (fun lines label =>
         (fun line => Pair (Text line) (one_hot label))
           <$> Dataset.take count lines)
      contents labels.
Proof.
  revert labels. induction contents as [|c cs IH]; intros [|l ls];
    try reflexivity.
  cbn [fmap list_fmap zip_with]. f_equal; [| apply IH].
  rewrite take_fmap_Dataset, <- list_fmap_compose. reflexivity.
Qed.

(** In supervised mode without the embedding and with a positive size
    (the buffer size of the shuffle), the loaded dataset is the shuffle
    of this sequence: for each file in turn, its first
    [size // len(input_files)] lines, each paired with the one-hot label
    of that file. *)
Theorem load_dataset_labelled_records (w : world)
  (input_files : list string) (contents : list (list string)) (size : Z)
  (labels : list Z) :
  Forall2 (fun f lines => files w !! f = Some lines) input_files contents ->
  input_files <> [] ->
  length labels = length input_files ->
  0 < size ->
  TweetDataset.load_dataset w input_files size (Some labels) false
  = Ok (shuffle w element size
          (concat
             (zip_with
                (fun lines label =>
                   (fun line => Pair (Text line) (one_hot label))
                     <$> Dataset.take (size / len input_files) lines)
                contents labels))).
Proof.
  intros Hall Hne Hlen Hsize.
  assert (Hc : length contents = length input_files)
    by (symmetry; exact (Forall2_length _ _ _ Hall)).
  unfold TweetDataset.load_dataset.
  rewrite (read_loop_exact w _ (size / len input_files) _ _ Hall)
    by (apply floordiv_Ok; destruct input_files;
        [congruence | unfold len; cbn; lia]).
  rewrite !bind_Ok_l.
  destruct labels as [|l ls];
    [destruct input_files; [congruence | discriminate] |].
  unfold assert_.
  replace (len (l :: ls) =? len input_files) with true
    by (symmetry; apply Z.eqb_eq; unfold len; lia).
  rewrite bind_Ok_l.
  rewrite (imap_ext _ (fun i => pair (0 + i)%nat)) by reflexivity.
  rewrite label_loop_exact by (rewrite length_fmap; lia).
  rewrite bind_Ok_l. cbn [drop]. rewrite labelled_zip.
  destruct contents as [|c cs];
    [destruct input_files; [congruence | discriminate] |].
  cbn [zip_with truthy]. rewrite !bind_Ok_l, foldl_concatenate.
  unfold checked_shuffle.
  replace (size <=? 0) with false by (symmetry; apply Z.leb_gt; lia).
  reflexivity.
Qed.

Lemma load_dataset_labelled_records_witness :
  TweetDataset.load_dataset demo_world ["pos.txt"; "neg.txt"] 4
    (Some [0; 1]) false
  = Ok [Pair (Text "poor") (one_hot 1); Pair (Text "bad") (one_hot 1);
        Pair (Text "nice") (one_hot 0); Pair (Text "good") (one_hot 0)].
Proof.
  rewrite (load_dataset_labelled_records demo_world ["pos.txt"; "neg.txt"]
             [["good"; "nice"; "fine"]; ["bad"; "poor"; "sad"]] 4 [0; 1]).
  - reflexivity.
  - repeat constructor.
  - discriminate.
  - reflexivity.
  - lia.
Defined.

(** The loading loop of [load_data_from_files], file by file. *)
Lemma generator_read_loop_exact (w : world) (count : Z) (labels : list Z)
  (paths : list string) (contents : list (list string)) (k : nat) :
  Forall2 (fun f lines => files w !! f = Some lines) paths contents ->
  (k + length paths <= length labels)%nat ->
  mapM (M := result)
    (fun '(i, path) =>
       lines ← TextLineDataset w path;
       label ← TweetDatasetGenerator.label_at (Some labels) i;
       Ok (lines, py_repeat label count))
    (imap (fun i => pair (k + i)%nat) paths)
  = Ok (zip_with (fun lines label => (Text <$> lines, py_repeat label count))
          contents (drop k labels)).
Proof.
  intros Hall. revert k. induction Hall as [|f lines fs ls Hf _ IH]; intros k Hk.
  - reflexivity.
  - cbn [length] in Hk. cbn [imap]. rewrite mapM_cons.
    rewrite (imap_ext _ (fun i => pair (S k + i)%nat))
      by (intros; cbn; f_equal; lia).
    rewrite IH by lia.
    destruct (lookup_lt_is_Some_2 labels k ltac:(lia)) as [label Hlabel].
    rewrite Nat.add_0_r, (TextLineDataset_present w f lines Hf).
    cbn [TweetDatasetGenerator.label_at]. unfold py_index. rewrite Hlabel.
    rewrite (drop_S _ _ _ Hlabel). reflexivity.
Qed.

Lemma fst_zip_with_pair {A B C D : Type} (f : A -> C) (g : B -> D)
  (xs : list A) (ys : list B) :
  (length xs <= length ys)%nat ->
  fst <$> zip_with (fun x y => (f x, g y)) xs ys = f <$> xs /\
  snd <$> zip_with (fun x y => (f x, g y)) xs ys = g <$> take (length xs) ys.
Proof.
  revert ys. induction xs as [|x xs IH]; intros ys Hlen.
  - split; reflexivity.
  - destruct ys as [|y ys]; [cbn in Hlen; lia |].
    cbn [length] in Hlen. destruct (IH ys ltac:(lia)) as [H1 H2].
    cbn. rewrite H1, H2. split; reflexivity.
Qed.

(** The loading loop, the merge and the shuffle of
    [load_data_from_files], when there is a label for every file. *)
Lemma load_data_from_files_exact (w : world) (size : Z)
  (input_files : list string) (contents : list (list string))
  (labels : list Z) :
  Forall2 (fun f lines => files w !! f = Some lines) input_files contents ->
  input_files <> [] ->
  (length input_files <= length labels)%nat ->
  TweetDatasetGenerator.load_data_from_files w size input_files (Some labels)
  = Ok (shuffle w element (size / len input_files)
          (concat ((fun lines : list string => Text <$> lines)
                     <$> contents)),
        shuffle w Z (size / len input_files)
          (concat ((fun label : Z => py_repeat label (size / len input_files))
                     <$> take (length input_files) labels))).
Proof.
  intros Hall Hne Hlen.
  assert (Hc : length contents = length input_files)
    by (symmetry; exact (Forall2_length _ _ _ Hall)).
  unfold TweetDatasetGenerator.load_data_from_files.
  rewrite floordiv_Ok
    by (destruct input_files; [congruence | unfold len; cbn; lia]).
  rewrite bind_Ok_l.
  rewrite (imap_ext _ (fun i => pair (0 + i)%nat)) by reflexivity.
  rewrite (generator_read_loop_exact w _ labels _ _ 0 Hall) by lia.
  rewrite bind_Ok_l. cbn [drop].
  destruct (fst_zip_with_pair (fun lines : list string => Text <$> lines)
              (fun label : Z => py_repeat label (size / len input_files))
              contents labels ltac:(lia)) as [H1 H2].
  cbv zeta. change (drop 0 labels) with labels. rewrite H1, H2, Hc.
  destruct contents as [|c cs];
    [destruct input_files; [congruence | discriminate] |].
  destruct labels as [|l ls];
    [destruct input_files; [congruence | cbn in Hlen; lia] |].
  destruct input_files as [|f fs]; [congruence |].
  cbn [fmap list_fmap length take]. rewrite !bind_Ok_l, !foldl_concatenate.
  reflexivity.
Qed.

Lemma length_concat_fmap {A B : Type} (f : A -> list B) (k : nat)
  (l : list A) :
  (forall a, length (f a) = k) ->
  length (concat (f <$> l)) = (length l * k)%nat.
Proof.
  intros Hf. induction l as [|a l IH]; [reflexivity |].
  cbn [fmap list_fmap concat length]. rewrite length_app, Hf, IH. lia.
Qed.

(** Given at least as many labels as files and a size that is at least
    the number of files (so that the buffer size [size // len(files)] of
    the two shuffles is positive), the element-count loader returns as
    texts the shuffle of every line of every file, and as labels the
    shuffle of [size // len(files)] copies of each file's label: before
    the shuffles there are as many texts as lines on disk and
    [len(files) * (size // len(files))] labels, so the two sequences
    line up only when these counts agree. *)
Theorem load_data_from_files_returns (w : world) (size : Z)
  (input_files : list string) (contents : list (list string))
  (labels : list Z) :
  Forall2 (fun f lines => files w !! f = Some lines) input_files contents ->
  input_files <> [] ->
  (length input_files <= length labels)%nat ->
  len input_files <= size ->
  exists (texts : list element) (copies : list Z),
    TweetDatasetGenerator.load_data_from_files w size input_files
      (Some labels)
    = Ok (shuffle w element (size / len input_files) texts,
          shuffle w Z (size / len input_files) copies) /\
    texts = Text <$> concat contents /\
    copies = concat ((fun label : Z =>
                        py_repeat label (size / len input_files))
                       <$> take (length input_files) labels) /\
    len texts = len (concat contents) /\
    0 < size / len input_files /\
    len copies = len input_files * (size / len input_files).
Proof.
  intros Hall Hne Hlen Hsize.
  assert (Hpos : 0 < size / len input_files).
  { assert (0 < len input_files)
      by (destruct input_files; [congruence | unfold len; cbn; lia]).
    apply Z.div_str_pos. lia. }
  eexists _, _. split; [| split; [reflexivity | split; [reflexivity |]]].
  - rewrite (load_data_from_files_exact w size input_files contents labels
               Hall Hne Hlen).
    do 3 f_equal. clear. induction contents as [|c cs IH]; [reflexivity |].
    cbn [fmap list_fmap concat]. rewrite fmap_app, <- IH. reflexivity.
  - unfold len in *. split; [rewrite length_fmap; reflexivity |].
    split; [exact Hpos |].
    rewrite (length_concat_fmap _
               (Z.to_nat (size / Z.of_nat (length input_files)))).
    + rewrite length_take, Nat.min_l by exact Hlen.
      rewrite Nat2Z.inj_mul. f_equal. lia.
    + intros label. unfold py_repeat. apply length_replicate.
Qed.

Lemma load_data_from_files_returns_witness :
  exists texts copies,
    TweetDatasetGenerator.load_data_from_files demo_world 2
      ["pos.txt"; "neg.txt"] (Some [0; 1])
    = Ok (reverse texts, reverse copies) /\
    len texts = 6 /\ len copies = 2.
Proof.
  destruct (load_data_from_files_returns demo_world 2 ["pos.txt"; "neg.txt"]
              [["good"; "nice"; "fine"]; ["bad"; "poor"; "sad"]] [0; 1])
    as (texts & copies & Heq & _ & _ & Hx & _ & Hy).
  - repeat constructor.
  - discriminate.
  - cbn. lia.
  - unfold len. cbn. lia.
  - exists texts, copies. split; [exact Heq |].
    split; [rewrite Hx | rewrite Hy]; reflexivity.
Defined.

(** With every file present and fewer labels than files, the
    element-count loader fails with the [IndexError] of [labels[i]]. *)
Theorem load_data_from_files_few_labels (w : world) (size : Z)
  (input_files : list string) (labels : list Z) :
  all_present w input_files ->
  (length labels < length input_files)%nat ->
  TweetDatasetGenerator.load_data_from_files w size input_files (Some labels)
  = Raise IndexError.
Proof.
  intros Hall Hlen. unfold TweetDatasetGenerator.load_data_from_files.
  rewrite floordiv_Ok
    by (destruct input_files; [cbn in Hlen; lia | unfold len; cbn; lia]).
  rewrite bind_Ok_l.
  destruct (lookup_lt_is_Some_2 input_files (length labels) Hlen) as [p Hp].
  erewrite (mapM_first_Raise _ _ IndexError (length labels, p));
    [reflexivity | | |].
  - apply elem_of_lookup_imap. eauto.
  - cbn beta iota.
    destruct (proj1 (Forall_forall _ _) Hall p (list_elem_of_lookup_2 _ _ _ Hp))
      as [lines Hl].
    rewrite (TextLineDataset_present w p lines Hl). cbn.
    unfold py_index. rewrite (lookup_ge_None_2 labels (length labels))
      by lia.
    reflexivity.
  - apply Forall_forall. intros [i q] Hin.
    apply elem_of_lookup_imap in Hin as (i' & q' & [= -> ->] & Hq).
    destruct (proj1 (Forall_forall _ _) Hall q' (list_elem_of_lookup_2 _ _ _ Hq))
      as [lines Hl].
    rewrite (TextLineDataset_present w q' lines Hl). cbn.
    unfold py_index. destruct (labels !! i'); cbn; eauto.
Qed.

Lemma load_data_from_files_few_labels_witness :
  TweetDatasetGenerator.load_data_from_files demo_world 6
    ["pos.txt"; "neg.txt"] (Some [0])
  = Raise IndexError.
Proof.
  apply (load_data_from_files_few_labels demo_world 6
           ["pos.txt"; "neg.txt"] [0]).
  - repeat (apply Forall_cons_2; [vm_compute; eauto |]). apply Forall_nil_2.
  - cbn. lia.
Defined.

(** ** The element-count split *)

Lemma int_mul_not_negative (n : Z) (x y : spec_float) :
  0 <= n -> PyFloat.nonneg x = true ->
  PyFloat.int_mul n x = Ok y -> not_negative y.
Proof.
  intros Hn Hx. unfold PyFloat.int_mul.
  destruct (PyFloat.of_int n) as [fn|] eqn:E; cbn; [| discriminate].
  intros [= <-]. apply SFmul_not_negative.
  - eapply of_int_not_negative; eauto.
  - apply nonneg_not_negative, Hx.
Qed.

(** [int(size * p)] is not negative on a size and a fraction that are
    not negative. *)
Lemma int_count_nonneg (n : Z) (x : spec_float) (z : Z) :
  0 <= n -> PyFloat.nonneg x = true ->
  (v ← PyFloat.int_mul n x; PyFloat.to_int v) = Ok z -> 0 <= z.
Proof.
  intros Hn Hx H. apply bind_Ok in H as (v & Hv & Hz).
  eapply to_int_nonneg; [eapply int_mul_not_negative; eauto | exact Hz].
Qed.

Lemma split_data_inv (size : Z) (x y : list element)
  (train_p valid_p test_p : spec_float) (batch_size : Z)
  (counts : Z * Z * Z) (train valid test : list element) :
  TweetDatasetGenerator.split_data size x y train_p valid_p test_p batch_size
    = Ok (counts, (train, valid, test)) ->
  exists train_size valid_size test_size,
    (v ← PyFloat.int_mul size train_p; PyFloat.to_int v) = Ok train_size /\
    (v ← PyFloat.int_mul size valid_p; PyFloat.to_int v) = Ok valid_size /\
    (v ← PyFloat.int_mul size test_p; PyFloat.to_int v) = Ok test_size /\
    batch_size <> 0 /\
    counts = (train_size / batch_size, valid_size / batch_size,
              test_size / batch_size) /\
    train = Dataset.take train_size (uncurry Pair <$> Dataset.zip x y) /\
    valid = Dataset.take valid_size
              (Dataset.skip train_size (uncurry Pair <$> Dataset.zip x y)) /\
    test = Dataset.take test_size
             (Dataset.skip (train_size + valid_size)
                (uncurry Pair <$> Dataset.zip x y)).
Proof.
  unfold TweetDatasetGenerator.split_data.
  destruct (v ← PyFloat.int_mul size train_p; PyFloat.to_int v)
    as [a|]; [| discriminate].
  destruct (v ← PyFloat.int_mul size valid_p; PyFloat.to_int v)
    as [b|]; [| discriminate].
  destruct (v ← PyFloat.int_mul size test_p; PyFloat.to_int v)
    as [c|]; [| discriminate].
  rewrite !bind_Ok_l. unfold floordiv.
  destruct (batch_size =? 0) eqn:Eb; [discriminate |].
  rewrite !bind_Ok_l. intros [= <- <- <- <-].
  apply Z.eqb_neq in Eb. exists a, b, c. auto 10.
Qed.

(** On a size and fractions that are not negative, [split_data] cuts
    the zipped records into three consecutive blocks from the front:
    the training block, then the validation block, then the test block,
    of [int(size * p)] records each as far as the records reach.  The
    stored counts are these sizes floor-divided by the batch size, and a
    batch size of zero is never accepted. *)
Theorem split_data_consecutive (size : Z) (x y : list element)
  (train_p valid_p test_p : spec_float) (batch_size : Z)
  (counts : Z * Z * Z) (train valid test : list element) :
  0 <= size ->
  PyFloat.nonneg train_p = true ->
  PyFloat.nonneg valid_p = true ->
  PyFloat.nonneg test_p = true ->
  TweetDatasetGenerator.split_data size x y train_p valid_p test_p batch_size
    = Ok (counts, (train, valid, test)) ->
  exists (train_size valid_size test_size : Z) (dataset : list element),
    (v ← PyFloat.int_mul size train_p; PyFloat.to_int v) = Ok train_size /\
    (v ← PyFloat.int_mul size valid_p; PyFloat.to_int v) = Ok valid_size /\
    (v ← PyFloat.int_mul size test_p; PyFloat.to_int v) = Ok test_size /\
    0 <= train_size /\ 0 <= valid_size /\ 0 <= test_size /\
    batch_size <> 0 /\
    counts = (train_size / batch_size, valid_size / batch_size,
              test_size / batch_size) /\
    dataset = uncurry Pair <$> Dataset.zip x y /\
    length dataset = (length x `min` length y)%nat /\
    train = take (Z.to_nat train_size) dataset /\
    valid = take (Z.to_nat valid_size) (drop (Z.to_nat train_size) dataset) /\
    test = take (Z.to_nat test_size)
             (drop (Z.to_nat train_size + Z.to_nat valid_size) dataset) /\
    train ++ valid ++ test
      = take (Z.to_nat train_size + Z.to_nat valid_size + Z.to_nat test_size)
          dataset.
Proof.
  intros Hs Htp Hvp Hsp H.
  apply split_data_inv in H
    as (a & b & c & Ha & Hb & Hc & Hbs & -> & -> & -> & ->).
  pose proof (int_count_nonneg _ _ _ Hs Htp Ha) as Ha0.
  pose proof (int_count_nonneg _ _ _ Hs Hvp Hb) as Hb0.
  pose proof (int_count_nonneg _ _ _ Hs Hsp Hc) as Hc0.
  exists a, b, c, (uncurry Pair <$> Dataset.zip x y).
  unfold Dataset.take, Dataset.skip.
  replace (a <? 0) with false by (symmetry; apply Z.ltb_ge; lia).
  replace (b <? 0) with false by (symmetry; apply Z.ltb_ge; lia).
  replace (c <? 0) with false by (symmetry; apply Z.ltb_ge; lia).
  replace (a + b <? 0) with false by (symmetry; apply Z.ltb_ge; lia).
  rewrite Z2Nat.inj_add by lia.
  repeat split; try assumption.
  - unfold Dataset.zip. rewrite length_fmap, length_zip_with. reflexivity.
  - rewrite <- drop_drop, (app_assoc (take _ _)), !take_take_drop.
    rewrite drop_drop, take_take_drop. reflexivity.
Qed.

Lemma split_data_consecutive_witness :
  exists train valid test rest,
    TweetDatasetGenerator.split_data 10
      ((fun i => Tensor [Z.of_nat i]) <$> seq 1 10)
      (replicate 8 (one_hot 0))
      PyFloat.f0_2 PyFloat.f0_2 PyFloat.f0_2 2
    = Ok ((1, 1, 1), (train, valid, test)) /\
    uncurry Pair <$> Dataset.zip ((fun i => Tensor [Z.of_nat i]) <$> seq 1 10)
                       (replicate 8 (one_hot 0))
    = train ++ valid ++ test ++ rest /\
    length train = 2%nat /\ length valid = 2%nat /\ length test = 2%nat /\
    length rest = 2%nat.
Proof.
  destruct (TweetDatasetGenerator.split_data 10
              ((fun i => Tensor [Z.of_nat i]) <$> seq 1 10)
              (replicate 8 (one_hot 0))
              PyFloat.f0_2 PyFloat.f0_2 PyFloat.f0_2 2)
    as [[cs [[tr va] te]]|] eqn:E.
  - destruct (split_data_consecutive 10 _ _
                PyFloat.f0_2 PyFloat.f0_2 PyFloat.f0_2 2 cs tr va te
                ltac:(lia) eq_refl eq_refl eq_refl E)
      as (a & b & c & ds & Ha & Hb & Hc & _ & _ & _ & _ & -> & -> & _
          & -> & -> & -> & _).
    vm_compute in Ha, Hb, Hc.
    injection Ha as <-. injection Hb as <-. injection Hc as <-.
    eexists _, _, _, _. split; [reflexivity |].
    split; [vm_compute; reflexivity | repeat split; reflexivity].
  - vm_compute in E. discriminate.
Defined.

(** ** Batches per pass *)

Section GroupCount.
Context {A : Type}.

Lemma groups_length (n : nat) (dr : bool) (l : list A) :
  (0 < n)%nat ->
  length (Dataset.groups n dr l)
  = if dr then (length l / n)%nat else ((length l + (n - 1)) / n)%nat.
Proof.
  funelim (Dataset.groups n dr l); intros Hn.
  - lia.
  - change (length (@nil A)) with 0%nat.
    rewrite !Nat.div_small by lia. destruct drop_remainder; reflexivity.
  - apply Nat.ltb_lt in Heq. change (length (x :: l)) with (S (length l)).
    destruct dr.
    + rewrite Nat.div_small by lia. reflexivity.
    + replace (S (length l) + (S n - 1))%nat
        with (1 * S n + length l)%nat by lia.
      rewrite Nat.div_add_l by lia. rewrite Nat.div_small by lia.
      reflexivity.
  - apply Nat.ltb_ge in Heq.
    change (length (x :: l)) with (S (length l)).
    change (length ((x :: take n l) :: Dataset.groups (S n) dr (drop n l)))
      with (S (length (Dataset.groups (S n) dr (drop n l)))).
    rewrite H by lia. rewrite length_drop.
    destruct dr.
    + replace (S (length l)) with (1 * S n + (length l - n))%nat by lia.
      rewrite Nat.div_add_l by lia. lia.
    + replace (S (length l) + (S n - 1))%nat
        with (1 * S n + (length l - n + (S n - 1)))%nat by lia.
      rewrite Nat.div_add_l by lia. lia.
Qed.

End GroupCount.

(** One pass over a prepared split has [len(split) // batch_size]
    batches for a training split and the ceiling of
    [len(split) / batch_size] for a validation or test split: one more
    than the floor whenever the batch size does not divide the split. *)
Theorem batch_and_prepare_pass_length (d : list element) (is_training : bool)
  (batch_size : Z) (ds : Dataset.t element) :
  TweetDatasetGenerator.batch_and_prepare d is_training batch_size = Ok ds ->
  exists cycle,
    ds = Dataset.repeat cycle /\
    len cycle = (if is_training then len d / batch_size
                 else (len d + (batch_size - 1)) / batch_size) /\
    (is_training = false -> len d mod batch_size <> 0 ->
     len cycle = len d / batch_size + 1).
Proof.
  intros H. apply batch_and_prepare_inv in H as [Hpos ->].
  eexists. split; [reflexivity |].
  assert (Hlen : len (Batch <$> Dataset.groups (Z.to_nat batch_size)
                                  is_training d)
                 = if is_training then len d / batch_size
                   else (len d + (batch_size - 1)) / batch_size).
  { unfold len. rewrite length_fmap, groups_length by lia.
    destruct is_training.
    - rewrite Nat2Z.inj_div, Z2Nat.id by lia. reflexivity.
    - rewrite Nat2Z.inj_div, Nat2Z.inj_add, Nat2Z.inj_sub, Z2Nat.id by lia.
      reflexivity. }
  split; [exact Hlen |].
  intros -> Hmod. rewrite Hlen.
  pose proof (Z.div_mod (len d) batch_size ltac:(lia)) as Hdm.
  pose proof (Z.mod_pos_bound (len d) batch_size Hpos) as Hb.
  symmetry. apply Z.div_unique with (r := len d mod batch_size - 1); [lia |].
  nia.
Qed.

Lemma batch_and_prepare_pass_length_witness :
  exists cycle,
    TweetDatasetGenerator.batch_and_prepare
      ((fun i => Tensor [Z.of_nat i]) <$> seq 1 5) false 2
    = Ok (Dataset.repeat cycle) /\
    len cycle = 3.
Proof.
  destruct (batch_and_prepare_pass_length
              ((fun i => Tensor [Z.of_nat i]) <$> seq 1 5) false 2 _ eq_refl)
    as (cycle & Hc & _ & Hk).
  exists cycle. split.
  - rewrite <- Hc. reflexivity.
  - apply Hk; [reflexivity | vm_compute; discriminate].
Defined.

(** ** The loaders at their edges *)

(** Without labels, or with an empty label list, without the embedding
    and with a positive size (the buffer size of the shuffle), the
    loaded dataset is the shuffle of the first [size // len(input_files)]
    lines of each file, file after file: the empty label list is not
    checked against the number of files. *)
Theorem load_dataset_unlabelled_records (w : world)
  (input_files : list string) (contents : list (list string)) (size : Z)
  (labels : option (list Z)) :
  Forall2 (fun f lines => files w !! f = Some lines) input_files contents ->
  input_files <> [] ->
  truthy labels = false ->
  0 < size ->
  TweetDataset.load_dataset w input_files size labels false
  = Ok (shuffle w element size
          (concat ((fun lines : list string =>
                      Text <$> Dataset.take (size / len input_files) lines)
                     <$> contents))).
Proof.
  intros Hall Hne Hl Hsize.
  unfold TweetDataset.load_dataset.
  rewrite (read_loop_exact w _ (size / len input_files) _ _ Hall)
    by (apply floordiv_Ok; destruct input_files;
        [congruence | unfold len; cbn; lia]).
  rewrite !bind_Ok_l.
  assert (Hcs : (fun lines : list string =>
                   Dataset.take (size / len input_files) (Text <$> lines))
                  <$> contents
                = (fun lines : list string =>
                     Text <$> Dataset.take (size / len input_files) lines)
                  <$> contents).
  { apply list_fmap_ext. intros. apply take_fmap_Dataset. }
  rewrite Hcs, Hl.
  destruct contents as [|c cs];
    [apply Forall2_length in Hall; destruct input_files;
       [congruence | discriminate] |].
  unfold checked_shuffle.
  replace (size <=? 0) with false by (symmetry; apply Z.leb_gt; lia).
  destruct labels as [[|l ls]|]; [| discriminate |];
    rewrite bind_Ok_l; cbn [fmap list_fmap];
    rewrite !bind_Ok_l, foldl_concatenate, list_fmap_id; reflexivity.
Qed.

Lemma load_dataset_unlabelled_records_witness :
  TweetDataset.load_dataset demo_world ["pos.txt"; "neg.txt"] 2
    (Some []) false
  = Ok [Text "bad"; Text "good"].
Proof.
  rewrite (load_dataset_unlabelled_records demo_world ["pos.txt"; "neg.txt"]
             [["good"; "nice"; "fine"]; ["bad"; "poor"; "sad"]] 2 (Some [])).
  - reflexivity.
  - repeat constructor.
  - discriminate.
  - reflexivity.
  - lia.
Defined.

(** With an empty file list no loader returns: the batch-count loader
    fails on its label check when labels are given and on
    [datasets[0]] otherwise, and the element-count loader fails on
    [size // len(paths)]. *)
Theorem loaders_reject_no_files (w : world) (size : Z)
  (labels : option (list Z)) (bert : bool) :
  TweetDataset.load_dataset w [] size labels bert
    = Raise (if truthy labels then AssertionError else IndexError) /\
  TweetDatasetGenerator.load_data_from_files w size [] labels
    = Raise ZeroDivisionError.
Proof.
  split; [| reflexivity].
  unfold TweetDataset.load_dataset.
  destruct bert, labels as [[|l ls]|]; try reflexivity;
    cbn; unfold assert_, len; cbn [length];
    replace (Z.of_nat (S (length ls)) =? 0) with false
      by (symmetry; apply Z.eqb_neq; lia);
    reflexivity.
Qed.

(** The constructor of the batch-count pipeline stops at the label
    check: with every file present and a non-empty label list whose
    length differs from the number of files, it raises
    [AssertionError], whatever the other arguments. *)
Theorem init_label_count_checked (w : world) (input_files : list string)
  (label : Z) (labels : list Z) (batch_size buffer_size max_len : Z)
  (validation_size test_size : spec_float)
  (encode_text bert_embed do_padding caching : bool) (size : Z) :
  all_present w input_files ->
  length (label :: labels) <> length input_files ->
  TweetDataset.init w input_files (Some (label :: labels)) batch_size
    buffer_size max_len validation_size test_size encode_text bert_embed
    do_padding caching size
  = Raise AssertionError.
Proof.
  intros Hall Hlen. unfold TweetDataset.init.
  rewrite (load_dataset_label_mismatch w input_files size label labels
             bert_embed Hall Hlen).
  reflexivity.
Qed.

Lemma init_label_count_checked_witness :
  TweetDataset.init demo_world ["pos.txt"] (Some [0; 1]) 1 1000 100
    PyFloat.f0_2 PyFloat.f0_2 false true false false 3
  = Raise AssertionError.
Proof.
  apply (init_label_count_checked demo_world ["pos.txt"] 0 [1]).
  - repeat (apply Forall_cons_2; [vm_compute; eauto |]). apply Forall_nil_2.
  - cbn. lia.
Defined.

(** ** The two modes of the constructor *)

(** [split_dataset] leaves the prediction data as they are. *)
Lemma split_dataset_pred_data (self self' : TweetDataset.t)
  (batch_size max_len : Z) (v t : spec_float)
  (splits : list element * list element * list element) :
  TweetDataset.split_dataset self batch_size v t max_len = Ok (self', splits) ->
  TweetDataset.pred_data self' = TweetDataset.pred_data self.
Proof.
  unfold TweetDataset.split_dataset.
  destruct (Dataset.batch batch_size false (TweetDataset.dataset self))
    as [batches|]; cbn; [| discriminate].
  destruct (TweetDataset.split_counts _ _ _ _) as [[[val tst] trn]|];
    cbn; [| discriminate].
  destruct (TweetDataset.maybe_pad _ _ _ (Dataset.skip _ _)) as [tr|];
    cbn; [| discriminate].
  destruct (TweetDataset.maybe_pad _ _ _ (Dataset.take val _)) as [va|];
    cbn; [| discriminate].
  destruct (TweetDataset.maybe_pad _ _ _ (Dataset.take tst _)) as [te|];
    cbn; [| discriminate].
  intros [= <- _]. reflexivity.
Qed.

(** A constructed object is in exactly one mode.  With labels, the three
    splits and both step counts are set, the step counts are the
    training and validation counts of [split_dataset], and there are no
    prediction data.  Without labels, only the prediction data are set. *)
Theorem init_modes (w : world) (input_files : list string)
  (labels : option (list Z)) (batch_size buffer_size max_len : Z)
  (validation_size test_size : spec_float)
  (encode_text bert_embed do_padding caching : bool) (size : Z)
  (g : TweetDataset.t) :
  TweetDataset.init w input_files labels batch_size buffer_size max_len
    validation_size test_size encode_text bert_embed do_padding caching size
    = Ok g ->
  if truthy labels then
    (exists validation_split test_split train_split,
       TweetDataset.split_counts size batch_size validation_size test_size
         = Ok (validation_split, test_split, train_split) /\
       TweetDataset.steps_per_epoch g = Some train_split /\
       TweetDataset.valid_steps_per_epoch g = Some validation_split) /\
    is_Some (TweetDataset.train g) /\
    is_Some (TweetDataset.validate g) /\
    is_Some (TweetDataset.test g) /\
    TweetDataset.pred_data g = None
  else
    TweetDataset.steps_per_epoch g = None /\
    TweetDataset.valid_steps_per_epoch g = None /\
    TweetDataset.train g = None /\
    TweetDataset.validate g = None /\
    TweetDataset.test g = None /\
    TweetDataset.pred_data g
      = Some (shuffle w element size (TweetDataset.dataset g)).
Proof.
  unfold TweetDataset.init.
  destruct (TweetDataset.load_dataset _ _ _ _ _) as [d|]; [| discriminate].
  rewrite bind_Ok_l.
  destruct (if encode_text && negb bert_embed
            then encode_text_pass w (truthy labels) d else Ok d)
    as [d'|]; [| discriminate].
  rewrite bind_Ok_l. destruct (truthy labels).
  - destruct (TweetDataset.split_dataset _ _ _ _ _)
      as [[s' [[tr va] te]]|] eqn:E; [| discriminate].
    rewrite bind_Ok_l. intros [= <-]. cbn.
    pose proof (split_dataset_pred_data _ _ _ _ _ _ _ E) as Hp.
    apply split_dataset_inv in E
      as (bs & val & tst & trn & _ & Hc & _ & Hst & Hvs & _).
    cbn in Hc. split; [exists val, tst, trn; auto |].
    repeat split; eauto.
  - unfold TweetDataset.predict_data. cbn.
    destruct (if do_padding then _ else _) as [d''|]; [| discriminate].
    rewrite bind_Ok_l. unfold checked_shuffle.
    destruct (size <=? 0); [discriminate |].
    rewrite bind_Ok_l. intros [= <-]. cbn. auto 10.
Qed.

Lemma init_modes_witness :
  exists g,
    TweetDataset.init demo_world ["pos.txt"] None 2 1000 100
      PyFloat.f0_2 PyFloat.f0_2 false false false false 3 = Ok g /\
    TweetDataset.train g = None /\
    TweetDataset.pred_data g = Some [Text "good"; Text "nice"; Text "fine"].
Proof.
  destruct (TweetDataset.init demo_world ["pos.txt"] None 2 1000 100
              PyFloat.f0_2 PyFloat.f0_2 false false false false 3)
    as [g|] eqn:E.
  - pose proof (init_modes _ _ _ _ _ _ _ _ _ _ _ _ _ g E) as H.
    cbn in H. destruct H as (_ & _ & Ht & _ & _ & Hp).
    exists g. split; [reflexivity |]. split; [exact Ht |].
    rewrite Hp. vm_compute in E. injection E as <-. reflexivity.
  - vm_compute in E. discriminate.
Defined.

(** Prediction without padding never batches: the constructed object
    does not depend on the batch size, the maximum length, the split
    fractions or the caching flag. *)
Theorem prediction_ignores_batching (w : world) (input_files : list string)
  (labels : option (list Z)) (batch_size batch_size' buffer_size : Z)
  (max_len max_len' : Z)
  (validation_size validation_size' test_size test_size' : spec_float)
  (encode_text bert_embed caching caching' : bool) (size : Z) :
  truthy labels = false ->
  TweetDataset.init w input_files labels batch_size buffer_size max_len
    validation_size test_size encode_text bert_embed false caching size
  = TweetDataset.init w input_files labels batch_size' buffer_size max_len'
      validation_size' test_size' encode_text bert_embed false caching' size.
Proof.
  intros Hl. unfold TweetDataset.init. rewrite Hl.
  destruct (TweetDataset.load_dataset _ _ _ _ _) as [d|]; [| reflexivity].
  rewrite !bind_Ok_l.
  destruct (if encode_text && negb bert_embed then _ else _) as [d'|];
    reflexivity.
Qed.

Lemma prediction_ignores_batching_witness :
  TweetDataset.init demo_world ["pos.txt"] None 2 1000 100
    PyFloat.f0_2 PyFloat.f0_2 false false false false 3
  = TweetDataset.init demo_world ["pos.txt"] None 0 1000 (-1)
      PyFloat.f0_75 PyFloat.f0_75 false false false true 3.
Proof.
  apply (prediction_ignores_batching demo_world ["pos.txt"] None).
  reflexivity.
Defined.

(** ** The element-count constructor returns *)

Lemma SFmul_comm (x y : spec_float) :
  SFmul PyFloat.prec PyFloat.emax x y = SFmul PyFloat.prec PyFloat.emax y x.
Proof.
  destruct x as [sx|sx| |sx mx ex], y as [sy|sy| |sy my ey];
    unfold SFmul; try reflexivity;
    rewrite (xorb_comm sx sy); try reflexivity.
  rewrite (Pos.mul_comm mx my), (Z.add_comm ex ey). reflexivity.
Qed.

(** [int(size * p)] is computed for every size below [2 ^ 1000] and
    every fraction. *)
Lemma int_count_total (n : Z) (p : spec_float) :
  0 <= n < 2 ^ 1000 -> PyFloat.is_fraction p = true ->
  exists z, (v ← PyFloat.int_mul n p; PyFloat.to_int v) = Ok z.
Proof.
  intros Hn Hp. destruct (of_int_total n Hn) as (y & Hy & Hb & _).
  unfold PyFloat.int_mul. rewrite Hy, !bind_Ok_l, SFmul_comm.
  eapply below_to_int. apply (SFmul_fraction_below p y 1001 Hp Hb). lia.
Qed.

Lemma split_data_total (size : Z) (x y : list element)
  (train_p valid_p test_p : spec_float) (batch_size : Z) :
  0 <= size < 2 ^ 1000 -> batch_size <> 0 ->
  PyFloat.is_fraction train_p = true ->
  PyFloat.is_fraction valid_p = true ->
  PyFloat.is_fraction test_p = true ->
  exists counts train valid test,
    TweetDatasetGenerator.split_data size x y train_p valid_p test_p batch_size
      = Ok (counts, (train, valid, test)).
Proof.
  intros Hs Hb Htp Hvp Hsp. unfold TweetDatasetGenerator.split_data.
  destruct (int_count_total size train_p Hs Htp) as [a ->].
  destruct (int_count_total size valid_p Hs Hvp) as [b ->].
  destruct (int_count_total size test_p Hs Hsp) as [c ->].
  rewrite !bind_Ok_l, !(floordiv_Ok _ _ Hb), !bind_Ok_l. eauto.
Qed.

Lemma preprocess_xy_total (w : world) (max_len : Z) (x : list element)
  (y : list Z) :
  Forall (fun e => exists line, e = Text line) x ->
  exists x', TweetDatasetGenerator.preprocess_xy w max_len x y
             = Ok (x', one_hot <$> y).
Proof.
  intros Hx. unfold TweetDatasetGenerator.preprocess_xy.
  destruct (mapM_all_Ok (TweetDatasetGenerator.tf_encode w max_len) x)
    as (x' & -> & _).
  - eapply Forall_impl; [exact Hx |]. intros e [line ->].
    cbn. destruct (TweetDatasetGenerator.get_bert_encoding w max_len line).
    eauto.
  - rewrite bind_Ok_l. eauto.
Qed.

Lemma batch_and_prepare_total (d : list element) (is_training : bool)
  (batch_size : Z) :
  0 < batch_size ->
  exists ds,
    TweetDatasetGenerator.batch_and_prepare d is_training batch_size = Ok ds.
Proof.
  intros Hb. unfold TweetDatasetGenerator.batch_and_prepare, Dataset.batch.
  replace (batch_size <=? 0) with false by (symmetry; apply Z.leb_gt; lia).
  rewrite bind_Ok_l. eauto.
Qed.

Lemma all_present_contents (w : world) (paths : list string) :
  all_present w paths ->
  exists contents,
    Forall2 (fun f lines => files w !! f = Some lines) paths contents.
Proof.
  induction 1 as [|p ps [lines Hp] _ [contents IH]].
  - exists []. constructor.
  - exists (lines :: contents). constructor; assumption.
Qed.

(** With the default maximum length of 50, the constructor of the
    element-count pipeline returns an object whenever the shuffle only
    reorders, the size is at least the number of files (so that the
    buffer size of the shuffles is positive) and below the full
    dimension, every file is present, there is a label for every file,
    the batch size is positive and the three fractions lie between 0 and
    1; the three stored counts are then not negative.  Nothing relates
    the fractions to each other or the size to the number of lines. *)
Theorem generator_init_total (w : world) (input_files : list string)
  (labels : list Z) (batch_size : Z)
  (train_p valid_p test_p : spec_float) (size : Z) :
  (forall (count : Z) (l : list element), shuffle w element count l ≡ₚ l) ->
  len input_files <= size < 2 ^ 1000 ->
  size < full_dimension w ->
  input_files <> [] ->
  all_present w input_files ->
  (length input_files <= length labels)%nat ->
  0 < batch_size ->
  PyFloat.is_fraction train_p = true ->
  PyFloat.is_fraction valid_p = true ->
  PyFloat.is_fraction test_p = true ->
  exists g,
    TweetDatasetGenerator.init w input_files (Some labels) batch_size 50
      train_p valid_p test_p size = Ok g /\
    0 <= TweetDatasetGenerator.train_size g /\
    0 <= TweetDatasetGenerator.valid_size g /\
    0 <= TweetDatasetGenerator.test_size g.
Proof.
  intros Hsh Hsize Hfull Hne Hall Hlen Hb Htp Hvp Hsp.
  assert (Hs : 0 <= size < 2 ^ 1000) by (unfold len in Hsize; lia).
  unfold TweetDatasetGenerator.init, assert_.
  replace (size <? full_dimension w) with true
    by (symmetry; apply Z.ltb_lt; lia).
  rewrite bind_Ok_l.
  destruct (all_present_contents w input_files Hall) as [contents Hc].
  rewrite (load_data_from_files_exact w size input_files contents labels
             Hc Hne Hlen).
  rewrite bind_Ok_l.
  destruct (preprocess_xy_total w 50
              (shuffle w element (size / len input_files)
                 (concat ((fun lines : list string => Text <$> lines)
                            <$> contents)))
              (shuffle w Z (size / len input_files)
                 (concat ((fun label : Z =>
                             py_repeat label (size / len input_files))
                            <$> take (length input_files) labels))))
    as [x' ->].
  { eapply Permutation_Forall; [symmetry; apply Hsh |].
    apply Forall_concat, Forall_fmap, Forall_true. intros lines.
    apply Forall_fmap, Forall_true. intros line. cbn. eauto. }
  rewrite bind_Ok_l.
  destruct (split_data_total size x'
              (one_hot <$> shuffle w Z (size / len input_files)
                 (concat ((fun label : Z =>
                             py_repeat label (size / len input_files))
                            <$> take (length input_files) labels)))
              train_p valid_p test_p batch_size Hs ltac:(lia) Htp Hvp Hsp)
    as ([[c1 c2] c3] & tr & va & te & Hsplit).
  rewrite Hsplit, bind_Ok_l.
  destruct (batch_and_prepare_total tr true batch_size Hb) as [dtr ->].
  destruct (batch_and_prepare_total va false batch_size Hb) as [dva ->].
  destruct (batch_and_prepare_total te false batch_size Hb) as [dte ->].
  rewrite !bind_Ok_l. eexists. split; [reflexivity |]. cbn.
  apply split_data_inv in Hsplit
    as (a & b & c & Ha & Hb' & Hc' & _ & [= -> -> ->] & _).
  pose proof (int_count_nonneg _ _ _ (proj1 Hs) (is_fraction_nonneg _ Htp) Ha).
  pose proof (int_count_nonneg _ _ _ (proj1 Hs) (is_fraction_nonneg _ Hvp) Hb').
  pose proof (int_count_nonneg _ _ _ (proj1 Hs) (is_fraction_nonneg _ Hsp) Hc').
  repeat split; apply Z.div_pos; lia.
Qed.

Lemma generator_init_total_witness :
  exists g,
    TweetDatasetGenerator.init demo_world ["pos.txt"; "neg.txt"]
      (Some [0; 1]) 2 50 PyFloat.f0_75 PyFloat.f0_2 PyFloat.f0_2 6 = Ok g /\
    0 <= TweetDatasetGenerator.train_size g /\
    0 <= TweetDatasetGenerator.valid_size g /\
    0 <= TweetDatasetGenerator.test_size g.
Proof.
  apply (generator_init_total demo_world ["pos.txt"; "neg.txt"] [0; 1] 2
           PyFloat.f0_75 PyFloat.f0_2 PyFloat.f0_2 6).
  - intros count l. apply reverse_Permutation.
  - unfold len. cbn. lia.
  - vm_compute. reflexivity.
  - discriminate.
  - repeat (apply Forall_cons_2; [vm_compute; eauto |]). apply Forall_nil_2.
  - cbn. lia.
  - lia.
  - reflexivity.
  - reflexivity.
  - reflexivity.
Defined.

(** ** Padding in supervised mode *)

(** No padded shape takes a batch as a component. *)
Lemma pad_element_Batch (s : shapes) (es : list element) :
  pad_element s (Batch es) = Raise ValueError.
Proof. destruct s; reflexivity. Qed.

(** Padding a sequence of batches returns only when there is none. *)
Lemma padded_batch_batches (batch_size : Z) (s : shapes)
  (batches : list (list element)) (out : list element) :
  padded_batch batch_size s (Batch <$> batches) = Ok out -> batches = [].
Proof.
  destruct batches as [|b bs]; [reflexivity |].
  unfold padded_batch. cbn [fmap list_fmap]. rewrite mapM_cons.
  rewrite pad_element_Batch. discriminate.
Qed.

Lemma take_fmap_Batch (count : Z) (batches : list (list element)) :
  Dataset.take count (Batch <$> batches)
  = Batch <$> Dataset.take count batches.
Proof. apply take_fmap_Dataset. Qed.

Lemma skip_fmap_Batch (count : Z) (batches : list (list element)) :
  Dataset.skip count (Batch <$> batches)
  = Batch <$> Dataset.skip count batches.
Proof.
  unfold Dataset.skip. destruct (count <? 0); [reflexivity |].
  symmetry. apply fmap_drop.
Qed.

(** The three slices of [split_dataset] cover the sequence, whatever the
    signs of the counts. *)
Lemma slices_cover {A : Type} (a b : Z) (l : list A) :
  Dataset.skip (a + b) l = [] ->
  Dataset.take a l = [] ->
  Dataset.take b (Dataset.skip a l) = [] ->
  l = [].
Proof.
  destruct (Z.ltb_spec a 0) as [Ha|Ha].
  - intros _ H _. unfold Dataset.take in H.
    replace (a <? 0) with true in H by (symmetry; apply Z.ltb_lt; lia).
    exact H.
  - destruct (Z.ltb_spec b 0) as [Hb|Hb].
    + intros _ H1 H2. unfold Dataset.take, Dataset.skip in *.
      replace (a <? 0) with false in * by (symmetry; apply Z.ltb_ge; lia).
      replace (b <? 0) with true in * by (symmetry; apply Z.ltb_lt; lia).
      rewrite <- (take_drop (Z.to_nat a) l), H1, H2. reflexivity.
    + intros H3 H1 H2.
      destruct (slices_partition a b l Ha Hb) as (_ & _ & _ & Hl).
      rewrite H1, H2, H3 in Hl. exact Hl.
Qed.

(** With padding on, [split_dataset] pads sequences of batches with the
    shapes of single records, which no batch fits: on a dataset that is
    not empty it never returns. *)
Theorem supervised_padding_rejected (self : TweetDataset.t)
  (batch_size max_len : Z) (validation_size test_size : spec_float) :
  TweetDataset.do_padding self = true ->
  TweetDataset.dataset self <> [] ->
  exists e,
    TweetDataset.split_dataset self batch_size validation_size test_size
      max_len = Raise e.
Proof.
  intros Hpad Hne.
  destruct (TweetDataset.split_dataset self batch_size validation_size
              test_size max_len) as [[s' [[tr va] te]]|e] eqn:E; [| eauto].
  exfalso.
  apply split_dataset_inv in E
    as (batches & val & tst & trn & Hb & _ & _ & _ & _ & Htr & Hva & Hte).
  rewrite Hpad in Htr, Hva, Hte. cbn [TweetDataset.maybe_pad] in *.
  rewrite skip_fmap_Batch in Htr. rewrite take_fmap_Batch in Hva.
  rewrite skip_fmap_Batch, take_fmap_Batch in Hte.
  apply padded_batch_batches in Htr, Hva, Hte.
  pose proof (slices_cover val tst batches Htr Hva Hte) as Hnil.
  apply batch_Ok_pos in Hb as [Hpos Hg]. rewrite Hnil in Hg.
  symmetry in Hg. revert Hg. apply groups_keep_nonempty; [lia | exact Hne].
Qed.

Lemma supervised_padding_rejected_witness :
  TweetDataset.split_dataset demo_supervised_padded 2
    PyFloat.f0_2 PyFloat.f0_2 100 = Raise ValueError.
Proof.
  destruct (supervised_padding_rejected demo_supervised_padded 2 100
              PyFloat.f0_2 PyFloat.f0_2 eq_refl ltac:(discriminate))
    as [e He].
  rewrite He. vm_compute in He. injection He as <-. reflexivity.
Defined.

Lemma get_segments_no_sep_witness :
  BERT_EMBEDDING.get_segments ["[CLS]"; "good"] 4 = Ok [0; 0; 0; 0].
Proof.
  apply (get_segments_no_sep ["[CLS]"; "good"] 4).
  - intros H. repeat (apply elem_of_cons in H as [H|H]; [discriminate |]).
    inversion H.
  - unfold len. cbn. lia.
Defined.
